(** * Verification of the log-tailing and SAM debugging helpers

    Shallow embedding of the TypeScript sources (the CloudWatch Logs
    [tailLogGroup] command with its [TailLogGroupWizard], the Python debug
    adapter polling loop and the SAM debug configuration builder), together
    with the prompting engine they are written against. *)

From Stdlib Require Import ZArith List String Ascii Bool Lia PeanoNat DecimalString.
Import ListNotations.

Local Open Scope string_scope.

(* ================================================================== *)
(** * Part I: the embedding                                            *)
(* ================================================================== *)

(** ** JavaScript strings

    A JavaScript string is a finite sequence of code units; [':'] and ['*']
    are single code units, so [string] models it faithfully for the functions
    below. *)
Module JsString.

(** [s.endsWith(search)]: the [search.length] code units that end at
    [s.length] are those of [search]; false when [s] is too short. *)
Definition endsWith (s search : string) : bool :=
  let len := String.length s in
  let searchLength := String.length search in
  if (len <? searchLength)%nat then false
  else String.eqb (substring (len - searchLength) searchLength s) search.

(** [s.substring(start, end)]: both indices are clamped to [0, s.length]
    and swapped when [start] exceeds [end]. *)
Definition js_substring (s : string) (start end_ : Z) : string :=
  let len := Z.of_nat (String.length s) in
  let finalStart := Z.min (Z.max start 0) len in
  let finalEnd := Z.min (Z.max end_ 0) len in
  let from := Z.min finalStart finalEnd in
  let to := Z.max finalStart finalEnd in
  substring (Z.to_nat from) (Z.to_nat (to - from)) s.

(** JavaScript truthiness of a string: only the empty string is falsy. *)
Definition truthy (s : string) : bool :=
  negb (String.eqb s "").

(** Truthiness of [string | undefined]. *)
Definition truthy_opt (o : option string) : bool :=
  match o with
  | Some s => truthy s
  | None => false
  end.

End JsString.

(** ** [formatGroupArn] *)
Module Arn.
Import JsString.

(** [groupArn.endsWith(':*') ? groupArn.substring(0, groupArn.length - 2) : groupArn] *)
Definition formatGroupArn (groupArn : string) : string :=
  if endsWith groupArn ":*"
  then js_substring groupArn 0 (Z.of_nat (String.length groupArn) - 2)
  else groupArn.

End Arn.

(** ** JavaScript objects

    Object literals are kept as they are written: an ordered list of
    own properties.  A property whose value is [undefined] is still a
    property of the object, which is what distinguishes
    [{...response, lambda: undefined}] from [response]. *)
Module JsObject.

#[warnings="-register-all"]
Inductive JsVal :=
| JUndefined
| JStr (s : string)
| JNum (n : Z)
| JBool (b : bool)
| JObj (props : list (string * JsVal)).

Definition props_of (v : JsVal) : list (string * JsVal) :=
  match v with
  | JObj props => props
  | _ => []
  end.

Fixpoint lookup_prop (key : string) (props : list (string * JsVal)) : option JsVal :=
  match props with
  | [] => None
  | (k, v) :: rest => if String.eqb k key then Some v else lookup_prop key rest
  end.

(** [key in o] for own properties. *)
Definition hasProp (o : JsVal) (key : string) : bool :=
  match lookup_prop key (props_of o) with
  | Some _ => true
  | None => false
  end.

(** [o.key]: a missing property reads as [undefined]. *)
Definition getProp (o : JsVal) (key : string) : JsVal :=
  match lookup_prop key (props_of o) with
  | Some v => v
  | None => JUndefined
  end.

Fixpoint set_prop (key : string) (v : JsVal) (props : list (string * JsVal))
  : list (string * JsVal) :=
  match props with
  | [] => [(key, v)]
  | (k, w) :: rest =>
      if String.eqb k key then (k, v) :: rest else (k, w) :: set_prop key v rest
  end.

(** [{...o, k1: v1, ..., kn: vn}]: later properties overwrite earlier ones
    of the same name and new names are appended. *)
Definition spread (o : JsVal) (more : list (string * JsVal)) : JsVal :=
  JObj (fold_left (fun acc kv => set_prop (fst kv) (snd kv) acc) more (props_of o)).

(** Strict equality [===] against a string constant. *)
Definition strictEqStr (v : JsVal) (s : string) : bool :=
  match v with
  | JStr t => String.eqb t s
  | _ => false
  end.

End JsObject.

(** ** awsSamDebugConfiguration.ts *)
Module SamDebug.
Import JsString JsObject.

Definition AWS_SAM_DEBUG_TYPE : string := "aws-sam".
Definition DIRECT_INVOKE_TYPE : string := "direct-invoke".
Definition TEMPLATE_TARGET_TYPE : string := "template".
Definition CODE_TARGET_TYPE : string := "code".
Definition AWS_SAM_DEBUG_REQUEST_TYPES : list string := [DIRECT_INVOKE_TYPE].
Definition AWS_SAM_DEBUG_TARGET_TYPES : list string :=
  [TEMPLATE_TARGET_TYPE; CODE_TARGET_TYPE].

(** [ReadonlyJsonObject]: string keys, values [string | number | boolean]. *)
Inductive JsonPrim :=
| PStr (s : string)
| PNum (n : Z)
| PBool (b : bool).

Definition ReadonlyJsonObject := list (string * JsonPrim).

Definition prim_val (p : JsonPrim) : JsVal :=
  match p with
  | PStr s => JStr s
  | PNum n => JNum n
  | PBool b => JBool b
  end.

Definition json_val (o : ReadonlyJsonObject) : JsVal :=
  JObj (map (fun kv => (fst kv, prim_val (snd kv))) o).

Definition opt_val {A : Type} (f : A -> JsVal) (o : option A) : JsVal :=
  match o with
  | Some a => f a
  | None => JUndefined
  end.

(** The part of [vscode.WorkspaceFolder] that is read: [folder.uri.fsPath]. *)
Record WorkspaceFolder := { fsPath : string; folderName : string; folderIndex : Z }.

(** The optional [preloadedConfig] argument. *)
Record PreloadedConfig := {
  eventJson : option ReadonlyJsonObject;
  environmentVariables : option ReadonlyJsonObject;
  dockerNetwork : option string;
  useContainer : option bool
}.

Definition isAwsSamDebugConfiguration (config : JsVal) : bool :=
  strictEqStr (getProp config "type") AWS_SAM_DEBUG_TYPE.

Definition isTemplateTargetProperties (props : JsVal) : bool :=
  strictEqStr (getProp props "target") TEMPLATE_TARGET_TYPE.

Definition isCodeTargetProperties (props : JsVal) : bool :=
  strictEqStr (getProp props "target") CODE_TARGET_TYPE.

(** [extraInfo ? `${primaryName} (${extraInfo})` : `${primaryName}`] *)
Definition makeName (primaryName : string) (extraInfo : option string) : string :=
  match extraInfo with
  | Some info => if truthy info then primaryName ++ " (" ++ info ++ ")" else primaryName
  | None => primaryName
  end.

Section WithPathUtils.

(** [getNormalizedRelativePath] lives in [utilities/pathUtils]; the builder
    only passes its result on. *)
Variable getNormalizedRelativePath : string -> string -> string.

Definition createTemplateAwsSamDebugConfig
    (folder : option WorkspaceFolder) (runtimeName : option string)
    (resourceName templatePath : string)
    (preloadedConfig : option PreloadedConfig) : JsVal :=
  let workspaceRelativePath :=
    match folder with
    | Some f => getNormalizedRelativePath (fsPath f) templatePath
    | None => templatePath
    end in
  let response :=
    JObj [ ("type", JStr AWS_SAM_DEBUG_TYPE);
           ("request", JStr DIRECT_INVOKE_TYPE);
           ("name", JStr (makeName resourceName runtimeName));
           ("invokeTarget",
             JObj [ ("target", JStr TEMPLATE_TARGET_TYPE);
                    ("samTemplatePath", JStr workspaceRelativePath);
                    ("samTemplateResource", JStr resourceName) ]) ] in
  match preloadedConfig with
  | Some pc =>
      spread response
        [ ("lambda",
            match environmentVariables pc, eventJson pc with
            | None, None => JUndefined
            | _, _ =>
                JObj [ ("event",
                         match eventJson pc with
                         | Some ev => JObj [ ("json", json_val ev) ]
                         | None => JUndefined
                         end);
                       ("environmentVariables",
                         opt_val json_val (environmentVariables pc)) ]
            end);
          ("sam",
            if truthy_opt (dockerNetwork pc)
               || match useContainer pc with Some b => b | None => false end
            then JObj [ ("dockerNetwork", opt_val JStr (dockerNetwork pc));
                        ("containerBuild", opt_val JBool (useContainer pc)) ]
            else JUndefined) ]
  | None => response
  end.

End WithPathUtils.

End SamDebug.

(** ** Errors, completions and promises *)
Module Js.

Inductive JsError :=
| PlainError (message : string)              (* [Error(message)] *)
| TypeError (message : string)
| CancellationError (agent : string)         (* [new CancellationError(agent)] *)
| ToolkitError (message : string) (cause : JsError).  (* [ToolkitError.chain(cause, message)] *)

(** Completion of a call or of an awaited promise that has settled. *)
Inductive Result (A : Type) :=
| Ok (a : A)
| Throw (e : JsError).
Arguments Ok {A} a.
Arguments Throw {A} e.

Inductive Promise (A : Type) :=
| Pending
| Resolved (a : A)
| Rejected (e : JsError).
Arguments Pending {A}.
Arguments Resolved {A} a.
Arguments Rejected {A} e.

(** Settling a promise: only the first [resolve] has an effect. *)
Definition resolve {A : Type} (a : A) (p : Promise A) : Promise A :=
  match p with
  | Pending => Resolved a
  | _ => p
  end.

(** The promise has not been rejected. *)
Definition not_rejected {A : Type} (p : Promise A) : Prop :=
  forall e, p <> Rejected e.

End Js.

(** ** Prompt results, buttons and the input box *)
Module Prompter.
Import JsString Js.

(** Modelled from the spec: [PromptResult<T>] of [shared/ui/prompter] is not
    among the sources; it is a value or one of the two control signals.  The
    test suite observes the cancel signal of an input box as [undefined] and
    the back signal as [WIZARD_BACK]. *)
Inductive PromptResult (T : Type) :=
| Value (v : T)
| Back
| Cancel.
Arguments Value {T} v.
Arguments Back {T}.
Arguments Cancel {T}.

Definition WIZARD_BACK {T : Type} : PromptResult T := Back.

(** [QuickInputButton<T>]: [{ iconPath, tooltip?, onClick(resolve) }].  A
    click handler is represented by what it does when run on the caller's
    variables [W]: the new variables and the arguments of the calls it makes
    to the resolver it was handed, in order. *)
Record QuickInputButton (W T : Type) := {
  iconPath : string;
  tooltip : option string;
  onClick : W -> W * list (PromptResult T)
}.
Arguments iconPath {W T} _.
Arguments tooltip {W T} _.
Arguments onClick {W T} _ _.

(** Modelled from the spec: [createBackButton] of [shared/ui/buttons] is not
    among the sources; a back button is a button whose click signals "back"
    through the resolver. *)
Definition createBackButton {W T : Type} : QuickInputButton W T :=
  {| iconPath := "back"; tooltip := Some "Back";
     onClick := fun w => (w, [WIZARD_BACK]) |}.

(** The fields of [TestInputBox] (the [DataInputBox] of the test suite). *)
Record TestInputBox (W : Type) := {
  value : string;
  placeholder : option string;
  password : bool;
  buttons : list (QuickInputButton W string);
  prompt_ : option string;
  validationMessage : option string;
  title : option string;
  step : option Z;
  totalSteps : option Z;
  enabled : bool;
  busy : bool;
  ignoreFocusOut : bool;
  isShowing : bool
}.
Arguments value {W} _.
Arguments placeholder {W} _.
Arguments password {W} _.
Arguments buttons {W} _.
Arguments prompt_ {W} _.
Arguments validationMessage {W} _.
Arguments title {W} _.
Arguments step {W} _.
Arguments totalSteps {W} _.
Arguments enabled {W} _.
Arguments busy {W} _.
Arguments ignoreFocusOut {W} _.
Arguments isShowing {W} _.

(** [new TestInputBox()] with its field initialisers. *)
Definition newTestInputBox {W : Type} : TestInputBox W :=
  {| value := ""; placeholder := None; password := false; buttons := [];
     prompt_ := None; validationMessage := None; title := None;
     step := None; totalSteps := None; enabled := true; busy := false;
     ignoreFocusOut := false; isShowing := false |}.

Section Setters.
Context {W : Type}.

Definition set_value (v : string) (b : TestInputBox W) : TestInputBox W :=
  {| value := v; placeholder := placeholder b; password := password b;
     buttons := buttons b; prompt_ := prompt_ b;
     validationMessage := validationMessage b; title := title b;
     step := step b; totalSteps := totalSteps b; enabled := enabled b;
     busy := busy b; ignoreFocusOut := ignoreFocusOut b;
     isShowing := isShowing b |}.

Definition set_validationMessage (m : option string) (b : TestInputBox W)
  : TestInputBox W :=
  {| value := value b; placeholder := placeholder b; password := password b;
     buttons := buttons b; prompt_ := prompt_ b;
     validationMessage := m; title := title b;
     step := step b; totalSteps := totalSteps b; enabled := enabled b;
     busy := busy b; ignoreFocusOut := ignoreFocusOut b;
     isShowing := isShowing b |}.

Definition set_busy (x : bool) (b : TestInputBox W) : TestInputBox W :=
  {| value := value b; placeholder := placeholder b; password := password b;
     buttons := buttons b; prompt_ := prompt_ b;
     validationMessage := validationMessage b; title := title b;
     step := step b; totalSteps := totalSteps b; enabled := enabled b;
     busy := x; ignoreFocusOut := ignoreFocusOut b;
     isShowing := isShowing b |}.

Definition set_isShowing (x : bool) (b : TestInputBox W) : TestInputBox W :=
  {| value := value b; placeholder := placeholder b; password := password b;
     buttons := buttons b; prompt_ := prompt_ b;
     validationMessage := validationMessage b; title := title b;
     step := step b; totalSteps := totalSteps b; enabled := enabled b;
     busy := busy b; ignoreFocusOut := ignoreFocusOut b;
     isShowing := x |}.

Definition set_buttons (bs : list (QuickInputButton W string))
    (b : TestInputBox W) : TestInputBox W :=
  {| value := value b; placeholder := placeholder b; password := password b;
     buttons := bs; prompt_ := prompt_ b;
     validationMessage := validationMessage b; title := title b;
     step := step b; totalSteps := totalSteps b; enabled := enabled b;
     busy := busy b; ignoreFocusOut := ignoreFocusOut b;
     isShowing := isShowing b |}.

Definition set_title (t : option string) (b : TestInputBox W) : TestInputBox W :=
  {| value := value b; placeholder := placeholder b; password := password b;
     buttons := buttons b; prompt_ := prompt_ b;
     validationMessage := validationMessage b; title := t;
     step := step b; totalSteps := totalSteps b; enabled := enabled b;
     busy := busy b; ignoreFocusOut := ignoreFocusOut b;
     isShowing := isShowing b |}.

Definition set_placeholder (t : option string) (b : TestInputBox W)
  : TestInputBox W :=
  {| value := value b; placeholder := t; password := password b;
     buttons := buttons b; prompt_ := prompt_ b;
     validationMessage := validationMessage b; title := title b;
     step := step b; totalSteps := totalSteps b; enabled := enabled b;
     busy := busy b; ignoreFocusOut := ignoreFocusOut b;
     isShowing := isShowing b |}.

End Setters.

(** A listener on [onDidChangeValue]: it receives the new text and may
    update the box. *)
Definition ChangeListener (W : Type) := string -> TestInputBox W -> TestInputBox W.

(** Modelled from the spec: [InputBoxPrompter] of [shared/ui/input] is not
    among the sources (only its test suite is).  The prompter owns an input
    box; [prompt()] shows the box, subscribes once to its accept, hide and
    button events and returns a promise that the first terminal action
    settles: accept resolves with the current text unless a non-empty
    validation message blocks it, hide resolves the cancel signal, and a
    button click hands the resolver to the button's handler. *)
Record InputBoxPrompter (W : Type) := {
  inputBox : TestInputBox W;
  subscribed : bool;
  promptPromise : Promise (PromptResult string);
  changeListeners : list (ChangeListener W);
  vars : W
}.
Arguments inputBox {W} _.
Arguments subscribed {W} _.
Arguments promptPromise {W} _.
Arguments changeListeners {W} _.
Arguments vars {W} _.

Section Events.
Context {W : Type}.

Definition newInputBoxPrompter (box : TestInputBox W) (w : W) : InputBoxPrompter W :=
  {| inputBox := box; subscribed := false; promptPromise := Pending;
     changeListeners := []; vars := w |}.

Definition with_box (f : TestInputBox W -> TestInputBox W)
    (p : InputBoxPrompter W) : InputBoxPrompter W :=
  {| inputBox := f (inputBox p); subscribed := subscribed p;
     promptPromise := promptPromise p; changeListeners := changeListeners p;
     vars := vars p |}.

(** The resolver of the promise of [prompt()], as handed to the handlers. *)
Definition settle (r : PromptResult string) (p : InputBoxPrompter W)
  : InputBoxPrompter W :=
  {| inputBox := inputBox p; subscribed := subscribed p;
     promptPromise := resolve r (promptPromise p);
     changeListeners := changeListeners p; vars := vars p |}.

(** [inputBox.onDidChangeValue(listener)]: one more subscriber. *)
Definition onDidChangeValue (l : ChangeListener W) (p : InputBoxPrompter W)
  : InputBoxPrompter W :=
  {| inputBox := inputBox p; subscribed := subscribed p;
     promptPromise := promptPromise p;
     changeListeners := changeListeners p ++ [l]; vars := vars p |}.

(** Modelled from the spec: [InputBoxPrompter.prompt()] is not among the
    sources; it subscribes the three handlers below to the box, once, and
    shows the box ([TestInputBox.show()] sets [isShowing]). *)
Definition prompt (p : InputBoxPrompter W) : InputBoxPrompter W :=
  {| inputBox := set_isShowing true (inputBox p); subscribed := true;
     promptPromise := promptPromise p; changeListeners := changeListeners p;
     vars := vars p |}.

(** Modelled from the spec: the handler of [onDidHide], missing with the
    prompter; a hide without accept resolves the cancel signal. *)
Definition onHide (p : InputBoxPrompter W) : InputBoxPrompter W :=
  settle Cancel p.

(** Modelled from the spec: the handler of [onDidAccept], missing with the
    prompter; it resolves with the current text, unless a non-empty
    validation message blocks acceptance. *)
Definition onAccept (p : InputBoxPrompter W) : InputBoxPrompter W :=
  if truthy_opt (validationMessage (inputBox p)) then p
  else settle (Value (value (inputBox p))) p.

(** Modelled from the spec: the handler of [onDidTriggerButton], missing
    with the prompter; it runs [button.onClick(resolve)]. *)
Definition onTriggerButton (b : QuickInputButton W string) (p : InputBoxPrompter W)
  : InputBoxPrompter W :=
  let '(w', calls) := onClick b (vars p) in
  let called := fold_left (fun q r => settle r q) calls p in
  {| inputBox := inputBox called; subscribed := subscribed called;
     promptPromise := promptPromise called;
     changeListeners := changeListeners called; vars := w' |}.

(** [emitter.fire()]: the handler runs if [prompt()] has subscribed it. *)
Definition fire (handler : InputBoxPrompter W -> InputBoxPrompter W)
    (p : InputBoxPrompter W) : InputBoxPrompter W :=
  if subscribed p then handler p else p.

(** [TestInputBox.hide()]: fire [onDidHide], then [isShowing = false]. *)
Definition hide (p : InputBoxPrompter W) : InputBoxPrompter W :=
  with_box (set_isShowing false) (fire onHide p).

(** [TestInputBox.accept(value)]: store the text, fire [onDidAccept], then
    [isShowing = false]. *)
Definition accept (v : string) (p : InputBoxPrompter W) : InputBoxPrompter W :=
  with_box (set_isShowing false) (fire onAccept (with_box (set_value v) p)).

(** [TestInputBox.pressButton(button)]: fire [onDidTriggerButton]. *)
Definition pressButton (b : QuickInputButton W string) (p : InputBoxPrompter W)
  : InputBoxPrompter W :=
  fire (onTriggerButton b) p.

(** The user edits the text: the box takes the new value and fires
    [onDidChangeValue] to every listener, in subscription order. *)
Definition changeValue (v : string) (p : InputBoxPrompter W) : InputBoxPrompter W :=
  with_box
    (fun box => fold_left (fun bx l => l v bx) (changeListeners p) (set_value v box))
    p.

Inductive UserEvent :=
| EvAccept (v : string)
| EvHide
| EvPressButton (b : QuickInputButton W string)
| EvChangeValue (v : string).

Definition handle (p : InputBoxPrompter W) (ev : UserEvent) : InputBoxPrompter W :=
  match ev with
  | EvAccept v => accept v p
  | EvHide => hide p
  | EvPressButton b => pressButton b p
  | EvChangeValue v => changeValue v p
  end.

Definition handleAll (evs : list UserEvent) (p : InputBoxPrompter W)
  : InputBoxPrompter W :=
  fold_left handle evs p.

End Events.

End Prompter.

(** ** The search pattern prompter of the log-tailing command *)
Module SearchPattern.
Import JsString Js Prompter.

Record CloudWatchLogsGroupInfo := { groupName : string; regionName : string }.

(** [CloudWatchLogsParameters]; the prompter only carries it. *)
Record CloudWatchLogsParameters := {
  filterPattern : option string;
  limit : option Z;
  startTime : option Z;
  endTime : option Z
}.

(** The ad-hoc [retryState] object: created as [{}] by the wizard, shared
    by reference with every prompter the wizard's factory creates. *)
Module RetryState.
Record t := { searchPattern : option string; validationMessage : option string }.
Definition empty : t := {| searchPattern := None; validationMessage := None |}.
Definition set_searchPattern (o : option string) (r : t) : t :=
  {| searchPattern := o; validationMessage := validationMessage r |}.
End RetryState.

(** [ExtendedInputBoxOptions]; the recognised options. *)
Record ExtendedInputBoxOptions (W : Type) := {
  optTitle : option string;
  optPlaceholder : option string;
  optIgnoreFocusOut : option bool;
  optButtons : option (list (QuickInputButton W string))
}.
Arguments optTitle {W} _.
Arguments optPlaceholder {W} _.
Arguments optIgnoreFocusOut {W} _.
Arguments optButtons {W} _.

Definition noOptions {W : Type} : ExtendedInputBoxOptions W :=
  {| optTitle := None; optPlaceholder := None; optIgnoreFocusOut := None;
     optButtons := None |}.

(** [class SearchPatternPrompter extends InputBoxPrompter]: the inherited
    part is [base]; its [inputBox] is the box passed to the constructor. *)
Record SearchPatternPrompter (W : Type) := {
  logGroup : CloudWatchLogsGroupInfo;
  logParams : CloudWatchLogsParameters;
  options : ExtendedInputBoxOptions W;
  base : InputBoxPrompter W
}.
Arguments logGroup {W} _.
Arguments logParams {W} _.
Arguments options {W} _.
Arguments base {W} _.

Section Constructor.
Context {W : Type}.

(** [val => { this.inputBox.validationMessage = undefined }] *)
Definition clearValidationMessage : ChangeListener W :=
  fun _ box => set_validationMessage None box.

(** The constructor: [super(inputBox, options)], then the validation message
    and the value are restored from [retryState] when it holds truthy ones,
    then the change listener is subscribed. *)
Definition newSearchPatternPrompter
    (lg : CloudWatchLogsGroupInfo) (lp : CloudWatchLogsParameters)
    (retryState : RetryState.t) (box : TestInputBox W)
    (opts : ExtendedInputBoxOptions W) (w : W) : SearchPatternPrompter W :=
  let super := newInputBoxPrompter box w in
  let p1 :=
    with_box
      (set_validationMessage
         (if truthy_opt (RetryState.validationMessage retryState)
          then RetryState.validationMessage retryState
          else None))
      super in
  let p2 :=
    match RetryState.searchPattern retryState with
    | Some pat => if truthy pat then with_box (set_value pat) p1 else p1
    | None => p1
    end in
  {| logGroup := lg; logParams := lp; options := opts;
     base := onDidChangeValue clearValidationMessage p2 |}.

End Constructor.

(** *** [promptUser]

    The method runs on the prompter's input box and on the shared
    [retryState]; both are threaded through a small state-and-exception
    monad whose trace records the store after every step, so that what is
    true "throughout" a phase can be stated. *)
Record Store (W : Type) := {
  box : TestInputBox W;
  retryState : RetryState.t
}.
Arguments box {W} _.
Arguments retryState {W} _.

(** [this.inputBox.busy] read in a store. *)
Definition busyIn {W : Type} (s : Store W) : bool := busy (box s).

Definition Exec (W A : Type) : Type :=
  Store W -> (Result A * Store W) * list (Store W).

Section ExecMonad.
Context {W : Type}.

Definition ret {A : Type} (a : A) : Exec W A :=
  fun s => ((Ok a, s), []).

Definition bind {A B : Type} (m : Exec W A) (k : A -> Exec W B) : Exec W B :=
  fun s =>
    let '((r, s1), t1) := m s in
    match r with
    | Ok a => let '((r2, s2), t2) := k a s1 in ((r2, s2), (t1 ++ t2)%list)
    | Throw e => ((Throw e, s1), t1)
    end.

(** A statement that updates the store. *)
Definition update (f : Store W -> Store W) : Exec W unit :=
  fun s => ((Ok tt, f s), [f s]).

(** A call that may throw and leaves the store alone. *)
Definition call {A : Type} (f : Store W -> Result A) : Exec W A :=
  fun s => ((f s, s), [s]).

(** [try { body } finally { fin }]: [fin] runs however [body] completes;
    the completion of [body] is kept unless [fin] itself throws. *)
Definition tryFinally {A : Type} (body : Exec W A) (fin : Exec W unit) : Exec W A :=
  fun s =>
    let '((r, s1), t1) := body s in
    let '((rf, s2), t2) := fin s1 in
    ((match rf with Ok _ => r | Throw e => Throw e end, s2), (t1 ++ t2)%list).

End ExecMonad.

Notation "x <- m ;; k" := (bind m (fun x => k))
  (at level 61, m at next level, right associativity).
Notation "m ;;; k" := (bind m (fun _ => k))
  (at level 61, right associativity).

Section PromptUser.
Context {W : Type}.

(** [isWizardControl] and [isValidResponse] are imported from
    [shared/wizards/wizard]; like any call they may throw. *)
Variable isWizardControl : PromptResult string -> Result bool.
Variable isValidResponse : PromptResult string -> Result bool.

Definition set_box_busy (b : bool) (s : Store W) : Store W :=
  {| box := set_busy b (box s); retryState := retryState s |}.

(** [this.retryState.searchPattern = isValidResponse(rv) ? rv : undefined];
    [isValidResponse] is a type guard for the string case. *)
Definition rememberPattern (valid : bool) (rv : PromptResult string) (s : Store W)
  : Store W :=
  {| box := box s;
     retryState :=
       RetryState.set_searchPattern
         (if valid then match rv with Value v => Some v | _ => None end else None)
         (retryState s) |}.

(** The body of the [try] block. *)
Definition validationPhase (rv : PromptResult string)
  : Exec W (PromptResult string) :=
  control <- call (fun _ => isWizardControl rv) ;;
  if (control : bool) then ret rv
  else
    valid <- call (fun _ => isValidResponse rv) ;;
    update (rememberPattern valid rv) ;;;
    call (fun s => Ok (Value (value (box s)))).

(** [promptUser], from the point where [await super.promptUser()] has
    produced [rv]. *)
Definition promptUser_after (rv : PromptResult string)
  : Exec W (PromptResult string) :=
  update (set_box_busy true) ;;;
  tryFinally (validationPhase rv) (update (set_box_busy false)).

(** [promptUser]: a rejection of [super.promptUser()] propagates before the
    busy flag is touched. *)
Definition promptUser (inner : Result (PromptResult string))
  : Exec W (PromptResult string) :=
  rv <- call (fun _ => inner) ;;
  promptUser_after rv.

End PromptUser.

End SearchPattern.

(** ** The wizard engine *)
Module Wizard.
Import Js Prompter.

(** Modelled from the spec: [isWizardControl] and [isValidResponse] of
    [shared/wizards/wizard] are not among the sources; a control signal is
    "back" or "cancel", a valid response is a value. *)
Definition isWizardControl {T : Type} (r : PromptResult T) : bool :=
  match r with
  | Value _ => false
  | Back | Cancel => true
  end.

(** Modelled from the spec: the type guard for the value variant of a
    prompt result. *)
Definition isValidResponse {T : Type} (r : PromptResult T) : bool :=
  match r with
  | Value _ => true
  | Back | Cancel => false
  end.

Section Engine.

(** [State] is the partially filled response, [Val] what a prompt answers,
    [P] the prompters, [Env] state shared between the wizard and its
    prompters, [Answer] what the user does when a prompt is shown. *)
Variables State Val P Env Answer : Type.

(** What a binding yields for the current state: no prompter (the field is
    skipped), a prompter, or an exception thrown by the factory. *)
Inductive Bound :=
| Skip
| Bind (p : P)
| FactoryThrows (e : JsError).

(** One entry of the form: a field path and how to read, write and clear
    the field in the state, with the factory bound to it. *)
Record Field := {
  fieldPath : string;
  isAssigned : State -> bool;
  assign : Val -> State -> State;
  unassign : State -> State;
  factory : State -> Env -> Bound
}.

(** How a prompter turns the user's reaction into the settlement of its
    [prompt()] promise. *)
Variable runPrompt : P -> Answer -> Env -> Promise (PromptResult Val) * Env.

Inductive Next :=
| NoneLeft
| Step (f : Field) (p : P)
| Misconfigured (e : JsError).

(** Modelled from the spec: the wizard engine of [shared/wizards/wizard] is
    not among the sources.  Step 2 of the transition algorithm: walk the
    form in declared order; a field that already has a value is resolved, a
    field whose factory returns no prompter is skipped. *)
Fixpoint nextField (form : list Field) (st : State) (env : Env) : Next :=
  match form with
  | [] => NoneLeft
  | f :: rest =>
      if isAssigned f st then nextField rest st env
      else match factory f st env with
           | Skip => nextField rest st env
           | Bind p => Step f p
           | FactoryThrows e => Misconfigured e
           end
  end.

(** A field the walk of [nextField] goes past: it has a value, or its
    factory yields no prompter. *)
Definition passedOver (st : State) (env : Env) (f : Field) : Prop :=
  isAssigned f st = true \/ (isAssigned f st = false /\ factory f st env = Skip).

(** Modelled from the spec: part of the missing engine.  Discard the value
    of the field at [path] and of every field declared after it. *)
Fixpoint discardFrom (path : string) (form : list Field) (st : State) : State :=
  match form with
  | [] => st
  | g :: rest =>
      if String.eqb (fieldPath g) path
      then fold_left (fun s h => unassign h s) (g :: rest) st
      else discardFrom path rest st
  end.

(** Modelled from the spec: part of the missing engine.  Step 6 with a
    non-empty history: the popped field and the later ones lose their
    values, and the field before it is prompted again. *)
Definition rewind (form : list Field) (prev popped : Field) (st : State) : State :=
  unassign prev (discardFrom (fieldPath popped) form st).

(** What a run did: the field prompted and how its prompt settled. *)
Definition StepLog : Type := list (string * Result (PromptResult Val)).

(** Modelled from the spec: the loop of [run()], steps 2 to 7.  Every prompt
    consumes one reaction of the user; when none is left the run is still
    waiting.  [history] holds the steps already left behind, most recent
    first; the step being prompted is on top of it until a "back" pops it,
    so the history is empty after that pop exactly when [history] is. *)
Fixpoint runLoop (form : list Field) (script : list Answer)
    (history : list Field) (st : State) (env : Env) {struct script}
  : Promise (option State) * Env * StepLog :=
  match nextField form st env with
  | NoneLeft => (Resolved (Some st), env, [])
  | Misconfigured e => (Rejected e, env, [])
  | Step f p =>
      match script with
      | [] => (Pending, env, [])
      | a :: rest =>
          let '(settled, env') := runPrompt p a env in
          match settled with
          | Pending => (Pending, env', [])
          | Rejected e => (Rejected e, env', [(fieldPath f, Throw e)])
          | Resolved Cancel =>
              (Resolved None, env', [(fieldPath f, Ok Cancel)])
          | Resolved (Value v) =>
              let '(out, env2, log) :=
                runLoop form rest (f :: history) (assign f v st) env' in
              (out, env2, (fieldPath f, Ok (Value v)) :: log)
          | Resolved Back =>
              match history with
              | [] => (Resolved None, env', [(fieldPath f, Ok Back)])
              | prev :: older =>
                  let '(out, env2, log) :=
                    runLoop form rest older (rewind form prev f st) env' in
                  (out, env2, (fieldPath f, Ok Back) :: log)
              end
          end
      end
  end.

(** Modelled from the spec: [wizard.run()] of the missing engine: step 1,
    then the loop. *)
Definition run (form : list Field) (initState : State) (env : Env)
    (script : list Answer) : Promise (option State) * Env * StepLog :=
  runLoop form script [] initState env.

(** The user exited without completing: reading the log of a run that
    started with [depth] steps behind it, the user cancelled a prompt, or
    asked to go back when no step was left to go back to. *)
Fixpoint userExited (depth : nat) (log : StepLog) : bool :=
  match log with
  | [] => false
  | (_, Ok Cancel) :: _ => true
  | (_, Ok Back) :: rest =>
      match depth with
      | O => true
      | S d => userExited d rest
      end
  | (_, Ok (Value _)) :: rest => userExited (S depth) rest
  | (_, Throw _) :: _ => false
  end.

End Engine.

Arguments Skip {P}.
Arguments Bind {P} p.
Arguments FactoryThrows {P} e.
Arguments fieldPath {State Val P Env} _.
Arguments isAssigned {State Val P Env} _ _.
Arguments assign {State Val P Env} _ _ _.
Arguments unassign {State Val P Env} _ _.
Arguments factory {State Val P Env} _ _ _.
Arguments NoneLeft {State Val P Env}.
Arguments Step {State Val P Env} f p.
Arguments Misconfigured {State Val P Env} e.
Arguments nextField {State Val P Env} form st env.
Arguments passedOver {State Val P Env} st env f.
Arguments discardFrom {State Val P Env} path form st.
Arguments rewind {State Val P Env} form prev popped st.
Arguments runLoop {State Val P Env Answer} runPrompt form script history st env.
Arguments run {State Val P Env Answer} runPrompt form initState env script.
Arguments userExited {Val} depth log.

End Wizard.

(** ** The tail-log-group command *)
Module TailLogGroup.
Import JsString Js Prompter SearchPattern Wizard.

(** Button handlers act on the list of help pages opened so far. *)
Definition World : Type := list string.

(** [RegionSubmenuResponse<string>] *)
Record RegionSubmenuResponse := { region : string; data : string }.

(** The wizard state: a partially filled [TailLogGroupWizardResponse]. *)
Record TailLogGroupWizardResponse := {
  submenuResponse : option RegionSubmenuResponse;
  filterPattern : option string
}.

Definition set_submenuResponse (o : option RegionSubmenuResponse)
    (st : TailLogGroupWizardResponse) : TailLogGroupWizardResponse :=
  {| submenuResponse := o; filterPattern := filterPattern st |}.

Definition set_filterPattern (o : option string)
    (st : TailLogGroupWizardResponse) : TailLogGroupWizardResponse :=
  {| submenuResponse := submenuResponse st; filterPattern := o |}.

Inductive Val :=
| VSubmenu (r : RegionSubmenuResponse)
| VText (s : string).

(** [new RegionSubmenu(getLogGroupsFromRegion, {title}, {title}, label)] *)
Record RegionSubmenu := {
  dataTitle : string;
  regionTitle : string;
  separatorLabel : string
}.

Definition createRegionSubmenu : RegionSubmenu :=
  {| dataTitle := "Select Log Group";
     regionTitle := "Select Region for Log Group";
     separatorLabel := "Log Groups" |}.

Inductive TailPrompter :=
| SubmenuPrompter (m : RegionSubmenu)
| PatternPrompter (p : SearchPatternPrompter World).

(** Modelled from the spec: [createHelpButton] of [shared/ui/buttons] is not
    among the sources; its click performs a side effect (it opens the page)
    and leaves the prompt open. *)
Definition createHelpButton (uri : string) : QuickInputButton World string :=
  {| iconPath := "help"; tooltip := Some "View Toolkit Documentation";
     onClick := fun w => (uri :: w, []) |}.

(** Modelled from the spec: [createExitButton], missing with
    [createHelpButton]; an explicit cancel button. *)
Definition createExitButton : QuickInputButton World string :=
  {| iconPath := "exit"; tooltip := Some "Exit";
     onClick := fun w => (w, [Cancel]) |}.

Section WithTextUtilities.

(** [truncate] of [shared/utilities/textUtilities]; only the title uses it. *)
Variable truncate : string -> Z -> string.

Definition helpUri : string :=
  "https://docs.aws.amazon.com/AmazonCloudWatch/latest/logs/FilterAndPatternSyntax.html#matching-terms-events".

Definition createSearchPatternPrompter
    (logGroup : CloudWatchLogsGroupInfo) (logParams : CloudWatchLogsParameters)
    (retryState : RetryState.t) (isFirst : bool) : SearchPatternPrompter World :=
  let titleText := "Search Log Group " ++ truncate (groupName logGroup) (-50) in
  let placeHolderText := "search pattern (case sensitive; empty matches all)" in
  let buttons0 := [createHelpButton helpUri; createExitButton] in
  let buttons1 :=
    if negb isFirst then (buttons0 ++ [createBackButton])%list else buttons0 in
  let inputBox :=
    set_buttons buttons1
      (set_placeholder (Some placeHolderText)
         (set_title (Some titleText) newTestInputBox)) in
  newSearchPatternPrompter logGroup logParams retryState inputBox noOptions [].

(** The factory bound to [filterPattern]. *)
Definition filterPatternFactory (logGroupInfo : option CloudWatchLogsGroupInfo)
    (state : TailLogGroupWizardResponse) (retryState : RetryState.t)
  : Bound TailPrompter :=
  match submenuResponse state with
  | None => FactoryThrows (PlainError "state.submenuResponse is null")
  | Some sr =>
      Bind (PatternPrompter
              (createSearchPatternPrompter
                 {| groupName := data sr; regionName := region sr |}
                 {| SearchPattern.filterPattern := None; limit := None;
                    startTime := None; endTime := None |}
                 retryState
                 (match logGroupInfo with Some _ => true | None => false end)))
  end.

Definition TailField : Type :=
  Field TailLogGroupWizardResponse Val TailPrompter RetryState.t.

Definition submenuResponseField : TailField :=
  {| fieldPath := "submenuResponse";
     isAssigned := fun st => match submenuResponse st with Some _ => true | None => false end;
     assign := fun v st =>
       match v with
       | VSubmenu r => set_submenuResponse (Some r) st
       | VText _ => st
       end;
     unassign := set_submenuResponse None;
     factory := fun _ _ => Bind (SubmenuPrompter createRegionSubmenu) |}.

Definition filterPatternField (logGroupInfo : option CloudWatchLogsGroupInfo)
  : TailField :=
  {| fieldPath := "filterPattern";
     isAssigned := fun st => match filterPattern st with Some _ => true | None => false end;
     assign := fun v st =>
       match v with
       | VText s => set_filterPattern (Some s) st
       | VSubmenu _ => st
       end;
     unassign := set_filterPattern None;
     factory := filterPatternFactory logGroupInfo |}.

(** The form built by the constructor of [TailLogGroupWizard], in binding
    order, and its [initState]. *)
Definition TailLogGroupWizard_form (logGroupInfo : option CloudWatchLogsGroupInfo)
  : list TailField :=
  [submenuResponseField; filterPatternField logGroupInfo].

Definition TailLogGroupWizard_initState
    (logGroupInfo : option CloudWatchLogsGroupInfo) : TailLogGroupWizardResponse :=
  {| submenuResponse :=
       match logGroupInfo with
       | Some info => Some {| data := groupName info; region := regionName info |}
       | None => None
       end;
     filterPattern := None |}.

(** What the user does when a prompt is shown: the outcome of the region
    submenu if that is the prompt, the events on the input box if it is the
    search pattern prompt. *)
Record Answer := {
  pick : PromptResult RegionSubmenuResponse;
  typed : list (@UserEvent World)
}.

Definition liftResult {A : Type} (f : A -> Val) (r : PromptResult A)
  : PromptResult Val :=
  match r with
  | Value a => Value (f a)
  | Back => Back
  | Cancel => Cancel
  end.

Definition settled {A : Type} (r : Result A) : Promise A :=
  match r with
  | Ok a => Resolved a
  | Throw e => Rejected e
  end.

(** [prompt()] of the two prompters.  [RegionSubmenu] is not among the
    sources: to the wizard it is a single prompter that settles with the
    user's choice or a control signal.  The search pattern prompter shows
    its box, waits for the inherited prompt to settle and then runs the
    overriding [promptUser] on the box and the shared [retryState]. *)
Definition runPrompt (p : TailPrompter) (a : Answer) (retryState : RetryState.t)
  : Promise (PromptResult Val) * RetryState.t :=
  match p with
  | SubmenuPrompter _ => (Resolved (liftResult VSubmenu (pick a)), retryState)
  | PatternPrompter sp =>
      let shown := handleAll (typed a) (prompt (base sp)) in
      match promptPromise shown with
      | Pending => (Pending, retryState)
      | Rejected e => (Rejected e, retryState)
      | Resolved rv =>
          let '((r, store), _) :=
            promptUser (fun x => Ok (isWizardControl x))
                       (fun x => Ok (isValidResponse x))
                       (Ok rv)
                       {| box := inputBox shown; SearchPattern.retryState := retryState |} in
          (settled match r with
                   | Ok res => Ok (liftResult VText res)
                   | Throw e => Throw e
                   end,
           SearchPattern.retryState store)
      end
  end.

(** [new TailLogGroupWizard(logGroupInfo).run()]; the wizard's own
    [retryState] starts as [{}]. *)
Definition TailLogGroupWizard_run (logGroupInfo : option CloudWatchLogsGroupInfo)
    (script : list Answer)
  : Promise (option TailLogGroupWizardResponse) * RetryState.t * StepLog Val :=
  run runPrompt (TailLogGroupWizard_form logGroupInfo)
      (TailLogGroupWizard_initState logGroupInfo) RetryState.empty script.

End WithTextUtilities.

(** *** [tailLogGroup] *)

Record LogData := { ldRegionName : string; ldGroupName : string; groupArn : string }.

Definition asGroupInfo (d : LogData) : CloudWatchLogsGroupInfo :=
  {| groupName := ldGroupName d; regionName := ldRegionName d |}.

Record TextDocument := { docUri : string }.

Record StartLiveTailCommand := {
  logGroupIdentifiers : list string;
  logEventFilterPattern : option string
}.

(** The collaborators of the command: the URI builder of
    [cloudWatchLogsUtils], the editor's document functions and the
    CloudWatch Logs client, each with the completion of its call.
    [setTextDocumentLanguage] is called and not awaited: what counts is
    whether the call itself returns or throws. *)
Record Host := {
  createURIFromArgs : CloudWatchLogsGroupInfo -> string;
  openTextDocument : string -> Result TextDocument;
  showTextDocument : TextDocument -> Result unit;
  setTextDocumentLanguage : TextDocument -> string -> Result unit;
  send : StartLiveTailCommand -> Result unit
}.

(** Modelled from the spec: [CancellationError.isUserCancelled] of
    [shared/utilities/timeoutUtils] is not among the sources; a user
    cancellation is the error made by [new CancellationError('user')]. *)
Definition isUserCancelled (err : JsError) : bool :=
  match err with
  | CancellationError agent => String.eqb agent "user"
  | _ => false
  end.

Definition prepareDocument_catch (uri : string) (err : JsError) : Result TextDocument :=
  if isUserCancelled err then Throw err
  else Throw (ToolkitError ("Failed to get logs for " ++ uri) err).

Definition prepareDocument (host : Host) (uri : string) : Result TextDocument :=
  match openTextDocument host uri with
  | Throw err => prepareDocument_catch uri err
  | Ok textDocument =>
      match showTextDocument host textDocument with
      | Throw err => prepareDocument_catch uri err
      | Ok _ =>
          match setTextDocumentLanguage host textDocument "json" with
          | Throw err => prepareDocument_catch uri err
          | Ok _ => Ok textDocument
          end
      end
  end.

(** What [tailLogGroup] has done when its promise resolves. *)
Inductive Tailing :=
| TailStarted (command : StartLiveTailCommand)
| SendFailedLogged (command : StartLiveTailCommand) (err : JsError).

(** [tailLogGroup] from the point where [await wizard.run()] has produced
    [response]. *)
Definition tailLogGroup_after (host : Host) (logData : option LogData)
    (response : option TailLogGroupWizardResponse) : Result Tailing :=
  match response with
  | None => Throw (CancellationError "user")
  | Some response =>
      match submenuResponse response with
      | None => Throw (TypeError "Cannot read properties of undefined (reading 'data')")
      | Some sr =>
          let logGroupInfo := {| groupName := data sr; regionName := region sr |} in
          let uri := createURIFromArgs host logGroupInfo in
          match prepareDocument host uri with
          | Throw err => Throw err
          | Ok textDocument =>
              match logData with
              | None =>
                  Throw (TypeError "Cannot read properties of undefined (reading 'endsWith')")
              | Some d =>
                  let command :=
                    {| logGroupIdentifiers := [Arn.formatGroupArn (groupArn d)];
                       logEventFilterPattern := filterPattern response |} in
                  match send host command with
                  | Ok _ => Ok (TailStarted command)
                  | Throw err => Ok (SendFailedLogged command err)
                  end
              end
          end
      end
  end.

(** [tailLogGroup(source, logData)] with the user's reactions to the
    wizard's prompts. *)
Definition tailLogGroup (truncate : string -> Z -> string) (host : Host)
    (source : string) (logData : option LogData) (script : list Answer)
  : Promise Tailing :=
  match fst (fst (TailLogGroupWizard_run truncate (option_map asGroupInfo logData) script)) with
  | Pending => Pending
  | Rejected e => Rejected e
  | Resolved response => settled (tailLogGroup_after host logData response)
  end.

End TailLogGroup.

(** ** Waiting for the Python debug adapter *)
Module PythonDebug.
Import Js.

Local Open Scope Z_scope.

Definition PYTHON_DEBUG_ADAPTER_RETRY_DELAY_MS : Z := 1000.

(** One [PythonDebugAdapterHeartbeat]: the class is not among the sources,
    so the completions of its three calls are given. *)
Record Heartbeat := {
  connect : Result bool;
  isDebugServerUp : Result bool;
  disconnect : Result unit
}.

(** What the function reads from outside: the testers it creates, in order
    of creation, and the successive readings of [Date.now()]. *)
Record World := {
  heartbeat : nat -> Heartbeat;
  dateNow : nat -> Z
}.

Inductive LogLine :=
| TestingConnection (debugPort : Z)
| AdapterAvailable
| ErrorWhileTesting (err : JsError)
| NotReadyRetrying.

(** A [channelLogger.warn(nlsKey, nlsTemplate)] call. *)
Record Warning := { nlsKey : string; nlsTemplate : string }.

Definition notAvailableWarning : Warning :=
  {| nlsKey := "AWS.sam.local.invoke.python.server.not.available";
     nlsTemplate := "Unable to communicate with the Python Debug Adapter. The debugger might not succeed when attaching to your SAM Application." |}.

(** The [try]/[catch] part of one iteration: whether this tester found the
    debug server up, and what was logged. *)
Definition test (h : Heartbeat) : bool * list LogLine :=
  match connect h with
  | Throw err => (false, [ErrorWhileTesting err])
  | Ok false => (false, [])
  | Ok true =>
      match isDebugServerUp h with
      | Throw err => (false, [ErrorWhileTesting err])
      | Ok true => (true, [AdapterAvailable])
      | Ok false => (false, [])
      end
  end.

Record LoopExit := {
  debugServerAvailable : bool;
  attempts : nat;
  verbose : list LogLine
}.

Inductive Loop :=
| OutOfFuel
| Exited (x : LoopExit)
| Threw (err : JsError).

(** The [while (!debugServerAvailable)] loop; [i] testers have been created
    and [Date.now()] has been read [i + 1] times when an iteration starts.
    The retry delay is the [setTimeout] between two iterations. *)
Fixpoint retryLoop (fuel : nat) (w : World) (stopMillis : Z) (i : nat)
    (log : list LogLine) : Loop :=
  match fuel with
  | O => OutOfFuel
  | S fuel' =>
      let '(available, lines) := test (heartbeat w i) in
      match disconnect (heartbeat w i) with
      | Throw err => Threw err
      | Ok _ =>
          if available then
            Exited {| debugServerAvailable := true; attempts := S i;
                      verbose := (log ++ lines)%list |}
          else if dateNow w (S i) >? stopMillis then
            Exited {| debugServerAvailable := false; attempts := S i;
                      verbose := (log ++ lines)%list |}
          else
            retryLoop fuel' w stopMillis (S i)
                      (log ++ lines ++ [NotReadyRetrying])%list
      end
  end.

Record Outcome := {
  loopExit : LoopExit;
  channelWarnings : list Warning
}.

(** [waitForPythonDebugAdapter(debugPort, timeoutDurationMillis, channelLogger)];
    [None] when the fuel does not suffice. *)
Definition waitForPythonDebugAdapter (fuel : nat) (w : World)
    (debugPort timeoutDurationMillis : Z) : option (Result Outcome) :=
  let stopMillis := dateNow w 0 + timeoutDurationMillis in
  match retryLoop fuel w stopMillis 0 [TestingConnection debugPort] with
  | OutOfFuel => None
  | Threw err => Some (Throw err)
  | Exited x =>
      Some (Ok {| loopExit := x;
                  channelWarnings :=
                    if negb (debugServerAvailable x) then [notAvailableWarning]
                    else [] |})
  end.

(** The clock moves on: it does not run backwards before the first check,
    and every retry delay takes at least a millisecond. *)
Definition clockAdvances (w : World) : Prop :=
  dateNow w 0 <= dateNow w 1 /\
  forall i : nat, dateNow w (S i) < dateNow w (S (S i)).

(** What a tester answered, read off its calls and not off the loop: both
    awaited calls of the [try] block resolved to [true]. *)
Definition foundUp (h : Heartbeat) : Prop :=
  connect h = Ok true /\ isDebugServerUp h = Ok true.

(** One of the awaited calls of the [try] block threw [e]:
    [isDebugServerUp()] is only called after [connect()] resolved to
    [true]. *)
Definition threwWhileTesting (h : Heartbeat) (e : JsError) : Prop :=
  connect h = Throw e \/ (connect h = Ok true /\ isDebugServerUp h = Throw e).

(** Tester [j] gave no reason to leave the loop: it disconnected, it had
    not found the debug server, and the deadline had not passed at the
    check that follows it. *)
Definition retried (w : World) (stopMillis : Z) (j : nat) : Prop :=
  disconnect (heartbeat w j) = Ok tt /\
  ~ foundUp (heartbeat w j) /\
  dateNow w (S j) <= stopMillis.

End PythonDebug.

(** ** Scenarios

    The inputs of the test suite and a few concrete runs, used to exercise
    the definitions above. *)
Module Scenario.
Import Js Prompter SearchPattern Wizard TailLogGroup PythonDebug.

(** [{ iconPath: '', onClick: resolve => resolve('hello world') }] *)
Definition returnsValueButton : QuickInputButton bool string :=
  {| iconPath := ""; tooltip := None;
     onClick := fun handledButtonPress => (handledButtonPress, [Value "hello world"]) |}.

(** [{ iconPath: '', onClick: () => handledButtonPress = true }] *)
Definition sideEffectButton : QuickInputButton bool string :=
  {| iconPath := ""; tooltip := None;
     onClick := fun _ => (true, []) |}.

(** [new input.InputBoxPrompter(new TestInputBox())] with [sampleInput.buttons]
    set; [handledButtonPress] starts as [false]. *)
Definition samplePrompter (bs : list (QuickInputButton bool string))
  : InputBoxPrompter bool :=
  newInputBoxPrompter (set_buttons bs newTestInputBox) false.

Definition sampleLogData : LogData :=
  {| ldRegionName := "us-east-1"; ldGroupName := "my-group";
     groupArn := "arn:aws:logs:us-east-1:1:log-group:my-group:*" |}.

Definition sampleTruncate : string -> Z -> string := fun s _ => s.

Definition sampleUri (info : CloudWatchLogsGroupInfo) : string :=
  "aws-cwl:" ++ regionName info ++ ":" ++ groupName info.

(** An editor in which opening the document is cancelled by the user. *)
Definition cancellingHost : Host :=
  {| createURIFromArgs := sampleUri;
     openTextDocument := fun _ => Throw (CancellationError "user");
     showTextDocument := fun _ => Ok tt;
     setTextDocumentLanguage := fun _ _ => Ok tt;
     send := fun _ => Ok tt |}.

(** An editor and a client that work. *)
Definition workingHost : Host :=
  {| createURIFromArgs := sampleUri;
     openTextDocument := fun uri => Ok {| docUri := uri |};
     showTextDocument := fun _ => Ok tt;
     setTextDocumentLanguage := fun _ _ => Ok tt;
     send := fun _ => Ok tt |}.

Definition picks (r : PromptResult RegionSubmenuResponse) : Answer :=
  {| pick := r; typed := [] |}.

Definition types (evs : list (@UserEvent TailLogGroup.World)) : Answer :=
  {| pick := Cancel; typed := evs |}.

Definition sampleResponse : TailLogGroupWizardResponse :=
  {| submenuResponse := Some {| region := "us-east-1"; data := "my-group" |};
     TailLogGroup.filterPattern := Some "ERROR" |}.

Definition emptyState : TailLogGroupWizardResponse :=
  {| submenuResponse := None; TailLogGroup.filterPattern := None |}.

Definition failedRetry : RetryState.t :=
  {| RetryState.searchPattern := Some "[ERROR";
     RetryState.validationMessage := Some "Invalid filter pattern" |}.

Definition neverUp : Heartbeat :=
  {| connect := Ok false; isDebugServerUp := Ok false; disconnect := Ok tt |}.

Definition serverUp : Heartbeat :=
  {| connect := Ok true; isDebugServerUp := Ok true; disconnect := Ok tt |}.

(** No debug server ever answers; a second passes between two checks. *)
Definition silentWorld : PythonDebug.World :=
  {| heartbeat := fun _ => neverUp;
     dateNow := fun i => (1000 * Z.of_nat i)%Z |}.

(** The third tester finds the debug server up. *)
Definition lateWorld : PythonDebug.World :=
  {| heartbeat := fun i => if (i <? 2)%nat then neverUp else serverUp;
     dateNow := fun i => (1000 * Z.of_nat i)%Z |}.

(** The debug server is up, but closing the tester's socket fails. *)
Definition leakyWorld : PythonDebug.World :=
  {| heartbeat := fun _ =>
       {| connect := Ok true; isDebugServerUp := Ok true;
          disconnect := Throw (PlainError "socket is closed") |};
     dateNow := fun i => (1000 * Z.of_nat i)%Z |}.

(** No debug server answers, and [Date.now()] gives the same reading every
    time (a wall clock that is set back as fast as it runs). *)
Definition stuckWorld : PythonDebug.World :=
  {| heartbeat := fun _ => neverUp;
     dateNow := fun _ => 0%Z |}.

(** The first tester cannot connect, the second connects and fails when it
    asks for the server, the third finds it; all of them disconnect. *)
Definition flakyWorld : PythonDebug.World :=
  {| heartbeat := fun i =>
       match i with
       | O => {| connect := Throw (PlainError "ECONNREFUSED");
                 isDebugServerUp := Ok true; disconnect := Ok tt |}
       | S O => {| connect := Ok true;
                   isDebugServerUp := Throw (PlainError "ECONNRESET");
                   disconnect := Ok tt |}
       | _ => serverUp
       end;
     dateNow := fun i => (1000 * Z.of_nat i)%Z |}.

End Scenario.

(** ** awsSamDebugConfiguration.ts: the code-target builder *)
Module SamDebugCode.
Import JsString JsObject Js SamDebug.

Section WithRuntimes.

Variable getNormalizedRelativePath : string -> string -> string.

(** [RuntimeFamily] and [getDefaultRuntime] live in
    [lambda/models/samLambdaRuntime]: the enumeration is kept abstract, with
    the truthiness of its values, and the default runtime of a family is a
    [string | undefined]. *)
Variable RuntimeFamily : Type.
Variable familyTruthy : RuntimeFamily -> bool.
Variable getDefaultRuntime : RuntimeFamily -> option string.

(** [runtimeFamily ? getDefaultRuntime(runtimeFamily) : undefined] *)
Definition runtimeOf (runtimeFamily : option RuntimeFamily) : option string :=
  match runtimeFamily with
  | Some family => if familyTruthy family then getDefaultRuntime family else None
  | None => None
  end.

Definition createCodeAwsSamDebugConfig
    (folder : option WorkspaceFolder) (lambdaHandler projectRoot : string)
    (runtimeFamily : option RuntimeFamily) : Result JsVal :=
  let workspaceRelativePath :=
    match folder with
    | Some f => getNormalizedRelativePath (fsPath f) projectRoot
    | None => projectRoot
    end in
  let runtime := runtimeOf runtimeFamily in
  if negb (truthy_opt runtime) then
    Throw (PlainError "Invalid or missing runtime family")
  else
    Ok (JObj [ ("type", JStr AWS_SAM_DEBUG_TYPE);
               ("request", JStr DIRECT_INVOKE_TYPE);
               ("name", JStr (makeName lambdaHandler runtime));
               ("invokeTarget",
                 JObj [ ("target", JStr CODE_TARGET_TYPE);
                        ("projectRoot", JStr workspaceRelativePath);
                        ("lambdaHandler", JStr lambdaHandler) ]);
               ("lambda", JObj [ ("runtime", opt_val JStr runtime) ]) ]).

End WithRuntimes.

End SamDebugCode.

(** ** Reading the log of the debug adapter wait *)
Module PythonDebugLog.
Import PythonDebug.

(** The line written by [logger.verbose('Debug Adapter not ready, retrying...')]. *)
Definition isRetryLine (l : LogLine) : bool :=
  match l with
  | NotReadyRetrying => true
  | _ => false
  end.

Definition retries (log : list LogLine) : nat :=
  List.length (filter isRetryLine log).

End PythonDebugLog.

(** ** Listing log groups and writing the live tail to the document *)
Module LiveTail.
Import JsString Js.

(** An async iterator that is consumed to its end: what it yields, and the
    error it fails with after that, if any. *)
Record AsyncIter (A : Type) := {
  yielded : list A;
  failure : option JsError
}.
Arguments yielded {A} _.
Arguments failure {A} _.

(** [CloudWatchLogs.LogGroup], the fields at hand. *)
Record LogGroup := { logGroupName : option string; logGroupArn : option string }.

(** [DataQuickPickItem<string>] *)
Record DataQuickPickItem := { label : string; data : string }.

(** [logGroupObject.logGroupName && logGroupsArray.push(logGroupObject.logGroupName)] *)
Definition pushName (logGroupsArray : list string) (logGroupObject : LogGroup)
  : list string :=
  match logGroupName logGroupObject with
  | Some name => if truthy name then (logGroupsArray ++ [name])%list else logGroupsArray
  | None => logGroupsArray
  end.

(** [logGroupsToArray]: the [for await] loop; an error of the iterator
    rejects the promise and the names gathered so far are lost. *)
Definition logGroupsToArray (logGroups : AsyncIter LogGroup) : Result (list string) :=
  let logGroupsArray := fold_left pushName (yielded logGroups) [] in
  match failure logGroups with
  | None => Ok logGroupsArray
  | Some err => Throw err
  end.

Section WithClient.

(** [new DefaultCloudWatchLogsClient(regionCode).describeLogGroups()] *)
Variable describeLogGroups : string -> AsyncIter LogGroup.

Definition getLogGroupsFromRegion (regionCode : string)
  : Result (list DataQuickPickItem) :=
  match logGroupsToArray (describeLogGroups regionCode) with
  | Throw err => Throw err
  | Ok logGroups =>
      Ok (map (fun logGroupString =>
                 {| label := logGroupString; data := logGroupString |})
              logGroups)
  end.

End WithClient.

(** [Math.max(lineCount - 2, 0)] twice, for the top and for the bottom
    position, both at character 0; the range that is revealed. *)
Record Range := {
  startLine : Z; startCharacter : Z;
  endLine : Z; endCharacter : Z
}.

Definition scroll (lineCount : Z) : Range :=
  {| startLine := Z.max (lineCount - 2) 0; startCharacter := 0;
     endLine := Z.max (lineCount - 2) 0; endCharacter := 0 |}.

(** A visible text editor: which document it shows, and that document's
    line count. *)
Record TextEditor := {
  editorId : nat;
  documentUri : string;
  documentLineCount : Z
}.

(** [scrollTextDocument]: [filter] the visible editors on the document, then
    [scroll] each; the result lists the [revealRange] calls. *)
Definition scrollTextDocument (visibleTextEditors : list TextEditor)
    (textDocument : string) : list (nat * Range) :=
  map (fun editor => (editorId editor, scroll (documentLineCount editor)))
      (filter (fun editor => String.eqb (documentUri editor) textDocument)
              visibleTextEditors).

(** [`${x}`] for a [string | undefined]. *)
Definition render (o : option string) : string :=
  match o with
  | Some s => s
  | None => "undefined"
  end.

Definition newline : string := String (Ascii.ascii_of_nat 10) "".

Section WithJson.

(** [JSON.parse], the truthiness of what it returns and
    [JSON.stringify(json, null, 2)]. *)
Variable Json : Type.
Variable JSON_parse : string -> Result Json.
Variable jsonTruthy : Json -> bool.
Variable JSON_stringify : Json -> string.

(** [isMessageJson]; an [undefined] message is parsed as the text
    ["undefined"]. *)
Definition isMessageJson (message : option string) : bool :=
  match JSON_parse (render message) with
  | Ok json => if jsonTruthy json then true else false
  | Throw _ => false
  end.

Definition formatMessage (message : option string) : option string :=
  match JSON_parse (render message) with
  | Ok json => if jsonTruthy json then Some (JSON_stringify json ++ ",") else message
  | Throw _ => message
  end.

Definition updateDocumentLanguage (isJson : bool) : string :=
  if isJson then "json" else "log".

(** The stream events of [StartLiveTailCommandOutput]. *)
Record LiveTailSessionLogEvent := { message : option string; timestamp : option Z }.

Record LiveTailSessionUpdate := {
  sessionResults : option (list LiveTailSessionLogEvent)
}.

Record StreamEvent := {
  sessionStart : option string;
  sessionUpdate : option LiveTailSessionUpdate
}.

(** [edit.insert(uri, new Position(line, 0), text)] *)
Record Insert := { atLine : Z; atCharacter : Z; text : string }.

Inductive Effect :=
| ConsoleLog (sessionStart : string)
| ConsoleErrorUnknownEvent
| ConsoleErrorCaught (err : JsError)
| SetLanguage (languageId : string)
| ApplyEdit (inserts : list Insert)
| Highlight (pattern : string)
| ScrollTextDocument.

(** What the function reads while the [i]-th event is handled: the line
    count of the document, which does not change while the event is handled
    (the edit is applied later), and how [highlightTextDocument] completes
    (its [new RegExp(pattern, 'gu')] throws on an invalid expression). *)
Variable lineCountAt : nat -> Z.
Variable highlightTextDocument : nat -> string -> Result unit.

(** One round of the inner [for] loop. *)
Definition insertLogEvent (i : nat) (st : bool * bool * list Insert)
    (logEvent : LiveTailSessionLogEvent) : bool * bool * list Insert :=
  let '(isJson, isFirstEvent, inserts) := st in
  let isJson' := if isFirstEvent then isMessageJson (message logEvent) else isJson in
  (isJson', false,
   (inserts ++ [{| atLine := lineCountAt i; atCharacter := 0;
                   text := render (formatMessage (message logEvent)) ++ newline |}])%list).


(** The [if]/[else if]/[else] on the kind of the [i]-th event: what is
    written to the console, and either the new [isJson] with the inserts of
    the edit, or the exception of iterating missing results. *)
Definition eventBranch (i : nat) (isJson : bool) (event : StreamEvent)
  : list Effect * Result (bool * list Insert) :=
  match sessionStart event with
  | Some started => ([ConsoleLog started], Ok (isJson, []))
  | None =>
      match sessionUpdate event with
      | Some update =>
          match sessionResults update with
          | Some results =>
              let '(isJson', _, inserts) :=
                fold_left (insertLogEvent i) results (isJson, true, []) in
              ([], Ok (isJson', inserts))
          | None => ([], Throw (TypeError "sessionResults is not iterable"))
          end
      | None => ([ConsoleErrorUnknownEvent], Ok (isJson, []))
      end
  end.

(** The body of the [for await] loop for the [i]-th event: the effects, and
    either the new [isJson] or the exception that leaves the loop. *)
Definition handleEvent (pattern : string) (i : nat) (isJson : bool)
    (event : StreamEvent) : list Effect * Result bool :=
  match eventBranch i isJson event with
  | (logged, Throw err) => (logged, Throw err)
  | (logged, Ok (isJson', inserts)) =>
      let edited :=
        (logged ++ [SetLanguage (updateDocumentLanguage isJson'); ApplyEdit inserts])%list in
      if truthy pattern then
        match highlightTextDocument i pattern with
        | Throw err => (edited, Throw err)
        | Ok _ => ((edited ++ [Highlight pattern; ScrollTextDocument])%list, Ok isJson')
        end
      else ((edited ++ [ScrollTextDocument])%list, Ok isJson')
  end.

(** The line written for a log event: [`${formatMessage(logEvent.message!)}\n`]. *)
Definition writtenLine (logEvent : LiveTailSessionLogEvent) : string :=
  render (formatMessage (message logEvent)) ++ newline.

Fixpoint consume (pattern : string) (events : list StreamEvent)
    (streamFailure : option JsError) (i : nat) (isJson : bool) : list Effect :=
  match events with
  | [] =>
      match streamFailure with
      | Some err => [ConsoleErrorCaught err]
      | None => []
      end
  | event :: rest =>
      match handleEvent pattern i isJson event with
      | (effects, Throw err) => (effects ++ [ConsoleErrorCaught err])%list
      | (effects, Ok isJson') =>
          (effects ++ consume pattern rest streamFailure (S i) isJson')%list
      end
  end.

(** [handleResponseAsync(response, textDocument, pattern)]: everything is
    inside one [try]; the promise always resolves. *)
Definition handleResponseAsync (responseStream : option (AsyncIter StreamEvent))
    (pattern : string) : list Effect :=
  match responseStream with
  | None => [ConsoleErrorCaught (TypeError "responseStream is not async iterable")]
  | Some stream => consume pattern (yielded stream) (failure stream) 0 true
  end.

(** The texts inserted by the edits that were applied, in order. *)
Definition insertedTexts (effects : list Effect) : list string :=
  flat_map (fun e => match e with
                     | ApplyEdit inserts => map text inserts
                     | _ => []
                     end) effects.

(** The number of edits handed to [applyEdit]. *)
Definition appliedEdits (effects : list Effect) : nat :=
  List.length (filter (fun e => match e with ApplyEdit _ => true | _ => false end) effects).

(** The log events of a stream event, as the loop sees them. *)
Definition logEventsOf (event : StreamEvent) : list LiveTailSessionLogEvent :=
  match sessionStart event with
  | Some _ => []
  | None =>
      match sessionUpdate event with
      | Some update =>
          match sessionResults update with
          | Some results => results
          | None => []
          end
      | None => []
      end
  end.

(** A stream event the loop can iterate: not a session update whose results
    are missing. *)
Definition iterable (event : StreamEvent) : bool :=
  match sessionStart event, sessionUpdate event with
  | None, Some update =>
      match sessionResults update with
      | Some _ => true
      | None => false
      end
  | _, _ => true
  end.

End WithJson.

End LiveTail.

(** ** The Python CodeLens helpers *)
Module PythonCodeLens.
Import JsString Js.

(** [s.split(sep)] for a one-character separator: never empty. *)
Fixpoint splitOn (sep : ascii) (s : string) : list string :=
  match s with
  | EmptyString => [""]
  | String c rest =>
      if Ascii.eqb c sep then "" :: splitOn sep rest
      else match splitOn sep rest with
           | piece :: pieces => String c piece :: pieces
           | [] => [String c ""]
           end
  end.

(** Whether the character occurs in the string. *)
Fixpoint hasChar (c : ascii) (s : string) : bool :=
  match s with
  | EmptyString => false
  | String d rest => Ascii.eqb d c || hasChar c rest
  end.

(** [`${n}`] for an integer. *)
Definition showNumber (n : Z) : string := NilZero.string_of_int (Z.to_int n).

Definition nl : string := String (Ascii.ascii_of_nat 10) "".

(** [s.indexOf(needle)] *)
Definition indexOf (needle s : string) : Z :=
  match String.index 0 needle s with
  | Some n => Z.of_nat n
  | None => -1
  end.

Record LambdaDebugFileParams := {
  handlerName : string;
  debugPort : Z;
  outputDir : string
}.

Record LambdaDebugFile := { outFilePath : string; debugHandlerName : string }.

(** What a helper did besides returning: the files it asked [writeFile] to
    write, and the errors it logged. *)
Record Done (A : Type) := {
  returned : Result A;
  writes : list (string * string);
  loggedErrors : list JsError
}.
Arguments returned {A} _.
Arguments writes {A} _.
Arguments loggedErrors {A} _.

Section WithFileSystem.

(** [path.join], [os.EOL], the message of [WAIT_FOR_DEBUGGER_MESSAGES.PYTHON]
    and the file functions of [fs-extra] and [filesystemUtilities], each
    with the completion of its call. *)
Variable path_join : string -> string -> string.
Variable EOL : string.
Variable WAIT_FOR_DEBUGGER_MESSAGE_PYTHON : string.
Variable fileExists : string -> bool.
Variable readFileAsString : string -> Result string.
Variable writeFile : string -> string -> Result unit.

(** The text of the generated Python file. *)
Definition debugFileTemplate (handlerFilePrefix : string)
    (handlerFunctionName : option string) (debugHandlerFunctionName : string)
    (port : Z) : string :=
  nl ++
  "# Copyright 2018 Amazon.com, Inc. or its affiliates. All Rights Reserved." ++ nl ++
  "# SPDX-License-Identifier: Apache-2.0" ++ nl ++
  nl ++
  "import ptvsd" ++ nl ++
  "import sys" ++ nl ++
  "from " ++ handlerFilePrefix ++ " import "
          ++ match handlerFunctionName with Some f => f | None => "undefined" end
          ++ " as _handler" ++ nl ++
  nl ++
  nl ++
  "def " ++ debugHandlerFunctionName ++ "(event, context):" ++ nl ++
  "    ptvsd.enable_attach(address=('0.0.0.0', " ++ showNumber port
          ++ "), redirect_output=False)" ++ nl ++
  "    print('" ++ WAIT_FOR_DEBUGGER_MESSAGE_PYTHON ++ "')" ++ nl ++
  "    sys.stdout.flush()" ++ nl ++
  "    ptvsd.wait_for_attach()" ++ nl ++
  "    print('...debugger attached')" ++ nl ++
  "    sys.stdout.flush()" ++ nl ++
  "    return _handler(event, context)" ++ nl ++
  nl.

Definition makeLambdaDebugFile (params : LambdaDebugFileParams)
  : Done LambdaDebugFile :=
  if negb (truthy (outputDir params)) then
    {| returned := Throw (PlainError "Must specify outputDir");
       writes := []; loggedErrors := [] |}
  else
    let pieces := splitOn "."%char (handlerName params) in
    let handlerFilePrefix := hd "" pieces in
    let handlerFunctionName := nth_error pieces 1 in
    let debugHandlerFileName := handlerFilePrefix ++ "___vsctk___debug" in
    let debugHandlerFunctionName := "lambda_handler" in
    let template :=
      debugFileTemplate handlerFilePrefix handlerFunctionName
        debugHandlerFunctionName (debugPort params) in
    let outFilePath := path_join (outputDir params) (debugHandlerFileName ++ ".py") in
    match writeFile outFilePath template with
    | Ok _ =>
        {| returned :=
             Ok {| outFilePath := outFilePath;
                   debugHandlerName :=
                     debugHandlerFileName ++ "." ++ debugHandlerFunctionName |};
           writes := [(outFilePath, template)]; loggedErrors := [] |}
    | Throw err =>
        {| returned := Throw err;
           writes := [(outFilePath, template)]; loggedErrors := [err] |}
    end.

(** [makePythonDebugManifest]: the returned path is [undefined] when the
    manifest needs no override. *)
Definition makePythonDebugManifest (samProjectCodeRoot outputDir_ : string)
  : Done (option string) :=
  let manfestPath := path_join samProjectCodeRoot "requirements.txt" in
  let read :=
    if fileExists manfestPath then readFileAsString manfestPath else Ok "" in
  match read with
  | Throw err => {| returned := Throw err; writes := []; loggedErrors := [] |}
  | Ok manifestText =>
      if (indexOf "ptvsd" manifestText <? 0)%Z then
        let manifestText' := manifestText ++ EOL ++ "ptvsd>4.2,<5" in
        let debugManifestPath := path_join outputDir_ "debug-requirements.txt" in
        match writeFile debugManifestPath manifestText' with
        | Ok _ =>
            {| returned := Ok (Some debugManifestPath);
               writes := [(debugManifestPath, manifestText')]; loggedErrors := [] |}
        | Throw err =>
            {| returned := Throw err;
               writes := [(debugManifestPath, manifestText')]; loggedErrors := [] |}
        end
      else {| returned := Ok None; writes := []; loggedErrors := [] |}
  end.

End WithFileSystem.

(** [vscode.SymbolKind.Function] *)
Definition SymbolKind_Function : Z := 11.

Record SymbolRange := { fromLine : Z; toLine : Z }.

(** [vscode.DocumentSymbol] *)
#[warnings="-register-all"]
Inductive DocumentSymbol :=
| Symbol (name : string) (kind : Z) (range : SymbolRange)
         (children : list DocumentSymbol).

Definition symbolName (s : DocumentSymbol) : string :=
  match s with Symbol name _ _ _ => name end.

Definition symbolKind (s : DocumentSymbol) : Z :=
  match s with Symbol _ kind _ _ => kind end.

Definition symbolRange (s : DocumentSymbol) : SymbolRange :=
  match s with Symbol _ _ range _ => range end.

Record LambdaHandlerCandidate := {
  filename : string;
  candidateHandlerName : string;
  candidateRange : SymbolRange
}.

Section WithSymbols.

(** [path.parse(filename).name] and the completion of
    [vscode.commands.executeCommand('vscode.executeDocumentSymbolProvider', uri)]. *)
Variable path_parse_name : string -> string.
Variable executeDocumentSymbolProvider : string -> Result (option (list DocumentSymbol)).

Definition getLambdaHandlerCandidates (fsPath : string)
  : Result (list LambdaHandlerCandidate) :=
  match executeDocumentSymbolProvider fsPath with
  | Throw err => Throw err
  | Ok provided =>
      let symbols := match provided with Some l => l | None => [] end in
      Ok (map (fun symbol =>
                 {| filename := fsPath;
                    candidateHandlerName :=
                      path_parse_name fsPath ++ "." ++ symbolName symbol;
                    candidateRange := symbolRange symbol |})
              (filter (fun sym => (symbolKind sym =? SymbolKind_Function)%Z) symbols))
  end.

End WithSymbols.

End PythonCodeLens.

(** ** [makePythonDebugConfig] *)
Module PythonDebugConfig.
Import JsString Js.

Record PythonPathMapping := { localRoot : string; remoteRoot : string }.

Section WithCollaborators.

(** The values the function only passes on: the workspace folder, the
    [RuntimeFamily] enumeration, and the globals and properties of an
    existing template. *)
Variables WorkspaceFolder RuntimeFamily Globals Properties : Type.
Variable RuntimeFamily_Python : RuntimeFamily.

(** [getLambdaInfoFromExistingTemplate]'s result, the parts read. *)
Record LambdaInfo := {
  templateGlobals : option Globals;
  resourceProperties : option Properties
}.

(** The object returned by [makePythonDebugConfig], field by field. *)
Record PythonDebugConfiguration := {
  type_ : string;
  workspaceFolder : WorkspaceFolder;
  samProjectCodeRoot : string;
  outFilePath : option string;
  baseBuildDir : string;
  manifestPath : string;
  debugPort : option Z;
  port : Z;
  runtime : string;
  runtimeFamily : RuntimeFamily;
  handlerName : string;
  originalHandlerName : string;
  noDebug : bool;
  documentUri : string;
  samTemplatePath : string;
  originalSamTemplatePath : string;
  request : string;
  name : string;
  host : string;
  pathMappings : list PythonPathMapping;
  redirectOutput : bool;
  invokeTargetTarget : string
}.

(** [process.platform === 'win32'], [DRIVE_LETTER_REGEX] of [codeLensUtils]
    with its [test] and with [String.prototype.replace] by a function, and
    the two case conversions. *)
Variable isWin32 : bool.
Variable DRIVE_LETTER_REGEX_test : string -> bool.
Variable replaceDriveLetter : (string -> string) -> string -> string.
Variable toLowerCase toUpperCase : string -> string.

Definition getLocalRootVariants (filePath : string) : list string :=
  if isWin32 && DRIVE_LETTER_REGEX_test filePath then
    [ replaceDriveLetter toLowerCase filePath;
      replaceDriveLetter toUpperCase filePath ]
  else [filePath].

(** The helpers of [localLambdaRunner] and [debuggerUtils], each with the
    completion of its call, and the file system of the two helpers above. *)
Variable makeBuildDir : Result string.
Variable getHandlerRelativePath : string -> string -> string.
Variable getRelativeFunctionHandler : string -> string -> string -> string.
Variable getLambdaInfoFromExistingTemplate :
  WorkspaceFolder -> string -> Result (option LambdaInfo).
Variable makeInputTemplate :
  string -> string -> string -> option Globals -> option Properties -> string ->
  Result string.
Variable getStartPort : Result Z.
Variable path_join : string -> string -> string.
Variable EOL : string.
Variable WAIT_FOR_DEBUGGER_MESSAGE_PYTHON : string.
Variable fileExists : string -> bool.
Variable readFileAsString : string -> Result string.
Variable writeFile : string -> string -> Result unit.

(** What the [if (isDebug)] block yields: the port, the path of the debug
    file, the reassigned handler name and the manifest path. *)
Record DebugParts := {
  partPort : option Z;
  partOutFilePath : option string;
  partHandlerName : string;
  partManifestPath : option string
}.

Definition debugBlock (isDebug : bool) (samProjectCodeRoot_ handlerName_ baseBuildDir_ : string)
  : PythonCodeLens.Done DebugParts :=
  if isDebug then
    match getStartPort with
    | Throw err =>
        {| PythonCodeLens.returned := Throw err;
           PythonCodeLens.writes := []; PythonCodeLens.loggedErrors := [] |}
    | Ok startPort =>
        let file :=
          PythonCodeLens.makeLambdaDebugFile path_join WAIT_FOR_DEBUGGER_MESSAGE_PYTHON
            writeFile
            {| PythonCodeLens.handlerName := handlerName_;
               PythonCodeLens.debugPort := startPort;
               PythonCodeLens.outputDir := samProjectCodeRoot_ |} in
        match PythonCodeLens.returned file with
        | Throw err =>
            {| PythonCodeLens.returned := Throw err;
               PythonCodeLens.writes := PythonCodeLens.writes file;
               PythonCodeLens.loggedErrors := PythonCodeLens.loggedErrors file |}
        | Ok rv =>
            let manifest :=
              PythonCodeLens.makePythonDebugManifest path_join EOL fileExists
                readFileAsString writeFile samProjectCodeRoot_ baseBuildDir_ in
            {| PythonCodeLens.returned :=
                 match PythonCodeLens.returned manifest with
                 | Throw err => Throw err
                 | Ok manifestPath_ =>
                     Ok {| partPort := Some startPort;
                           partOutFilePath := Some (PythonCodeLens.outFilePath rv);
                           partHandlerName := PythonCodeLens.debugHandlerName rv;
                           partManifestPath := manifestPath_ |}
                 end;
               PythonCodeLens.writes :=
                 (PythonCodeLens.writes file ++ PythonCodeLens.writes manifest)%list;
               PythonCodeLens.loggedErrors :=
                 (PythonCodeLens.loggedErrors file
                  ++ PythonCodeLens.loggedErrors manifest)%list |}
        end
    end
  else
    {| PythonCodeLens.returned :=
         Ok {| partPort := None; partOutFilePath := None;
               partHandlerName := handlerName_; partManifestPath := None |};
       PythonCodeLens.writes := []; PythonCodeLens.loggedErrors := [] |}.

(** The awaits before the [if (isDebug)] block: the build directory and
    the input template path. *)
Definition prepareTemplate (folder : WorkspaceFolder)
    (samProjectCodeRoot_ runtime_ handlerName_ fsPath : string)
    (samTemplatePath_ : option string) : Result (string * string) :=
  match makeBuildDir with
  | Throw err => Throw err
  | Ok baseBuildDir_ =>
      let handlerFileRelativePath := getHandlerRelativePath samProjectCodeRoot_ fsPath in
      let relativeFunctionHandler :=
        getRelativeFunctionHandler handlerName_ runtime_ handlerFileRelativePath in
      let relativeOriginalFunctionHandler :=
        getRelativeFunctionHandler handlerName_ runtime_ handlerFileRelativePath in
      match getLambdaInfoFromExistingTemplate folder relativeOriginalFunctionHandler with
      | Throw err => Throw err
      | Ok lambdaInfo =>
          match samTemplatePath_ with
          | Some given => Ok (baseBuildDir_, given)
          | None =>
              match makeInputTemplate baseBuildDir_ samProjectCodeRoot_
                      relativeFunctionHandler
                      (match lambdaInfo with
                       | Some info => templateGlobals info
                       | None => None
                       end)
                      (match lambdaInfo with
                       | Some info => resourceProperties info
                       | None => None
                       end)
                      runtime_ with
              | Throw err => Throw err
              | Ok made => Ok (baseBuildDir_, made)
              end
          end
      end
  end.

Definition makePythonDebugConfig (isDebug : bool) (folder : WorkspaceFolder)
    (samProjectCodeRoot_ runtime_ handlerName_ fsPath : string)
    (samTemplatePath_ : option string)
  : PythonCodeLens.Done PythonDebugConfiguration :=
  match prepareTemplate folder samProjectCodeRoot_ runtime_ handlerName_ fsPath
          samTemplatePath_ with
  | Throw err =>
      {| PythonCodeLens.returned := Throw err;
         PythonCodeLens.writes := []; PythonCodeLens.loggedErrors := [] |}
  | Ok (baseBuildDir_, inputTemplatePath) =>
      let pathMappings_ :=
        map (fun variant => {| localRoot := variant; remoteRoot := "/var/task" |})
            (getLocalRootVariants samProjectCodeRoot_) in
      let block := debugBlock isDebug samProjectCodeRoot_ handlerName_ baseBuildDir_ in
      {| PythonCodeLens.returned :=
           match PythonCodeLens.returned block with
           | Throw err => Throw err
           | Ok parts =>
               Ok {| type_ := "python";
                     workspaceFolder := folder;
                     samProjectCodeRoot := samProjectCodeRoot_;
                     outFilePath := partOutFilePath parts;
                     baseBuildDir := baseBuildDir_;
                     manifestPath :=
                       match partManifestPath parts with
                       | Some written => written
                       | None => "unknown"
                       end;
                     debugPort := partPort parts;
                     port := match partPort parts with Some p => p | None => -1 end;
                     runtime := runtime_;
                     runtimeFamily := RuntimeFamily_Python;
                     handlerName := partHandlerName parts;
                     originalHandlerName := partHandlerName parts;
                     noDebug := false;
                     documentUri := fsPath;
                     samTemplatePath := inputTemplatePath;
                     originalSamTemplatePath := inputTemplatePath;
                     request := "attach";
                     name := "SamLocalDebug";
                     host := "localhost";
                     pathMappings := pathMappings_;
                     redirectOutput := false;
                     invokeTargetTarget := "template" |}
           end;
         PythonCodeLens.writes := PythonCodeLens.writes block;
         PythonCodeLens.loggedErrors := PythonCodeLens.loggedErrors block |}
  end.

End WithCollaborators.

End PythonDebugConfig.

(** ** More scenarios *)
Module MoreScenarios.
Import JsString Js LiveTail PythonCodeLens.

(** A listing of three log groups, one of them without a name. *)
Definition sampleListing : AsyncIter LogGroup :=
  {| yielded := [ {| logGroupName := Some "/aws/lambda/a"; logGroupArn := None |};
                  {| logGroupName := None; logGroupArn := Some "arn" |};
                  {| logGroupName := Some "/aws/lambda/b"; logGroupArn := None |} ];
     failure := None |}.

(** A stand-in for [JSON.parse]: text that starts with a brace parses. *)
Definition sampleParse (s : string) : Result string :=
  if String.prefix "{" s then Ok s else Throw (PlainError "SyntaxError").

Definition sampleStream : AsyncIter StreamEvent :=
  {| yielded :=
       [ {| sessionStart := Some "session"; sessionUpdate := None |};
         {| sessionStart := None;
            sessionUpdate :=
              Some {| sessionResults :=
                        Some [ {| message := Some "{}"; timestamp := None |};
                               {| message := Some "plain"; timestamp := None |} ] |} |} ];
     failure := None |}.

(** Highlighting that fails at once, as for a pattern that is no regular
    expression. *)
Definition failingHighlight (i : nat) (pattern : string) : Result unit :=
  Throw (PlainError "Invalid regular expression").

Definition workingHighlight (i : nat) (pattern : string) : Result unit := Ok tt.

Definition sampleJoin (a b : string) : string := a ++ "/" ++ b.

Definition sampleWrite (path text : string) : Result unit := Ok tt.

Definition sampleParams : LambdaDebugFileParams :=
  {| handlerName := "app.lambda_handler"; debugPort := 5678; outputDir := "/tmp/project" |}.

(** A project whose requirements do not mention the debugger. *)
Definition sampleRead (path : string) : Result string := Ok "requests".

Definition sampleSymbols : list DocumentSymbol :=
  [ Symbol "lambda_handler" SymbolKind_Function {| fromLine := 1; toLine := 5 |} [];
    Symbol "Helper" 4 {| fromLine := 7; toLine := 20 |}
      [Symbol "method" SymbolKind_Function {| fromLine := 8; toLine := 10 |} []] ].

(** A debug configuration made on a Linux host, for a project whose
    requirements do not mention the debugger. *)
Definition sampleConfig (isDebug : bool)
  : Done (PythonDebugConfig.PythonDebugConfiguration unit unit) :=
  PythonDebugConfig.makePythonDebugConfig unit unit unit unit tt
    false (fun _ => false) (fun _ path => path) (fun s => s) (fun s => s)
    (Ok "/tmp/build") (fun _ path => path) (fun handler _ _ => handler)
    (fun _ _ => Ok None) (fun _ _ _ _ _ _ => Ok "/tmp/build/template.yaml")
    (Ok 5678%Z) sampleJoin nl "Waiting for debugger" (fun _ => true)
    sampleRead sampleWrite
    isDebug tt "/tmp/project" "python3.8" "app.lambda_handler"
    "/tmp/project/app.py" None.

End MoreScenarios.

(* ================================================================== *)
(** * Part II: properties                                              *)
(* ================================================================== *)

Section StringFacts.
Import JsString.

Lemma length_append (s t : string) :
  String.length (s ++ t) = String.length s + String.length t.
Proof.
  induction s as [|c s IH]; simpl; [reflexivity | now rewrite IH].
Qed.

Lemma substring_all (s : string) : substring 0 (String.length s) s = s.
Proof.
  induction s as [|c s IH]; simpl; [reflexivity | now rewrite IH].
Qed.

Lemma substring_prefix (r t : string) :
  substring 0 (String.length r) (r ++ t) = r.
Proof.
  induction r as [|c r IH]; simpl.
  - destruct t; reflexivity.
  - now rewrite IH.
Qed.

Lemma substring_suffix (r t : string) :
  substring (String.length r) (String.length t) (r ++ t) = t.
Proof.
  induction r as [|c r IH]; simpl.
  - apply substring_all.
  - exact IH.
Qed.

(** Splitting a string at position [n <= length s]. *)
Lemma substring_split (s : string) (n : nat) :
  n <= String.length s ->
  s = substring 0 n s ++ substring n (String.length s - n) s.
Proof.
  revert n; induction s as [|c s IH]; intros n Hn; simpl in *.
  - assert (n = 0) by lia; subst; reflexivity.
  - destruct n as [|n]; simpl.
    + now rewrite substring_all.
    + f_equal. apply IH. lia.
Qed.

(** [endsWith] is the usual suffix relation. *)
Lemma endsWith_iff (s t : string) :
  endsWith s t = true <-> exists r, s = r ++ t.
Proof.
  unfold endsWith; split.
  - destruct (String.length s <? String.length t)%nat eqn:Hlt; [discriminate|].
    apply Nat.ltb_ge in Hlt. intros He. apply String.eqb_eq in He.
    assert (Hn : String.length s - String.length t <= String.length s) by lia.
    pose proof (substring_split s _ Hn) as Hs.
    replace (String.length s - (String.length s - String.length t))
      with (String.length t) in Hs by lia.
    rewrite He in Hs. eexists; exact Hs.
  - intros [r ->]. rewrite length_append.
    replace (String.length r + String.length t <? String.length t)%nat with false
      by (symmetry; apply Nat.ltb_ge; lia).
    replace (String.length r + String.length t - String.length t)
      with (String.length r) by lia.
    rewrite substring_suffix. apply String.eqb_refl.
Qed.

Lemma append_assoc (a b c : string) : (a ++ b) ++ c = a ++ (b ++ c).
Proof.
  induction a as [|x a IH]; simpl; [reflexivity | now rewrite IH].
Qed.

End StringFacts.

Section FormatGroupArn.
Import JsString Arn.

Lemma formatGroupArn_strip (r : string) : formatGroupArn (r ++ ":*") = r.
Proof.
  unfold formatGroupArn.
  assert (He : endsWith (r ++ ":*") ":*" = true)
    by (apply endsWith_iff; now exists r).
  rewrite He. unfold js_substring.
  rewrite length_append. simpl String.length.
  replace (Z.of_nat (String.length r + 2) - 2)%Z
    with (Z.of_nat (String.length r)) by lia.
  rewrite !Z.max_l, !Z.min_l, Z.max_r by lia.
  rewrite Z.sub_0_r, Nat2Z.id. simpl Z.to_nat.
  apply substring_prefix.
Qed.

(** C9. For every string [s]: if [s] ends with [":*"], [formatGroupArn s]
    is [s] without its final two characters; otherwise it is [s] itself;
    and the result ends with [":*"] only when [s] ended with [":*:*"]. *)
Theorem formatGroupArn_spec (s : string) :
  (forall r, s = r ++ ":*" -> formatGroupArn s = r) /\
  (endsWith s ":*" = true ->
     String.length (formatGroupArn s) = String.length s - 2 /\
     s = formatGroupArn s ++ ":*") /\
  (endsWith s ":*" = false -> formatGroupArn s = s) /\
  (endsWith (formatGroupArn s) ":*" = true -> endsWith s ":*:*" = true).
Proof.
  split; [|split; [|split]].
  - intros r ->. apply formatGroupArn_strip.
  - intros He. apply endsWith_iff in He as [r ->].
    rewrite formatGroupArn_strip, length_append. simpl. split; [lia | reflexivity].
  - intros He. unfold formatGroupArn. now rewrite He.
  - intros He. destruct (endsWith s ":*") eqn:Hs.
    + apply endsWith_iff in Hs as [r ->].
      rewrite formatGroupArn_strip in He.
      apply endsWith_iff in He as [q ->].
      apply endsWith_iff. exists q. now rewrite append_assoc.
    + unfold formatGroupArn in He. rewrite Hs in He. congruence.
Qed.

Lemma formatGroupArn_spec_witness :
  Arn.formatGroupArn "arn:aws:logs:us-east-1:1:log-group:g:*"
    = "arn:aws:logs:us-east-1:1:log-group:g"
  /\ Arn.formatGroupArn "log-group:g" = "log-group:g"
  /\ JsString.endsWith "g:*:*" ":*:*" = true.
Proof.
  split; [|split].
  - apply (proj1 (formatGroupArn_spec "arn:aws:logs:us-east-1:1:log-group:g:*")).
    reflexivity.
  - apply (proj1 (proj2 (proj2 (formatGroupArn_spec "log-group:g")))).
    reflexivity.
  - apply (proj2 (proj2 (proj2 (formatGroupArn_spec "g:*:*")))).
    reflexivity.
Defined.

End FormatGroupArn.

Section SamDebugConfig.
Import JsObject SamDebug.

Variable getNormalizedRelativePath : string -> string -> string.

(** C10. Whatever the folder, runtime name, resource name, template path and
    optional preloaded configuration, the configuration built by
    [createTemplateAwsSamDebugConfig] has type ['aws-sam'], request
    ['direct-invoke'] and an invoke target whose [target] is ['template'],
    so both type guards accept it; without a preloaded configuration the
    result has no [lambda] and no [sam] property. *)
Theorem createTemplateAwsSamDebugConfig_shape
    (folder : option WorkspaceFolder) (runtimeName : option string)
    (resourceName templatePath : string)
    (preloadedConfig : option PreloadedConfig) :
  let config :=
    createTemplateAwsSamDebugConfig getNormalizedRelativePath
      folder runtimeName resourceName templatePath preloadedConfig in
  let bare :=
    createTemplateAwsSamDebugConfig getNormalizedRelativePath
      folder runtimeName resourceName templatePath None in
  getProp config "type" = JStr "aws-sam" /\
  getProp config "request" = JStr "direct-invoke" /\
  getProp (getProp config "invokeTarget") "target" = JStr "template" /\
  isAwsSamDebugConfiguration config = true /\
  isTemplateTargetProperties (getProp config "invokeTarget") = true /\
  hasProp bare "lambda" = false /\
  hasProp bare "sam" = false.
Proof.
  destruct preloadedConfig as [pc|]; cbv zeta;
    unfold createTemplateAwsSamDebugConfig; repeat split; reflexivity.
Qed.

(** With a preloaded configuration both properties are present, even when
    their value is [undefined]. *)
Lemma createTemplateAwsSamDebugConfig_preloaded
    (folder : option WorkspaceFolder) (runtimeName : option string)
    (resourceName templatePath : string) (pc : PreloadedConfig) :
  let config :=
    createTemplateAwsSamDebugConfig getNormalizedRelativePath
      folder runtimeName resourceName templatePath (Some pc) in
  hasProp config "lambda" = true /\ hasProp config "sam" = true.
Proof. split; reflexivity. Qed.

End SamDebugConfig.

Section PromptingAnInputBox.
Import Js Prompter.
Context {W : Type}.

Lemma resolve_settled {A : Type} (calls : list A) (p : Promise A) :
  p <> Pending -> fold_left (fun pr r => resolve r pr) calls p = p.
Proof.
  revert p; induction calls as [|r calls IH]; intros p Hp; simpl; [reflexivity|].
  destruct p; [congruence | apply IH; discriminate | apply IH; discriminate].
Qed.

Lemma resolve_first {A : Type} (r : A) (calls : list A) :
  fold_left (fun pr r => resolve r pr) (r :: calls) Pending = Resolved r.
Proof. simpl. apply resolve_settled. discriminate. Qed.

(** Running the resolver calls of a handler only touches the promise. *)
Lemma settle_calls (calls : list (PromptResult string)) (p : InputBoxPrompter W) :
  let q := fold_left (fun q r => settle r q) calls p in
  inputBox q = inputBox p /\ subscribed q = subscribed p /\
  changeListeners q = changeListeners p /\ vars q = vars p /\
  promptPromise q = fold_left (fun pr r => resolve r pr) calls (promptPromise p).
Proof.
  revert p; induction calls as [|r calls IH]; intros p; simpl.
  - repeat split.
  - destruct (IH (settle r p)) as (Hb & Hs & Hc & Hv & Hp).
    rewrite Hb, Hs, Hc, Hv, Hp. repeat split.
Qed.

Lemma pressButton_promise (b : QuickInputButton W string) (p : InputBoxPrompter W) :
  subscribed p = true ->
  promptPromise (pressButton b p)
    = fold_left (fun pr r => resolve r pr) (snd (onClick b (vars p))) (promptPromise p)
  /\ inputBox (pressButton b p) = inputBox p
  /\ subscribed (pressButton b p) = true
  /\ vars (pressButton b p) = fst (onClick b (vars p)).
Proof.
  intros Hs. unfold pressButton, fire, onTriggerButton. rewrite Hs.
  destruct (onClick b (vars p)) as [w' calls]; simpl.
  destruct (settle_calls calls p) as (Hb & Hsub & _ & _ & Hp).
  rewrite Hb, Hsub, Hp. repeat split. exact Hs.
Qed.

(** No event unsubscribes the prompter. *)
Lemma handle_subscribed (ev : UserEvent) (p : InputBoxPrompter W) :
  subscribed p = true -> subscribed (handle p ev) = true.
Proof.
  intros Hs. destruct ev as [v| |b|v]; simpl.
  - unfold accept, fire, onAccept; simpl. rewrite Hs.
    destruct (JsString.truthy_opt _); exact Hs.
  - unfold hide, fire, onHide. rewrite Hs. exact Hs.
  - apply pressButton_promise, Hs.
  - exact Hs.
Qed.

Lemma handleAll_subscribed (evs : list UserEvent) (p : InputBoxPrompter W) :
  subscribed p = true -> subscribed (handleAll evs p) = true.
Proof.
  revert p; induction evs as [|ev evs IH]; intros p Hs; simpl; [exact Hs|].
  apply IH, handle_subscribed, Hs.
Qed.

Lemma resolve_not_rejected {A : Type} (calls : list A) (p : Promise A) :
  not_rejected p -> not_rejected (fold_left (fun pr r => resolve r pr) calls p).
Proof.
  revert p; induction calls as [|r calls IH]; intros p Hp; simpl; [exact Hp|].
  apply IH. destruct p; simpl; [discriminate | exact Hp | exact Hp].
Qed.

(** No event rejects the promise of [prompt()]. *)
Lemma handle_not_rejected (ev : UserEvent) (p : InputBoxPrompter W) :
  not_rejected (promptPromise p) -> not_rejected (promptPromise (handle p ev)).
Proof.
  intros Hp. destruct ev as [v| |b|v]; simpl.
  - unfold accept, fire, onAccept; simpl. destruct (subscribed p); [|exact Hp].
    destruct (JsString.truthy_opt _); [exact Hp|]. simpl.
    apply (resolve_not_rejected [Value v]), Hp.
  - unfold hide, fire, onHide. destruct (subscribed p); [|exact Hp]. simpl.
    apply (resolve_not_rejected [Cancel]), Hp.
  - unfold pressButton, fire, onTriggerButton. destruct (subscribed p); [|exact Hp].
    destruct (onClick b (vars p)) as [w' calls]; simpl.
    destruct (settle_calls calls p) as (_ & _ & _ & _ & Hq).
    rewrite Hq. apply resolve_not_rejected, Hp.
  - exact Hp.
Qed.

Lemma handleAll_not_rejected (evs : list UserEvent) (p : InputBoxPrompter W) :
  not_rejected (promptPromise p) -> not_rejected (promptPromise (handleAll evs p)).
Proof.
  revert p; induction evs as [|ev evs IH]; intros p Hp; simpl; [exact Hp|].
  apply IH, handle_not_rejected, Hp.
Qed.

(** C1. Whatever the input box and whatever happened since [prompt()] was
    called, the promise is never rejected, and hiding the box while the
    promise is still pending (no accept went through) resolves it with the
    cancel signal. *)
Theorem hide_resolves_cancel
    (box : TestInputBox W) (w : W) (evs : list UserEvent) :
  let p := handleAll evs (prompt (newInputBoxPrompter box w)) in
  not_rejected (promptPromise p) /\
  not_rejected (promptPromise (hide p)) /\
  (promptPromise p = Pending ->
   promptPromise (hide p) = Resolved Cancel /\
   isShowing (inputBox (hide p)) = false).
Proof.
  cbv zeta.
  set (p := handleAll evs (prompt (newInputBoxPrompter box w))).
  assert (Hs : subscribed p = true) by (apply handleAll_subscribed; reflexivity).
  assert (Hn : not_rejected (promptPromise p))
    by (apply handleAll_not_rejected; intros e; discriminate).
  split; [exact Hn|]. split.
  - apply (handle_not_rejected EvHide), Hn.
  - intros Hp. unfold hide, fire, onHide. rewrite Hs. simpl. rewrite Hp.
    split; reflexivity.
Qed.

(** C2. Pressing the back button of an input box whose prompt is pending
    resolves [prompt()] with [WIZARD_BACK]: not with the cancel signal and
    not with a value. *)
Theorem back_button_resolves_back
    (box : TestInputBox W) (w : W) (evs : list UserEvent) :
  let p := handleAll evs (prompt (newInputBoxPrompter box w)) in
  In createBackButton (buttons (inputBox p)) ->
  promptPromise p = Pending ->
  let q := pressButton createBackButton p in
  promptPromise q = Resolved WIZARD_BACK /\
  promptPromise q <> Resolved Cancel /\
  (forall v, promptPromise q <> Resolved (Value v)).
Proof.
  cbv zeta.
  set (p := handleAll evs (prompt (newInputBoxPrompter box w))).
  intros _ Hp.
  assert (Hs : subscribed p = true) by (apply handleAll_subscribed; reflexivity).
  destruct (pressButton_promise createBackButton p Hs) as (Hq & _).
  rewrite Hq, Hp. simpl. repeat split; intros; discriminate.
Qed.

(** C3. A click on a button while the prompt is pending: if the handler
    calls the resolver, the prompt resolves with exactly the argument of
    that (first) call; if the handler only performs its side effect and
    never calls the resolver, the promise stays pending and the input box
    is untouched, so it is still showing. *)
Theorem button_handler_outcome
    (box : TestInputBox W) (w : W) (evs : list UserEvent)
    (b : QuickInputButton W string) :
  let p := handleAll evs (prompt (newInputBoxPrompter box w)) in
  promptPromise p = Pending ->
  let q := pressButton b p in
  (forall r rest, snd (onClick b (vars p)) = r :: rest ->
     promptPromise q = Resolved r) /\
  (snd (onClick b (vars p)) = [] ->
     promptPromise q = Pending /\
     inputBox q = inputBox p /\
     (isShowing (inputBox p) = true -> isShowing (inputBox q) = true) /\
     vars q = fst (onClick b (vars p))).
Proof.
  cbv zeta.
  set (p := handleAll evs (prompt (newInputBoxPrompter box w))).
  intros Hp.
  assert (Hs : subscribed p = true) by (apply handleAll_subscribed; reflexivity).
  destruct (pressButton_promise b p Hs) as (Hq & Hb & _ & Hv).
  split.
  - intros r rest Hc. rewrite Hq, Hc, Hp. apply resolve_first.
  - intros Hc. rewrite Hq, Hc, Hp, Hb. repeat split; auto.
Qed.

End PromptingAnInputBox.

Section SearchPatternPrompterFacts.
Import JsString Js Prompter SearchPattern.
Context {W : Type}.

(** The listener subscribed by the constructor is the only one, and no
    event adds another. *)
Lemma handle_changeListeners (ev : UserEvent) (p : InputBoxPrompter W) :
  changeListeners (handle p ev) = changeListeners p.
Proof.
  destruct ev as [v| |b|v]; simpl; try reflexivity.
  - unfold accept, fire, onAccept; simpl. destruct (subscribed p); [|reflexivity].
    destruct (truthy_opt _); reflexivity.
  - unfold hide, fire, onHide. destruct (subscribed p); reflexivity.
  - unfold pressButton, fire, onTriggerButton. destruct (subscribed p); [|reflexivity].
    destruct (onClick b (vars p)) as [w' calls]; simpl.
    apply (settle_calls calls p).
Qed.

Lemma handleAll_changeListeners (evs : list UserEvent) (p : InputBoxPrompter W) :
  changeListeners (handleAll evs p) = changeListeners p.
Proof.
  revert p; induction evs as [|ev evs IH]; intros p; simpl; [reflexivity|].
  rewrite IH. apply handle_changeListeners.
Qed.

(** Events other than an edit leave the validation message alone. *)
Lemma handle_keeps_validationMessage (ev : UserEvent) (p : InputBoxPrompter W) :
  (forall v, ev <> EvChangeValue v) ->
  validationMessage (inputBox (handle p ev)) = validationMessage (inputBox p).
Proof.
  intros Hev. destruct ev as [v| |b|v]; simpl.
  - unfold accept, fire, onAccept; simpl. destruct (subscribed p); [|reflexivity].
    destruct (truthy_opt _); reflexivity.
  - unfold hide, fire, onHide. destruct (subscribed p); reflexivity.
  - unfold pressButton, fire, onTriggerButton. destruct (subscribed p); [|reflexivity].
    destruct (onClick b (vars p)) as [w' calls]; simpl.
    destruct (settle_calls calls p) as (Hb & _). now rewrite Hb.
  - now contradiction (Hev v).
Qed.

(** C6. A search pattern prompter constructed on a [retryState] that records
    a search pattern and a validation message (non-empty strings, which is
    how the constructor recognises a recorded value) starts with the recorded
    pattern as the value of its input box and the recorded message as its
    validation message.  From then on every edit of the value, whatever the
    new text, clears the validation message, and no other event changes it. *)
Theorem searchPattern_redisplay
    (lg : CloudWatchLogsGroupInfo) (lp : CloudWatchLogsParameters)
    (rs : RetryState.t) (box0 : TestInputBox W)
    (opts : ExtendedInputBoxOptions W) (w : W)
    (pattern message : string) (evs : list UserEvent) :
  RetryState.searchPattern rs = Some pattern -> truthy pattern = true ->
  RetryState.validationMessage rs = Some message -> truthy message = true ->
  let sp := newSearchPatternPrompter lg lp rs box0 opts w in
  value (inputBox (base sp)) = pattern /\
  validationMessage (inputBox (base sp)) = Some message /\
  let shown := handleAll evs (prompt (base sp)) in
  (forall v, validationMessage (inputBox (handle shown (EvChangeValue v))) = None) /\
  (forall ev, (forall v, ev <> EvChangeValue v) ->
     validationMessage (inputBox (handle shown ev))
       = validationMessage (inputBox shown)).
Proof.
  intros Hp Htp Hm Htm. cbv zeta.
  unfold newSearchPatternPrompter. rewrite Hp, Hm. simpl truthy_opt.
  rewrite Htp, Htm. simpl.
  split; [reflexivity|]. split; [reflexivity|]. split.
  - intros v. unfold changeValue. rewrite handleAll_changeListeners. reflexivity.
  - intros ev Hev. apply handle_keeps_validationMessage, Hev.
Qed.

(** Without a recorded (truthy) pattern the constructor leaves the value of
    the box as it found it; a fresh box therefore shows the empty pattern. *)
Lemma searchPattern_no_pattern
    (lg : CloudWatchLogsGroupInfo) (lp : CloudWatchLogsParameters)
    (rs : RetryState.t) (box0 : TestInputBox W)
    (opts : ExtendedInputBoxOptions W) (w : W) :
  truthy_opt (RetryState.searchPattern rs) = false ->
  value (inputBox (base (newSearchPatternPrompter lg lp rs box0 opts w))) = value box0.
Proof.
  intros Ht. unfold newSearchPatternPrompter.
  destruct (RetryState.searchPattern rs) as [pat|]; simpl in *.
  - rewrite Ht. reflexivity.
  - reflexivity.
Qed.

Variable isWizardControl : PromptResult string -> Result bool.
Variable isValidResponse : PromptResult string -> Result bool.

(** C7. Once the inherited prompt has produced [rv], [promptUser] sets the
    busy flag, runs the validation phase with the flag set at every step,
    and clears the flag as its last step, whether the phase returns the
    control signal, returns the box's value for a value, or throws. *)
Theorem promptUser_busy (rv : PromptResult string) (s : Store W) :
  let entered := set_box_busy true s in
  let phase := validationPhase isWizardControl isValidResponse rv entered in
  let whole := promptUser isWizardControl isValidResponse (Ok rv) s in
  busyIn entered = true /\
  Forall (fun st => busyIn st = true) (snd phase) /\
  snd whole = (s :: entered :: snd phase ++ [snd (fst whole)])%list /\
  busyIn (snd (fst whole)) = false /\
  fst (fst whole) = fst (fst phase) /\
  (isWizardControl rv = Ok true -> fst (fst whole) = Ok rv) /\
  (forall valid, isWizardControl rv = Ok false -> isValidResponse rv = Ok valid ->
     fst (fst whole) = Ok (Value (value (box s)))) /\
  (forall e, isWizardControl rv = Throw e -> fst (fst whole) = Throw e) /\
  (forall e, isWizardControl rv = Ok false -> isValidResponse rv = Throw e ->
     fst (fst whole) = Throw e).
Proof.
  cbv zeta.
  unfold promptUser, promptUser_after, validationPhase, tryFinally, bind, call,
    update, ret, busyIn.
  destruct (isWizardControl rv) as [[|]|e]; simpl.
  - repeat split; try (repeat constructor); intros; congruence.
  - destruct (isValidResponse rv) as [valid|e']; simpl.
    + repeat split; try (repeat constructor); intros; congruence.
    + repeat split; try (repeat constructor); intros; congruence.
  - repeat split; try (repeat constructor); intros; congruence.
Qed.

(** When the inherited prompt rejects, [promptUser] rejects with the same
    error and never touches the busy flag. *)
Lemma promptUser_inner_rejects (e : JsError) (s : Store W) :
  fst (promptUser isWizardControl isValidResponse (Throw e) s) = (Throw e, s).
Proof. reflexivity. Qed.

End SearchPatternPrompterFacts.

Section WizardEngineFacts.
Import Js Prompter Wizard.
Variables State Val P Env Answer : Type.
Variable runPrompt : P -> Answer -> Env -> Promise (PromptResult Val) * Env.

Lemma nextField_passes (pre rest : list (Field State Val P Env)) (st : State) (env : Env) :
  Forall (passedOver st env) pre ->
  nextField (pre ++ rest) st env = nextField rest st env.
Proof.
  induction 1 as [|f pre Hf _ IH]; simpl; [reflexivity|].
  destruct Hf as [Ha | [Ha Hs]]; rewrite Ha; [exact IH|].
  rewrite Hs. exact IH.
Qed.

(** A factory that throws where the walk arrives rejects the run at once,
    whatever the user would have answered. *)
Lemma runLoop_factory_throws (form : list (Field State Val P Env)) (script : list Answer)
    (history : list (Field State Val P Env)) (st : State) (env : Env) (e : JsError) :
  nextField form st env = Misconfigured e ->
  runLoop runPrompt form script history st env = (Rejected e, env, []).
Proof.
  intros Hn. destruct script; simpl; rewrite Hn; reflexivity.
Qed.

(** The run resolves to the absent response exactly when its log ends with
    the user leaving. *)
Lemma runLoop_absent_iff_userExited (form : list (Field State Val P Env)) (script : list Answer) :
  forall (history : list (Field State Val P Env)) (st : State) (env : Env),
    let r := runLoop runPrompt form script history st env in
    fst (fst r) = Resolved None <-> userExited (List.length history) (snd r) = true.
Proof.
  induction script as [|a rest IH]; intros history st env; cbv zeta; simpl;
    destruct (nextField form st env) as [|f p|e]; simpl;
    try (split; discriminate).
  destruct (runPrompt p a env) as [settled env']; destruct settled as [|r|e];
    simpl; try (split; discriminate).
  destruct r as [v| |]; simpl.
  - specialize (IH (f :: history) (assign f v st) env'). cbv zeta in IH.
    destruct (runLoop runPrompt form rest (f :: history) (assign f v st) env')
      as [[out env2] log]. simpl in *. exact IH.
  - destruct history as [|prev older]; simpl.
    + split; reflexivity.
    + specialize (IH older (rewind form prev f st) env'). cbv zeta in IH.
      destruct (runLoop runPrompt form rest older (rewind form prev f st) env')
        as [[out env2] log]. simpl in *. exact IH.
  - split; reflexivity.
Qed.

(** A run that resolves to a response left no field to prompt. *)
Lemma runLoop_completed_nothing_left (form : list (Field State Val P Env)) (script : list Answer) :
  forall (history : list (Field State Val P Env)) (st : State) (env : Env) (st' : State),
    let r := runLoop runPrompt form script history st env in
    fst (fst r) = Resolved (Some st') ->
    nextField form st' (snd (fst r)) = NoneLeft.
Proof.
  induction script as [|a rest IH]; intros history st env st'; cbv zeta; simpl;
    destruct (nextField form st env) as [|f p|e] eqn:Hn; simpl;
    try discriminate; try (intros [= <-]; exact Hn).
  destruct (runPrompt p a env) as [settled env']; destruct settled as [|r|e];
    simpl; try discriminate.
  destruct r as [v| |]; simpl; try discriminate.
  - specialize (IH (f :: history) (assign f v st) env' st'). cbv zeta in IH.
    destruct (runLoop runPrompt form rest (f :: history) (assign f v st) env')
      as [[out env2] log]. simpl in *. exact IH.
  - destruct history as [|prev older]; simpl; [discriminate|].
    specialize (IH older (rewind form prev f st) env' st'). cbv zeta in IH.
    destruct (runLoop runPrompt form rest older (rewind form prev f st) env')
      as [[out env2] log]. simpl in *. exact IH.
Qed.

End WizardEngineFacts.

Section TailLogGroupFacts.
Import JsString Js Prompter SearchPattern Wizard TailLogGroup.

Variable truncate : string -> Z -> string.

Lemma isUserCancelled_iff (err : JsError) :
  isUserCancelled err = true <-> err = CancellationError "user".
Proof.
  destruct err as [m|m|agent|m c]; simpl; try (split; discriminate).
  rewrite String.eqb_eq. split; [now intros -> | now intros [= ->]].
Qed.

(** [prepareDocument] runs three steps in its [try] block; the first that
    throws sends its error through the [catch]. *)
Lemma prepareDocument_steps (host : Host) (uri : string) :
  (exists doc,
     openTextDocument host uri = Ok doc /\
     showTextDocument host doc = Ok tt /\
     setTextDocumentLanguage host doc "json" = Ok tt /\
     prepareDocument host uri = Ok doc) \/
  (exists cause,
     (openTextDocument host uri = Throw cause \/
      exists doc,
        openTextDocument host uri = Ok doc /\
        (showTextDocument host doc = Throw cause \/
         (showTextDocument host doc = Ok tt /\
          setTextDocumentLanguage host doc "json" = Throw cause))) /\
     prepareDocument host uri = prepareDocument_catch uri cause).
Proof.
  unfold prepareDocument.
  destruct (openTextDocument host uri) as [doc|e]; [|right; eauto].
  destruct (showTextDocument host doc) as [[]|e] eqn:Hs; [|right; eauto 7].
  destruct (setTextDocumentLanguage host doc "json") as [[]|e] eqn:Hl.
  - left. eauto 7.
  - right. exists e. split; [|reflexivity]. right. exists doc. auto.
Qed.

(** [prepareDocument] lets a user cancellation through unchanged and wraps
    every other error. *)
Lemma prepareDocument_user_cancellation (host : Host) (uri : string) :
  prepareDocument host uri = Throw (CancellationError "user") <->
  openTextDocument host uri = Throw (CancellationError "user") \/
  exists textDocument,
    openTextDocument host uri = Ok textDocument /\
    (showTextDocument host textDocument = Throw (CancellationError "user") \/
     (showTextDocument host textDocument = Ok tt /\
      setTextDocumentLanguage host textDocument "json"
        = Throw (CancellationError "user"))).
Proof.
  destruct (prepareDocument_steps host uri)
    as [(doc & Ho & Hs & Hl & Hp) | (cause & Hwhy & Hp)]; rewrite Hp.
  - split; [discriminate|].
    intros [H | (d & Hd & [H | [_ H]])]; congruence.
  - unfold prepareDocument_catch. destruct (isUserCancelled cause) eqn:Hu.
    + apply isUserCancelled_iff in Hu. subst cause.
      split; [intros _; exact Hwhy | reflexivity].
    + assert (Hne : cause <> CancellationError "user")
        by (intros ->; discriminate).
      split; [discriminate|]. intros Hcancel. exfalso.
      destruct Hwhy as [Ho | (doc & Ho & [Hs | [Hs Hl]])];
        destruct Hcancel as [H | (d & Hd & [H | [H1 H2]])]; congruence.
Qed.

(** A completed run of the wizard has both fields. *)
Lemma TailLogGroupWizard_complete (logGroupInfo : option CloudWatchLogsGroupInfo)
    (st : TailLogGroupWizardResponse) (rs : RetryState.t) :
  nextField (TailLogGroupWizard_form truncate logGroupInfo) st rs = NoneLeft ->
  (exists sr, submenuResponse st = Some sr) /\ (exists pat, filterPattern st = Some pat).
Proof.
  unfold TailLogGroupWizard_form; simpl.
  destruct (submenuResponse st) as [sr|] eqn:Hs; [|discriminate].
  destruct (filterPattern st) as [pat|] eqn:Hf.
  - intros _. split; eauto.
  - unfold filterPatternFactory. rewrite Hs. discriminate.
Qed.

(** C4 (as amended). [run()] of the wizard resolves to the absent response
    exactly when the user exited without completing it; on an absent
    response [tailLogGroup] raises [CancellationError('user')]; on a
    completed response it goes on to prepare the document, and it raises
    [CancellationError('user')] only when a step of preparing the document
    fails with a user cancellation, which [prepareDocument] rethrows. *)
Theorem tailLogGroup_cancellation (host : Host) (source : string)
    (logData : option LogData) (script : list Answer) :
  let ran := TailLogGroupWizard_run truncate (option_map asGroupInfo logData) script in
  let raised := tailLogGroup truncate host source logData script in
  (fst (fst ran) = Resolved None <-> userExited 0 (snd ran) = true) /\
  (fst (fst ran) = Resolved None -> raised = Rejected (CancellationError "user")) /\
  (forall response, fst (fst ran) = Resolved (Some response) ->
     exists sr,
       submenuResponse response = Some sr /\
       (raised = Rejected (CancellationError "user") <->
        prepareDocument host
          (createURIFromArgs host {| groupName := data sr; regionName := region sr |})
          = Throw (CancellationError "user"))).
Proof.
  cbv zeta. split; [|split].
  - apply (runLoop_absent_iff_userExited _ _ _ _ _ runPrompt _ script []).
  - intros Hr. unfold tailLogGroup. rewrite Hr. reflexivity.
  - intros response Hr.
    pose proof (runLoop_completed_nothing_left _ _ _ _ _ runPrompt _ script []
                  _ _ response Hr) as Hn.
    apply TailLogGroupWizard_complete in Hn as [[sr Hsr] _].
    exists sr. split; [exact Hsr|].
    unfold tailLogGroup. rewrite Hr. unfold tailLogGroup_after. rewrite Hsr.
    destruct (prepareDocument host _) as [doc|err]; simpl.
    + destruct logData as [d|]; simpl; [|split; discriminate].
      destruct (send host _); simpl; split; discriminate.
    + split; [now intros [= ->] | now intros [= ->]].
Qed.


End TailLogGroupFacts.

Section WaitingForTheDebugAdapter.
Import Js PythonDebug.
Local Open Scope Z_scope.

Variable w : World.

Lemma clock_lower_bound :
  clockAdvances w -> forall i : nat, dateNow w 0 + Z.of_nat i <= dateNow w (S i).
Proof.
  intros [H0 Hstep] i. induction i as [|i IH].
  - simpl. lia.
  - specialize (Hstep i). lia.
Qed.

(** The [try] block sets the flag exactly when both calls of the tester
    resolved to [true]. *)
Lemma test_foundUp (h : Heartbeat) : fst (test h) = true <-> foundUp h.
Proof.
  unfold test, foundUp.
  destruct (connect h) as [[|]|e]; simpl;
    try (split; [discriminate | intros [H _]; discriminate]).
  destruct (isDebugServerUp h) as [[|]|e]; simpl;
    (split; [try discriminate; auto | try (intros [_ H]; discriminate); auto]).
Qed.

(** What a run of the loop from iteration [i] has seen, for each of the
    three ways it can come out: every tester before the last one was
    retried; the last one either rejected in [disconnect()], or found the
    debug server, or was followed by a clock reading past the deadline. *)
Lemma retryLoop_run (stopMillis : Z) :
  forall (fuel i : nat) (log : list LogLine),
    match retryLoop fuel w stopMillis i log with
    | OutOfFuel =>
        forall j, (i <= j < i + fuel)%nat -> retried w stopMillis j
    | Threw e =>
        exists j, (i <= j < i + fuel)%nat /\
                  disconnect (heartbeat w j) = Throw e /\
                  forall k, (i <= k < j)%nat -> retried w stopMillis k
    | Exited x =>
        (i < attempts x <= i + fuel)%nat /\
        (forall k, (i <= k < pred (attempts x))%nat -> retried w stopMillis k) /\
        disconnect (heartbeat w (pred (attempts x))) = Ok tt /\
        ((debugServerAvailable x = true /\
          foundUp (heartbeat w (pred (attempts x)))) \/
         (debugServerAvailable x = false /\
          ~ foundUp (heartbeat w (pred (attempts x))) /\
          stopMillis < dateNow w (attempts x)))
    end.
Proof.
  induction fuel as [|fuel IH]; intros i log; simpl; [intros j Hj; lia|].
  pose proof (test_foundUp (heartbeat w i)) as Hup.
  destruct (test (heartbeat w i)) as [available lines]. simpl in Hup.
  destruct (disconnect (heartbeat w i)) as [[]|e] eqn:Hd.
  - destruct available.
    + simpl. split; [lia|]. split; [intros k Hk; lia|]. split; [exact Hd|].
      left. split; [reflexivity | now apply Hup].
    + assert (Hdown : ~ foundUp (heartbeat w i))
        by (intros Hf; apply Hup in Hf; discriminate).
      destruct (dateNow w (S i) >? stopMillis) eqn:Hnow.
      * simpl. split; [lia|]. split; [intros k Hk; lia|]. split; [exact Hd|].
        right. split; [reflexivity|]. split; [exact Hdown | now apply Z.gtb_lt].
      * assert (Hi : retried w stopMillis i).
        { split; [exact Hd|]. split; [exact Hdown|].
          rewrite Z.gtb_ltb in Hnow. now apply Z.ltb_ge in Hnow. }
        specialize (IH (S i) (log ++ lines ++ [NotReadyRetrying])%list).
        destruct (retryLoop fuel w stopMillis (S i) _) as [|x|err].
        -- intros j Hj. destruct (Nat.eq_dec j i) as [->|Hne];
             [exact Hi | apply IH; lia].
        -- destruct IH as (Hatt & Hret & Hlast & Hwhy).
           split; [lia|]. split; [|split; assumption].
           intros k Hk. destruct (Nat.eq_dec k i) as [->|Hne];
             [exact Hi | apply Hret; lia].
        -- destruct IH as (j & Hj & He & Hret). exists j.
           split; [lia|]. split; [exact He|].
           intros k Hk. destruct (Nat.eq_dec k i) as [->|Hne];
             [exact Hi | apply Hret; lia].
  - exists i. split; [lia|]. split; [exact Hd|]. intros k Hk. lia.
Qed.

(** Once the loop has come out, more fuel changes nothing. *)
Lemma retryLoop_more_fuel (stopMillis : Z) :
  forall (fuel fuel' i : nat) (log : list LogLine),
    (fuel <= fuel')%nat ->
    retryLoop fuel w stopMillis i log <> OutOfFuel ->
    retryLoop fuel' w stopMillis i log = retryLoop fuel w stopMillis i log.
Proof.
  induction fuel as [|fuel IH]; intros fuel' i log Hle Hne;
    [simpl in Hne; congruence|].
  destruct fuel' as [|fuel']; [lia|]. simpl in *.
  destruct (test (heartbeat w i)) as [available lines].
  destruct (disconnect (heartbeat w i)); [|reflexivity].
  destruct available; [reflexivity|].
  destruct (dateNow w (S i) >? stopMillis); [reflexivity|].
  apply IH; [lia | exact Hne].
Qed.


End WaitingForTheDebugAdapter.

(** ** The scenarios, run *)
Section ScenarioRuns.
Import JsString Js Prompter SearchPattern Wizard TailLogGroup PythonDebug Scenario.

(** The test "Accepted value is returned". *)
Example test_accepted_value_is_returned :
  promptPromise (accept "hello world" (prompt (samplePrompter [])))
    = Resolved (Value "hello world").
Proof. reflexivity. Qed.

(** The test "Button can do something and leave input box open". *)
Example test_button_leaves_input_box_open :
  let pressed := pressButton sideEffectButton (prompt (samplePrompter [sideEffectButton])) in
  vars pressed = true /\ isShowing (inputBox pressed) = true /\
  promptPromise pressed = Pending /\ promptPromise (hide pressed) = Resolved Cancel.
Proof. repeat split. Qed.

Lemma hide_resolves_cancel_witness :
  let p := prompt (samplePrompter []) in
  promptPromise p = Pending /\
  promptPromise (hide p) = Resolved Cancel /\
  isShowing (inputBox (hide p)) = false.
Proof.
  split; [reflexivity|].
  apply (proj2 (proj2 (@hide_resolves_cancel bool
                         (set_buttons [] newTestInputBox) false []))).
  reflexivity.
Defined.

Lemma back_button_resolves_back_witness :
  let p := prompt (samplePrompter [createBackButton]) in
  In createBackButton (buttons (inputBox p)) /\
  promptPromise p = Pending /\
  promptPromise (pressButton createBackButton p) = Resolved WIZARD_BACK.
Proof.
  split; [left; reflexivity|]. split; [reflexivity|].
  apply (@back_button_resolves_back bool
           (set_buttons [createBackButton] newTestInputBox) false []);
    [left; reflexivity | reflexivity].
Defined.

Lemma button_handler_outcome_witness :
  let p := prompt (samplePrompter [returnsValueButton; sideEffectButton]) in
  promptPromise p = Pending /\
  promptPromise (pressButton returnsValueButton p) = Resolved (Value "hello world") /\
  promptPromise (pressButton sideEffectButton p) = Pending /\
  isShowing (inputBox (pressButton sideEffectButton p)) = true.
Proof.
  pose proof (@button_handler_outcome bool
                (set_buttons [returnsValueButton; sideEffectButton] newTestInputBox)
                false [] returnsValueButton eq_refl) as Hvalue.
  pose proof (@button_handler_outcome bool
                (set_buttons [returnsValueButton; sideEffectButton] newTestInputBox)
                false [] sideEffectButton eq_refl) as Hside.
  cbv zeta in *.
  split; [reflexivity|]. split; [|split].
  - apply (proj1 Hvalue (Value "hello world") []). reflexivity.
  - apply (proj2 Hside). reflexivity.
  - apply (proj2 Hside); reflexivity.
Defined.

Lemma searchPattern_redisplay_witness :
  let sp :=
    newSearchPatternPrompter
      {| groupName := "my-group"; regionName := "us-east-1" |}
      {| SearchPattern.filterPattern := None; limit := None;
         startTime := None; endTime := None |}
      failedRetry (@newTestInputBox unit) noOptions tt in
  truthy "[ERROR" = true /\ truthy "Invalid filter pattern" = true /\
  value (inputBox (base sp)) = "[ERROR" /\
  validationMessage (inputBox (base sp)) = Some "Invalid filter pattern" /\
  validationMessage (inputBox (changeValue "[ERROR]" (prompt (base sp)))) = None.
Proof.
  pose proof (@searchPattern_redisplay unit
                {| groupName := "my-group"; regionName := "us-east-1" |}
                {| SearchPattern.filterPattern := None; limit := None;
                   startTime := None; endTime := None |}
                failedRetry newTestInputBox noOptions tt
                "[ERROR" "Invalid filter pattern" []
                eq_refl eq_refl eq_refl eq_refl) as H.
  cbv zeta in *. destruct H as (Hv & Hm & Hclear & _).
  split; [reflexivity|]. split; [reflexivity|].
  split; [exact Hv|]. split; [exact Hm|]. exact (Hclear "[ERROR]").
Defined.

Lemma promptUser_busy_witness :
  let s := {| box := set_value "ERROR" (@newTestInputBox unit);
              SearchPattern.retryState := RetryState.empty |} in
  let guard (f : PromptResult string -> bool) := fun x => Ok (f x) in
  let throwing := fun _ : PromptResult string => @Throw bool (TypeError "not a function") in
  fst (promptUser (guard isWizardControl) (guard isValidResponse) (Ok (Value "ERROR")) s)
    = (Ok (Value "ERROR"),
       {| box := set_value "ERROR" newTestInputBox;
          SearchPattern.retryState :=
            {| RetryState.searchPattern := Some "ERROR";
               RetryState.validationMessage := None |} |}) /\
  fst (fst (promptUser (guard isWizardControl) (guard isValidResponse) (Ok Back) s))
    = Ok Back /\
  fst (fst (promptUser (guard isWizardControl) throwing (Ok (Value "ERROR")) s))
    = Throw (TypeError "not a function") /\
  busyIn (snd (fst (promptUser (guard isWizardControl) throwing (Ok (Value "ERROR")) s)))
    = false.
Proof.
  cbv zeta.
  set (s := {| box := set_value "ERROR" (@newTestInputBox unit);
               SearchPattern.retryState := RetryState.empty |}).
  split; [reflexivity|]. split; [|split].
  - apply (proj1 (proj2 (proj2 (proj2 (proj2 (proj2
             (@promptUser_busy unit (fun x => Ok (isWizardControl x))
                (fun x => Ok (isValidResponse x)) Back s))))))).
    reflexivity.
  - apply (proj2 (proj2 (proj2 (proj2 (proj2 (proj2 (proj2 (proj2
             (@promptUser_busy unit (fun x => Ok (isWizardControl x))
                (fun _ => Throw (TypeError "not a function"))
                (Value "ERROR") s))))))))); reflexivity.
  - apply (proj1 (proj2 (proj2 (proj2
             (@promptUser_busy unit (fun x => Ok (isWizardControl x))
                (fun _ => Throw (TypeError "not a function"))
                (Value "ERROR") s))))).
Defined.

(** A run of the wizard that completes, and the command that follows. *)
Example tailLogGroup_completes :
  tailLogGroup sampleTruncate workingHost "Explorer" (Some sampleLogData)
    [types [EvAccept "ERROR"]]
  = Resolved (TailStarted
      {| logGroupIdentifiers := ["arn:aws:logs:us-east-1:1:log-group:my-group"];
         logEventFilterPattern := Some "ERROR" |}).
Proof. reflexivity. Qed.

(** Going back from the search pattern prompt shows the region submenu
    again; going back from there leaves the wizard. *)
Example wizard_back_navigation :
  fst (fst (TailLogGroupWizard_run sampleTruncate None
              [picks (Value {| region := "us-east-1"; data := "my-group" |});
               types [EvPressButton createBackButton];
               picks (Value {| region := "eu-west-1"; data := "other" |});
               types [EvAccept ""]]))
    = Resolved (Some {| submenuResponse := Some {| region := "eu-west-1"; data := "other" |};
                        TailLogGroup.filterPattern := Some "" |}) /\
  fst (fst (TailLogGroupWizard_run sampleTruncate None
              [picks (Value {| region := "us-east-1"; data := "my-group" |});
               types [EvPressButton createBackButton];
               picks Back]))
    = Resolved None.
Proof. split; reflexivity. Qed.

(** C4, as stated, fails: the user completes the wizard, so [run()] returns
    a response, and opening the document is then cancelled by the user;
    [tailLogGroup] raises [CancellationError('user')] all the same. *)
Lemma tailLogGroup_rethrows_user_cancellation :
  let script := [types [EvAccept "ERROR"]] in
  let ran :=
    TailLogGroupWizard_run sampleTruncate
      (option_map asGroupInfo (Some sampleLogData)) script in
  let raised :=
    tailLogGroup sampleTruncate cancellingHost "Explorer" (Some sampleLogData) script in
  fst (fst ran) = Resolved (Some sampleResponse) /\
  raised = Rejected (CancellationError "user") /\
  ~ (raised = Rejected (CancellationError "user") <-> fst (fst ran) = Resolved None).
Proof.
  cbv zeta. split; [reflexivity|]. split; [reflexivity|].
  intros [H _]. specialize (H eq_refl). discriminate H.
Qed.

Lemma tailLogGroup_cancellation_witness :
  let exits := [types [EvHide]] in
  let completes := [types [EvAccept "ERROR"]] in
  fst (fst (TailLogGroupWizard_run sampleTruncate
              (option_map asGroupInfo (Some sampleLogData)) exits)) = Resolved None /\
  tailLogGroup sampleTruncate workingHost "Explorer" (Some sampleLogData) exits
    = Rejected (CancellationError "user") /\
  fst (fst (TailLogGroupWizard_run sampleTruncate
              (option_map asGroupInfo (Some sampleLogData)) completes))
    = Resolved (Some sampleResponse) /\
  exists sr,
    submenuResponse sampleResponse = Some sr /\
    (tailLogGroup sampleTruncate workingHost "Explorer" (Some sampleLogData) completes
       = Rejected (CancellationError "user") <->
     prepareDocument workingHost
       (createURIFromArgs workingHost {| groupName := data sr; regionName := region sr |})
       = Throw (CancellationError "user")).
Proof.
  cbv zeta. split; [reflexivity|]. split; [|split; [reflexivity|]].
  - apply (proj1 (proj2 (tailLogGroup_cancellation sampleTruncate workingHost
                           "Explorer" (Some sampleLogData) [types [EvHide]]))).
    reflexivity.
  - apply (proj2 (proj2 (tailLogGroup_cancellation sampleTruncate workingHost
                           "Explorer" (Some sampleLogData) [types [EvAccept "ERROR"]]))
             sampleResponse).
    reflexivity.
Defined.


Example waitForPythonDebugAdapter_times_out :
  waitForPythonDebugAdapter 10 silentWorld 5678 1500
    = Some (Ok {| loopExit :=
                    {| debugServerAvailable := false; attempts := 2;
                       verbose := [TestingConnection 5678; NotReadyRetrying] |};
                  channelWarnings := [notAvailableWarning] |}).
Proof. reflexivity. Qed.

Example waitForPythonDebugAdapter_finds_server :
  waitForPythonDebugAdapter 10 lateWorld 5678 30000
    = Some (Ok {| loopExit :=
                    {| debugServerAvailable := true; attempts := 3;
                       verbose := [TestingConnection 5678; NotReadyRetrying;
                                   NotReadyRetrying; AdapterAvailable] |};
                  channelWarnings := [] |}).
Proof. reflexivity. Qed.



End ScenarioRuns.

(** ** More on the SAM debug configurations *)
Section SamDebugConfigurations.
Import JsString JsObject Js SamDebug SamDebugCode.

Variable getNormalizedRelativePath : string -> string -> string.
Variable RuntimeFamily : Type.
Variable familyTruthy : RuntimeFamily -> bool.
Variable getDefaultRuntime : RuntimeFamily -> option string.

Lemma strictEqStr_true (v : JsVal) (s : string) :
  strictEqStr v s = true <-> v = JStr s.
Proof.
  destruct v; simpl; try (split; discriminate).
  rewrite String.eqb_eq. split; [now intros -> | now intros [= ->]].
Qed.

(** X1. No object passes both target guards, whatever its properties: a value
    that the template guard accepts is rejected by the code guard and the
    other way round, and a value without a [target] property, or that is not
    an object, is rejected by both. *)
Theorem target_guards_exclusive (props : JsVal) :
  (isTemplateTargetProperties props = true -> isCodeTargetProperties props = false) /\
  (isCodeTargetProperties props = true -> isTemplateTargetProperties props = false) /\
  (hasProp props "target" = false ->
     isTemplateTargetProperties props = false /\ isCodeTargetProperties props = false) /\
  (isTemplateTargetProperties props = true <-> getProp props "target" = JStr "template") /\
  (isCodeTargetProperties props = true <-> getProp props "target" = JStr "code").
Proof.
  unfold isTemplateTargetProperties, isCodeTargetProperties.
  split; [|split; [|split; [|split]]].
  - intros H. apply strictEqStr_true in H. rewrite H. reflexivity.
  - intros H. apply strictEqStr_true in H. rewrite H. reflexivity.
  - unfold hasProp, getProp. destruct (lookup_prop "target" (props_of props));
      [discriminate | intros _; split; reflexivity].
  - apply strictEqStr_true.
  - apply strictEqStr_true.
Qed.

Lemma target_guards_exclusive_witness :
  let props := JObj [("target", JStr "template"); ("samTemplatePath", JStr "t.yaml")] in
  isTemplateTargetProperties props = true /\ isCodeTargetProperties props = false.
Proof.
  split; [reflexivity|].
  apply (proj1 (target_guards_exclusive
           (JObj [("target", JStr "template"); ("samTemplatePath", JStr "t.yaml")]))).
  reflexivity.
Defined.

Lemma truthy_length (s : string) : truthy s = true -> 0 < String.length s.
Proof. destruct s; simpl; [discriminate | lia]. Qed.

Lemma append_nil_r (s : string) : s ++ "" = s.
Proof. induction s as [|c s IH]; simpl; [reflexivity | now rewrite IH]. Qed.

(** X2. The name of a configuration entry: the primary name alone exactly when
    there is no extra information (absent or empty), and otherwise the
    primary name followed by the extra information in parentheses; the
    primary name is always a prefix. *)
Theorem makeName_shape (primaryName : string) (extraInfo : option string) :
  (truthy_opt extraInfo = false -> makeName primaryName extraInfo = primaryName) /\
  (forall info, extraInfo = Some info -> truthy info = true ->
     makeName primaryName extraInfo = primaryName ++ " (" ++ info ++ ")") /\
  (makeName primaryName extraInfo = primaryName <-> truthy_opt extraInfo = false) /\
  (exists rest, makeName primaryName extraInfo = primaryName ++ rest).
Proof.
  assert (Hlonger : forall info,
            primaryName ++ " (" ++ info ++ ")" <> primaryName).
  { intros info H. apply (f_equal String.length) in H.
    rewrite length_append in H. simpl in H. lia. }
  unfold makeName. destruct extraInfo as [info|]; simpl.
  - destruct (truthy info) eqn:Ht.
    + repeat split; try discriminate; try tauto.
      * now intros i [= <-] _.
      * intros H. now apply Hlonger in H.
      * eexists; reflexivity.
    + repeat split; try reflexivity.
      * intros i [= <-] H. congruence.
      * exists "". now rewrite append_nil_r.
  - repeat split; try reflexivity; try discriminate.
    exists "". now rewrite append_nil_r.
Qed.

Lemma makeName_shape_witness :
  makeName "HelloWorldFunction" (Some "python3.8") = "HelloWorldFunction (python3.8)" /\
  makeName "HelloWorldFunction" (Some "") = "HelloWorldFunction" /\
  makeName "HelloWorldFunction" None = "HelloWorldFunction".
Proof.
  split; [|split].
  - apply (proj1 (proj2 (makeName_shape "HelloWorldFunction" (Some "python3.8")))
             "python3.8" eq_refl eq_refl).
  - apply (proj1 (makeName_shape "HelloWorldFunction" (Some ""))). reflexivity.
  - apply (proj1 (makeName_shape "HelloWorldFunction" None)). reflexivity.
Defined.

(** X3. What a preloaded configuration contributes to the template
    configuration: [lambda] is [undefined] exactly when there are neither
    environment variables nor an event, [sam] is [undefined] exactly when
    the docker network is absent or empty and containers are not asked for
    (an explicit [useContainer: false] is dropped with it); what is present
    is copied; and the four basic properties are those of the configuration
    built without preloading. *)
Theorem createTemplateAwsSamDebugConfig_preloading
    (folder : option WorkspaceFolder) (runtimeName : option string)
    (resourceName templatePath : string) (pc : PreloadedConfig) :
  let config :=
    createTemplateAwsSamDebugConfig getNormalizedRelativePath
      folder runtimeName resourceName templatePath (Some pc) in
  let bare :=
    createTemplateAwsSamDebugConfig getNormalizedRelativePath
      folder runtimeName resourceName templatePath None in
  (getProp config "lambda" = JUndefined <->
     environmentVariables pc = None /\ eventJson pc = None) /\
  (getProp config "sam" = JUndefined <->
     truthy_opt (dockerNetwork pc) = false /\ useContainer pc <> Some true) /\
  (forall ev, eventJson pc = Some ev ->
     getProp (getProp (getProp config "lambda") "event") "json" = json_val ev) /\
  (forall env, environmentVariables pc = Some env ->
     getProp (getProp config "lambda") "environmentVariables" = json_val env) /\
  (getProp config "sam" <> JUndefined ->
     getProp (getProp config "sam") "dockerNetwork" = opt_val JStr (dockerNetwork pc) /\
     getProp (getProp config "sam") "containerBuild" = opt_val JBool (useContainer pc)) /\
  (forall key, In key ["type"; "request"; "name"; "invokeTarget"] ->
     getProp config key = getProp bare key).
Proof.
  cbv zeta. unfold createTemplateAwsSamDebugConfig.
  destruct pc as [ev env net cont]; simpl.
  split; [|split; [|split; [|split; [|split]]]].
  - destruct env, ev; simpl; split; try discriminate; try tauto;
      intros [H1 H2]; discriminate.
  - destruct (truthy_opt net) eqn:Hn; simpl.
    + split; [discriminate | intros [H _]; discriminate].
    + destruct cont as [[|]|]; simpl.
      * split; [discriminate | intros [_ H]; now contradiction H].
      * split; [intros _; split; [reflexivity | discriminate] | reflexivity].
      * split; [intros _; split; [reflexivity | discriminate] | reflexivity].
  - intros e ->. destruct env; reflexivity.
  - intros e ->. destruct ev; reflexivity.
  - destruct (truthy_opt net); simpl; [intros _; split; reflexivity|].
    destruct cont as [[|]|]; simpl.
    + intros _; split; reflexivity.
    + intros H; now contradiction H.
    + intros H; now contradiction H.
  - intros key [<-|[<-|[<-|[<-|[]]]]]; reflexivity.
Qed.

(** X4. The code-target builder throws, with the one message it has, exactly
    when no usable default runtime exists (no family, a falsy family, or an
    absent or empty default runtime); otherwise it returns a configuration of
    type ['aws-sam'] whose target passes the code guard and not the template
    guard, whose [lambda.runtime] is the default runtime and whose name
    carries that runtime in parentheses. *)
Theorem createCodeAwsSamDebugConfig_outcome
    (folder : option WorkspaceFolder) (lambdaHandler projectRoot : string)
    (runtimeFamily : option RuntimeFamily) :
  let built :=
    createCodeAwsSamDebugConfig getNormalizedRelativePath RuntimeFamily
      familyTruthy getDefaultRuntime folder lambdaHandler projectRoot runtimeFamily in
  let runtime := runtimeOf RuntimeFamily familyTruthy getDefaultRuntime runtimeFamily in
  (truthy_opt runtime = false ->
     built = Throw (PlainError "Invalid or missing runtime family")) /\
  (forall r, runtime = Some r -> truthy r = true ->
     exists config,
       built = Ok config /\
       isAwsSamDebugConfiguration config = true /\
       getProp config "request" = JStr "direct-invoke" /\
       isCodeTargetProperties (getProp config "invokeTarget") = true /\
       isTemplateTargetProperties (getProp config "invokeTarget") = false /\
       getProp (getProp config "lambda") "runtime" = JStr r /\
       getProp config "name" = JStr (lambdaHandler ++ " (" ++ r ++ ")") /\
       getProp (getProp config "invokeTarget") "lambdaHandler" = JStr lambdaHandler /\
       hasProp config "sam" = false).
Proof.
  cbv zeta. unfold createCodeAwsSamDebugConfig. split.
  - intros ->. reflexivity.
  - intros r Hr Ht. rewrite Hr. simpl. rewrite Ht. simpl.
    eexists; split; [reflexivity|]. repeat split.
Qed.

End SamDebugConfigurations.

Section SamDebugConfigurationRuns.
Import JsString JsObject Js SamDebug SamDebugCode.

Lemma createTemplateAwsSamDebugConfig_preloading_witness :
  let pc := {| eventJson := Some [("key", PStr "value")];
               environmentVariables := None;
               dockerNetwork := Some "";
               useContainer := Some false |} in
  let config :=
    createTemplateAwsSamDebugConfig (fun _ p => p) None (Some "python3.8")
      "Fn" "template.yaml" (Some pc) in
  getProp config "sam" = JUndefined /\
  getProp (getProp (getProp config "lambda") "event") "json"
    = JObj [("key", JStr "value")].
Proof.
  cbv zeta.
  pose proof (createTemplateAwsSamDebugConfig_preloading (fun _ p => p) None
                (Some "python3.8") "Fn" "template.yaml"
                {| eventJson := Some [("key", PStr "value")];
                   environmentVariables := None;
                   dockerNetwork := Some "";
                   useContainer := Some false |}) as H.
  cbv zeta in H. destruct H as (_ & Hsam & Hev & _).
  split.
  - apply (proj2 Hsam). split; [reflexivity | discriminate].
  - apply (Hev [("key", PStr "value")]). reflexivity.
Defined.

Lemma createCodeAwsSamDebugConfig_outcome_witness :
  let families (f : nat) := match f with 1 => Some "python3.8" | _ => None end in
  let truthyFamily (f : nat) := negb (Nat.eqb f 0) in
  createCodeAwsSamDebugConfig (fun _ p => p) nat truthyFamily families
    None "app.handler" "src" (Some 0)
    = Throw (PlainError "Invalid or missing runtime family") /\
  exists config,
    createCodeAwsSamDebugConfig (fun _ p => p) nat truthyFamily families
      None "app.handler" "src" (Some 1) = Ok config /\
    getProp config "name" = JStr "app.handler (python3.8)".
Proof.
  cbv zeta. split.
  - apply (proj1 (createCodeAwsSamDebugConfig_outcome (fun _ p => p) nat
                    (fun f => negb (Nat.eqb f 0))
                    (fun f => match f with 1 => Some "python3.8" | _ => None end)
                    None "app.handler" "src" (Some 0))).
    reflexivity.
  - destruct (proj2 (createCodeAwsSamDebugConfig_outcome (fun _ p => p) nat
                       (fun f => negb (Nat.eqb f 0))
                       (fun f => match f with 1 => Some "python3.8" | _ => None end)
                       None "app.handler" "src" (Some 1))
                "python3.8" eq_refl eq_refl)
      as (config & Hb & _ & _ & _ & _ & _ & Hname & _).
    exists config. split; [exact Hb | exact Hname].
Defined.

End SamDebugConfigurationRuns.

(** ** More on the tail-log-group command *)
Section TailLogGroupCommand.
Import JsString Js Prompter SearchPattern Wizard TailLogGroup.

(** X5. [prepareDocument] returns the opened document exactly when it could be
    opened and shown and the call that sets its language to ["json"] did
    not throw; whatever else happens, the caller sees either the user's
    cancellation itself or a [ToolkitError] that names the document and
    wraps the error of the first step that failed, never that error bare. *)
Theorem prepareDocument_outcome (host : Host) (uri : string) :
  (forall doc,
     prepareDocument host uri = Ok doc <->
     openTextDocument host uri = Ok doc /\ showTextDocument host doc = Ok tt /\
     setTextDocumentLanguage host doc "json" = Ok tt) /\
  (forall err,
     prepareDocument host uri = Throw err ->
     exists cause,
       (openTextDocument host uri = Throw cause \/
        exists doc,
          openTextDocument host uri = Ok doc /\
          (showTextDocument host doc = Throw cause \/
           (showTextDocument host doc = Ok tt /\
            setTextDocumentLanguage host doc "json" = Throw cause))) /\
       (cause = CancellationError "user" -> err = cause) /\
       (cause <> CancellationError "user" ->
        err = ToolkitError ("Failed to get logs for " ++ uri) cause)).
Proof.
  destruct (prepareDocument_steps host uri)
    as [(d & Ho & Hs & Hl & Hp) | (cause & Hwhy & Hp)]; rewrite Hp; split.
  - intros doc. split.
    + intros [= <-]. auto.
    + intros (Ho' & _). congruence.
  - intros err; discriminate.
  - intros doc. unfold prepareDocument_catch.
    destruct (isUserCancelled cause); (split; [discriminate|]).
    all: intros (Ho' & Hs' & Hl'); exfalso;
      destruct Hwhy as [Ho | (d & Ho & [Hs | [Hs Hl]])]; congruence.
  - intros err. unfold prepareDocument_catch.
    destruct (isUserCancelled cause) eqn:Hu; intros [= <-]; exists cause;
      (split; [exact Hwhy|]); split.
    + reflexivity.
    + intros Hne. apply isUserCancelled_iff in Hu. contradiction.
    + intros ->. discriminate.
    + reflexivity.
Qed.

(** X6. Called without [logData], [tailLogGroup] never starts tailing: after a
    completed wizard and a prepared document it fails on the missing group
    ARN, before any command is sent. *)
Theorem tailLogGroup_without_logData (host : Host)
    (response : option TailLogGroupWizardResponse) :
  (exists err, tailLogGroup_after host None response = Throw err) /\
  (forall r sr doc,
     response = Some r -> submenuResponse r = Some sr ->
     prepareDocument host
       (createURIFromArgs host {| groupName := data sr; regionName := region sr |})
       = Ok doc ->
     tailLogGroup_after host None response
       = Throw (TypeError "Cannot read properties of undefined (reading 'endsWith')")).
Proof.
  split.
  - unfold tailLogGroup_after. destruct response as [r|]; [|eauto].
    destruct (submenuResponse r) as [sr|]; [|eauto].
    destruct (prepareDocument host _); eauto.
  - intros r sr doc -> Hs Hd. unfold tailLogGroup_after. now rewrite Hs, Hd.
Qed.

(** X7. With [logData], a completed response and a prepared document,
    [tailLogGroup] resolves whatever the client does: the command names the
    group by its ARN without the trailing [":*"] and carries the response's
    filter pattern, and a failure of [send] is logged, not raised. *)
Theorem tailLogGroup_send_failure_is_swallowed (host : Host) (d : LogData)
    (r : TailLogGroupWizardResponse) (sr : RegionSubmenuResponse)
    (doc : TextDocument) :
  submenuResponse r = Some sr ->
  prepareDocument host
    (createURIFromArgs host {| groupName := data sr; regionName := region sr |})
    = Ok doc ->
  let command :=
    {| logGroupIdentifiers := [Arn.formatGroupArn (groupArn d)];
       logEventFilterPattern := filterPattern r |} in
  (send host command = Ok tt ->
     tailLogGroup_after host (Some d) (Some r) = Ok (TailStarted command)) /\
  (forall err, send host command = Throw err ->
     tailLogGroup_after host (Some d) (Some r) = Ok (SendFailedLogged command err)) /\
  (forall err, tailLogGroup_after host (Some d) (Some r) <> Throw err) /\
  (forall base, groupArn d = base ++ ":*" -> logGroupIdentifiers command = [base]).
Proof.
  intros Hs Hd. cbv zeta. unfold tailLogGroup_after. rewrite Hs, Hd.
  repeat split.
  - intros ->. reflexivity.
  - intros err ->. reflexivity.
  - intros err. destruct (send host _); discriminate.
  - intros base ->. simpl. now rewrite formatGroupArn_strip.
Qed.

Variable truncate : string -> Z -> string.

(** X8. The search pattern prompter the wizard creates: it is for the log group
    of the state's submenu response; its buttons are help and exit, followed
    by back exactly when the wizard was given no log group (so that the
    prompter is not the first step); the constructor leaves buttons and
    title as they were set, and the box is neither shown nor busy yet. *)
Theorem createSearchPatternPrompter_buttons
    (logGroupInfo : option CloudWatchLogsGroupInfo)
    (state : TailLogGroupWizardResponse) (retryState : RetryState.t)
    (sr : RegionSubmenuResponse) :
  submenuResponse state = Some sr ->
  exists sp,
    filterPatternFactory truncate logGroupInfo state retryState
      = Bind (PatternPrompter sp) /\
    logGroup sp = {| groupName := data sr; regionName := region sr |} /\
    buttons (inputBox (base sp))
      = ([createHelpButton helpUri; createExitButton]
         ++ match logGroupInfo with
            | Some _ => []
            | None => [createBackButton]
            end)%list /\
    title (inputBox (base sp))
      = Some ("Search Log Group " ++ truncate (data sr) (-50)) /\
    isShowing (inputBox (base sp)) = false /\
    busy (inputBox (base sp)) = false /\
    subscribed (base sp) = false.
Proof.
  intros Hs. unfold filterPatternFactory. rewrite Hs.
  eexists; split; [reflexivity|].
  unfold createSearchPatternPrompter, newSearchPatternPrompter.
  destruct (truthy_opt (RetryState.validationMessage retryState));
    destruct (RetryState.searchPattern retryState) as [pat|];
    try destruct (truthy pat); destruct logGroupInfo as [info|]; simpl;
    repeat split.
Qed.

End TailLogGroupCommand.

Section TailLogGroupCommandRuns.
Import JsString Js Prompter SearchPattern Wizard TailLogGroup Scenario.

Lemma prepareDocument_outcome_witness :
  openTextDocument workingHost "aws-cwl:us-east-1:my-group"
    = Ok {| docUri := "aws-cwl:us-east-1:my-group" |} /\
  prepareDocument workingHost "aws-cwl:us-east-1:my-group"
    = Ok {| docUri := "aws-cwl:us-east-1:my-group" |}.
Proof.
  split; [reflexivity|].
  apply (proj1 (prepareDocument_outcome workingHost "aws-cwl:us-east-1:my-group")).
  repeat split.
Defined.

Lemma tailLogGroup_without_logData_witness :
  tailLogGroup_after workingHost None (Some sampleResponse)
    = Throw (TypeError "Cannot read properties of undefined (reading 'endsWith')").
Proof.
  apply (proj2 (tailLogGroup_without_logData workingHost (Some sampleResponse))
           sampleResponse {| region := "us-east-1"; data := "my-group" |}
           {| docUri := "aws-cwl:us-east-1:my-group" |});
    reflexivity.
Defined.

Lemma tailLogGroup_send_failure_is_swallowed_witness :
  let failing :=
    {| createURIFromArgs := sampleUri;
       openTextDocument := fun uri => Ok {| docUri := uri |};
       showTextDocument := fun _ => Ok tt;
       setTextDocumentLanguage := fun _ _ => Ok tt;
       send := fun _ => Throw (PlainError "AccessDeniedException") |} in
  tailLogGroup_after failing (Some sampleLogData) (Some sampleResponse)
    = Ok (SendFailedLogged
            {| logGroupIdentifiers := ["arn:aws:logs:us-east-1:1:log-group:my-group"];
               logEventFilterPattern := Some "ERROR" |}
            (PlainError "AccessDeniedException")).
Proof.
  cbv zeta.
  apply (proj1 (proj2 (tailLogGroup_send_failure_is_swallowed
           {| createURIFromArgs := sampleUri;
              openTextDocument := fun uri => Ok {| docUri := uri |};
              showTextDocument := fun _ => Ok tt;
              setTextDocumentLanguage := fun _ _ => Ok tt;
              send := fun _ => Throw (PlainError "AccessDeniedException") |}
           sampleLogData sampleResponse
           {| region := "us-east-1"; data := "my-group" |}
           {| docUri := "aws-cwl:us-east-1:my-group" |} eq_refl eq_refl))
           (PlainError "AccessDeniedException")).
  reflexivity.
Defined.

Lemma createSearchPatternPrompter_buttons_witness :
  exists sp,
    filterPatternFactory sampleTruncate None sampleResponse RetryState.empty
      = Bind (PatternPrompter sp) /\
    buttons (inputBox (base sp))
      = [createHelpButton helpUri; createExitButton; createBackButton].
Proof.
  destruct (createSearchPatternPrompter_buttons sampleTruncate None sampleResponse
              RetryState.empty {| region := "us-east-1"; data := "my-group" |} eq_refl)
    as (sp & Hf & _ & Hbuttons & _).
  exists sp. split; [exact Hf | exact Hbuttons].
Defined.

End TailLogGroupCommandRuns.

(** ** More on the search pattern prompter *)
Section SearchPatternRetryState.
Import JsString Js Prompter SearchPattern.
Context {W : Type}.

Variable isWizardControl : PromptResult string -> Result bool.
Variable isValidResponse : PromptResult string -> Result bool.

(** X9. What [promptUser] does to the shared [retryState]: a control signal is
    passed on and leaves it alone; so does an exception of either guard; a
    response that is not valid erases the remembered pattern; a valid value
    is remembered.  Nothing but the busy flag of the box is ever changed,
    and the validation message kept in [retryState] is never written. *)
Theorem promptUser_retryState (rv : PromptResult string) (s : Store W) :
  let done := fst (promptUser isWizardControl isValidResponse (Ok rv) s) in
  box (snd done) = set_busy false (box s) /\
  RetryState.validationMessage (retryState (snd done))
    = RetryState.validationMessage (retryState s) /\
  (isWizardControl rv = Ok true ->
     fst done = Ok rv /\ retryState (snd done) = retryState s) /\
  (forall e, isWizardControl rv = Throw e -> retryState (snd done) = retryState s) /\
  (forall e, isWizardControl rv = Ok false -> isValidResponse rv = Throw e ->
     retryState (snd done) = retryState s) /\
  (isWizardControl rv = Ok false -> isValidResponse rv = Ok false ->
     RetryState.searchPattern (retryState (snd done)) = None) /\
  (forall v, rv = Value v ->
     isWizardControl rv = Ok false -> isValidResponse rv = Ok true ->
     RetryState.searchPattern (retryState (snd done)) = Some v).
Proof.
  cbv zeta.
  unfold promptUser, promptUser_after, validationPhase, tryFinally, bind, call,
    update, ret.
  destruct (isWizardControl rv) as [[|]|e]; simpl.
  - repeat split; intros; congruence.
  - destruct (isValidResponse rv) as [[|]|e']; simpl;
      repeat split; intros; subst; try congruence; reflexivity.
  - repeat split; intros; congruence.
Qed.

(** X10. A pattern accepted in one prompt is what the next prompter shows: after
    [promptUser] has returned for a non-empty valid value, a prompter
    constructed on the same [retryState] starts with that value in its
    box, whatever box it is given. *)
Theorem accepted_pattern_is_restored
    (v : string) (s : Store W)
    (lg : CloudWatchLogsGroupInfo) (lp : CloudWatchLogsParameters)
    (box0 : TestInputBox W) (opts : ExtendedInputBoxOptions W) (w : W) :
  isWizardControl (Value v) = Ok false ->
  isValidResponse (Value v) = Ok true ->
  truthy v = true ->
  let done := fst (promptUser isWizardControl isValidResponse (Ok (Value v)) s) in
  let next := newSearchPatternPrompter lg lp (retryState (snd done)) box0 opts w in
  value (inputBox (base next)) = v /\
  validationMessage (inputBox (base next))
    = (if truthy_opt (RetryState.validationMessage (retryState s))
       then RetryState.validationMessage (retryState s) else None).
Proof.
  intros Hc Hv Ht. cbv zeta.
  unfold promptUser, promptUser_after, validationPhase, tryFinally, bind, call,
    update, ret.
  rewrite Hc. simpl. rewrite Hv. simpl.
  unfold newSearchPatternPrompter. simpl. rewrite Ht.
  destruct (truthy_opt (RetryState.validationMessage (retryState s))); split; reflexivity.
Qed.

End SearchPatternRetryState.

Section SearchPatternRetryStateRuns.
Import JsString Js Prompter SearchPattern Wizard Scenario.

Lemma promptUser_retryState_witness :
  let s := {| box := set_value "ERROR" (@newTestInputBox unit);
              SearchPattern.retryState := failedRetry |} in
  let guard (f : PromptResult string -> bool) := fun x => Ok (f x) in
  SearchPattern.retryState
    (snd (fst (promptUser (guard isWizardControl) (guard isValidResponse) (Ok Back) s)))
    = failedRetry /\
  RetryState.searchPattern
    (SearchPattern.retryState
       (snd (fst (promptUser (guard isWizardControl) (guard isValidResponse)
                    (Ok (Value "ERROR")) s))))
    = Some "ERROR".
Proof.
  cbv zeta.
  set (s := {| box := set_value "ERROR" (@newTestInputBox unit);
               SearchPattern.retryState := failedRetry |}).
  split.
  - apply (proj1 (proj2 (proj2
             (@promptUser_retryState unit (fun x => Ok (isWizardControl x))
                (fun x => Ok (isValidResponse x)) Back s)))).
    reflexivity.
  - apply (proj2 (proj2 (proj2 (proj2 (proj2 (proj2
             (@promptUser_retryState unit (fun x => Ok (isWizardControl x))
                (fun x => Ok (isValidResponse x)) (Value "ERROR") s))))))
             "ERROR"); reflexivity.
Defined.

Lemma accepted_pattern_is_restored_witness :
  let s := {| box := set_value "ERROR" (@newTestInputBox unit);
              SearchPattern.retryState := RetryState.empty |} in
  let guard (f : PromptResult string -> bool) := fun x => Ok (f x) in
  let done :=
    fst (promptUser (guard isWizardControl) (guard isValidResponse)
           (Ok (Value "ERROR")) s) in
  truthy "ERROR" = true /\
  value (inputBox (base
    (newSearchPatternPrompter
       {| groupName := "my-group"; regionName := "us-east-1" |}
       {| SearchPattern.filterPattern := None; limit := None;
          startTime := None; endTime := None |}
       (SearchPattern.retryState (snd done)) newTestInputBox noOptions tt)))
    = "ERROR".
Proof.
  cbv zeta. split; [reflexivity|].
  apply (proj1 (@accepted_pattern_is_restored unit
                  (fun x => Ok (isWizardControl x)) (fun x => Ok (isValidResponse x))
                  "ERROR"
                  {| box := set_value "ERROR" (@newTestInputBox unit);
                     SearchPattern.retryState := RetryState.empty |}
                  {| groupName := "my-group"; regionName := "us-east-1" |}
                  {| SearchPattern.filterPattern := None; limit := None;
                     startTime := None; endTime := None |}
                  newTestInputBox noOptions tt eq_refl eq_refl eq_refl)).
Defined.

End SearchPatternRetryStateRuns.

(** ** More on waiting for the debug adapter *)
Section DebugAdapterWait.
Import Js PythonDebug PythonDebugLog.
Local Open Scope Z_scope.

Variable w : World.

Lemma test_lines_no_retry (h : Heartbeat) : retries (snd (test h)) = 0%nat.
Proof.
  unfold test. destruct (connect h) as [[|]|e]; try reflexivity.
  destruct (isDebugServerUp h) as [[|]|e]; reflexivity.
Qed.

Lemma retries_app (a b : list LogLine) : retries (a ++ b) = (retries a + retries b)%nat.
Proof. unfold retries. now rewrite filter_app, length_app. Qed.

(** The [catch] logs exactly what the two awaited calls threw. *)
Lemma test_errors (h : Heartbeat) (e : JsError) :
  In (ErrorWhileTesting e) (snd (test h)) <-> threwWhileTesting h e.
Proof.
  unfold test, threwWhileTesting.
  destruct (connect h) as [[|]|e1]; simpl.
  - destruct (isDebugServerUp h) as [[|]|e2]; simpl.
    + split; [intros [H|[]]; discriminate | intros [H|[_ H]]; discriminate].
    + split; [intros [] | intros [H|[_ H]]; discriminate].
    + split.
      * intros [[= ->]|[]]. right. auto.
      * intros [H|[_ [= ->]]]; [discriminate | now left].
  - split; [intros [] | intros [H|[H _]]; discriminate].
  - split.
    + intros [[= ->]|[]]. now left.
    + intros [[= ->]|[H _]]; [now left | discriminate].
Qed.

(** A tester with a call that threw has not found the debug server. *)
Lemma threw_not_foundUp (h : Heartbeat) (e : JsError) :
  threwWhileTesting h e -> ~ foundUp h.
Proof.
  intros [Hc | [_ Hu]] [Hc' Hu']; congruence.
Qed.

Lemma retryLoop_errors (stopMillis : Z) (e : JsError) :
  forall (fuel i : nat) (log : list LogLine) (x : LoopExit),
    retryLoop fuel w stopMillis i log = Exited x ->
    (i < attempts x)%nat /\
    (In (ErrorWhileTesting e) (verbose x) <->
     In (ErrorWhileTesting e) log \/
     exists j, (i <= j < attempts x)%nat /\ threwWhileTesting (heartbeat w j) e).
Proof.
  induction fuel as [|fuel IH]; intros i log x; simpl; [discriminate|].
  pose proof (test_errors (heartbeat w i) e) as Herr.
  destruct (test (heartbeat w i)) as [available lines]. simpl in Herr.
  destruct (disconnect (heartbeat w i)) as [u|e']; [|discriminate].
  assert (Hhere : forall x',
            attempts x' = S i -> verbose x' = (log ++ lines)%list ->
            (i < attempts x')%nat /\
            (In (ErrorWhileTesting e) (verbose x') <->
             In (ErrorWhileTesting e) log \/
             exists j, (i <= j < attempts x')%nat /\
                       threwWhileTesting (heartbeat w j) e)).
  { intros x' Ha Hv. rewrite Ha, Hv. split; [lia|].
    rewrite in_app_iff, Herr. split; intros [H|H]; auto.
    - right. exists i. split; [lia | exact H].
    - destruct H as (j & Hj & Hth). assert (j = i) by lia. subst j. now right. }
  destruct available; [intros [= <-]; now apply Hhere|].
  destruct (dateNow w (S i) >? stopMillis); [intros [= <-]; now apply Hhere|].
  intros H. apply IH in H as [Hatt Hlog]. split; [lia|].
  rewrite Hlog, !in_app_iff, Herr. split.
  - intros [[H|[H|[H|[]]]]|(j & Hj & Hth)]; auto.
    + right. exists i. split; [lia | exact H].
    + discriminate.
    + right. exists j. split; [lia | exact Hth].
  - intros [H|(j & Hj & Hth)]; auto.
    destruct (Nat.eq_dec j i) as [->|Hne]; auto.
    right. exists j. split; [lia | exact Hth].
Qed.

(** X11. The function rejects only with the error of the first [disconnect()]
    that rejected, every tester before it having been retried, and a
    rejected [disconnect()] rejects it even for a tester that has just found
    the debug server.  What [connect()] and [isDebugServerUp()] throw is
    caught: whenever the function returns, the errors in its log are
    exactly those thrown by these calls of its testers, and a last tester
    with a call that threw counts as "not ready", so that the function
    returned on the deadline with the channel warning. *)
Theorem waitForPythonDebugAdapter_rejections
    (fuel : nat) (debugPort timeoutDurationMillis : Z) :
  let stopMillis := dateNow w 0 + timeoutDurationMillis in
  let ran := waitForPythonDebugAdapter fuel w debugPort timeoutDurationMillis in
  (forall e, ran = Some (Throw e) ->
     exists j, (j < fuel)%nat /\ disconnect (heartbeat w j) = Throw e /\
               forall k, (k < j)%nat -> retried w stopMillis k) /\
  ((forall j, disconnect (heartbeat w j) = Ok tt) ->
   forall e, ran <> Some (Throw e)) /\
  (forall e, disconnect (heartbeat w 0) = Throw e ->
     waitForPythonDebugAdapter (S fuel) w debugPort timeoutDurationMillis
       = Some (Throw e)) /\
  (forall out, ran = Some (Ok out) ->
     let n := attempts (loopExit out) in
     (forall e, In (ErrorWhileTesting e) (verbose (loopExit out)) <->
                exists j, (j < n)%nat /\ threwWhileTesting (heartbeat w j) e) /\
     (forall e, threwWhileTesting (heartbeat w (pred n)) e ->
        debugServerAvailable (loopExit out) = false /\
        channelWarnings out = [notAvailableWarning] /\
        stopMillis < dateNow w n)).
Proof.
  intros stopMillis ran.
  assert (Hfirst : forall e, ran = Some (Throw e) ->
            exists j, (j < fuel)%nat /\ disconnect (heartbeat w j) = Throw e /\
                      forall k, (k < j)%nat -> retried w stopMillis k).
  { intros e. unfold ran, waitForPythonDebugAdapter. fold stopMillis.
    pose proof (retryLoop_run w stopMillis fuel 0 [TestingConnection debugPort]) as Hrun.
    destruct (retryLoop fuel w stopMillis 0 _) as [|x|err]; try discriminate.
    intros [= ->]. destruct Hrun as (j & Hj & He & Hret).
    exists j. split; [lia|]. split; [exact He|]. intros k Hk. apply Hret. lia. }
  split; [exact Hfirst|]. split; [|split].
  - intros Hok e Hrun. apply Hfirst in Hrun as (j & _ & He & _).
    rewrite Hok in He. discriminate.
  - intros e Hd. unfold waitForPythonDebugAdapter. simpl.
    destruct (test (heartbeat w 0)) as [available lines]. rewrite Hd. reflexivity.
  - intros out. unfold ran, waitForPythonDebugAdapter. fold stopMillis.
    pose proof (retryLoop_run w stopMillis fuel 0 [TestingConnection debugPort]) as Hrun.
    destruct (retryLoop fuel w stopMillis 0 _) as [|x|err] eqn:Hl; try discriminate.
    intros [= <-]. simpl. split.
    + intros e. destruct (retryLoop_errors stopMillis e _ _ _ _ Hl) as [_ Hlog].
      rewrite Hlog. split.
      * intros [[H|[]]|(j & Hj & Hth)]; [discriminate|].
        exists j. split; [lia | exact Hth].
      * intros (j & Hj & Hth). right. exists j. split; [lia | exact Hth].
    + intros e Hth. apply threw_not_foundUp in Hth.
      destruct Hrun as (_ & _ & _ & [[_ Hup] | (Ha & _ & Hnow)]); [contradiction|].
      rewrite Ha. auto.
Qed.

(** X12. With a negative timeout the adapter is still tested, exactly once,
    and the function ends after the first tester without retrying: it
    rejects if that tester's [disconnect()] rejects, and otherwise returns,
    with the channel warning unless both calls of that tester resolved to
    [true]. *)
Theorem waitForPythonDebugAdapter_negative_timeout
    (fuel : nat) (debugPort timeoutDurationMillis : Z) :
  timeoutDurationMillis < 0 ->
  dateNow w 0 <= dateNow w 1 ->
  match disconnect (heartbeat w 0) with
  | Throw e =>
      waitForPythonDebugAdapter (S fuel) w debugPort timeoutDurationMillis
        = Some (Throw e)
  | Ok _ =>
      exists out,
        waitForPythonDebugAdapter (S fuel) w debugPort timeoutDurationMillis
          = Some (Ok out) /\
        attempts (loopExit out) = 1%nat /\
        retries (verbose (loopExit out)) = 0%nat /\
        (debugServerAvailable (loopExit out) = true <-> foundUp (heartbeat w 0)) /\
        (channelWarnings out = [] <-> foundUp (heartbeat w 0)) /\
        (channelWarnings out = [notAvailableWarning] <-> ~ foundUp (heartbeat w 0))
  end.
Proof.
  intros Hneg Hclock. unfold waitForPythonDebugAdapter. simpl.
  pose proof (test_lines_no_retry (heartbeat w 0)) as Hlines.
  pose proof (test_foundUp (heartbeat w 0)) as Hup.
  destruct (test (heartbeat w 0)) as [available lines]. simpl in Hlines, Hup.
  destruct (disconnect (heartbeat w 0)) as [u|e]; [|reflexivity].
  assert (Hret : retries ([TestingConnection debugPort] ++ lines) = 0%nat)
    by (rewrite retries_app; exact Hlines).
  destruct available.
  - eexists; split; [reflexivity|]. simpl.
    split; [reflexivity|]. split; [exact Hret|].
    assert (Hf : foundUp (heartbeat w 0)) by now apply Hup.
    split; [split; auto|]. split; [split; auto|].
    split; [discriminate | intros Hn; contradiction].
  - assert (Hgt : (dateNow w 1 >? dateNow w 0 + timeoutDurationMillis) = true)
      by (apply Z.gtb_lt; lia).
    rewrite Hgt. eexists; split; [reflexivity|]. simpl.
    split; [reflexivity|]. split; [exact Hret|].
    assert (Hf : ~ foundUp (heartbeat w 0))
      by (intros Hf; apply Hup in Hf; discriminate).
    split; [split; [discriminate | intros H; contradiction]|].
    split; [split; [discriminate | intros H; contradiction]|].
    split; auto.
Qed.

Lemma retryLoop_retries (stopMillis : Z) :
  forall (fuel i : nat) (log : list LogLine) (x : LoopExit),
    retryLoop fuel w stopMillis i log = Exited x ->
    (i < attempts x <= i + fuel)%nat /\
    (retries (verbose x) + S i = retries log + attempts x)%nat.
Proof.
  induction fuel as [|fuel IH]; intros i log x; simpl; [discriminate|].
  pose proof (test_lines_no_retry (heartbeat w i)) as Hlines.
  destruct (test (heartbeat w i)) as [available lines]. simpl in Hlines.
  destruct (disconnect (heartbeat w i)) as [u|e]; [|discriminate].
  destruct available.
  - intros [= <-]. simpl. rewrite retries_app. lia.
  - destruct (dateNow w (S i) >? stopMillis).
    + intros [= <-]. simpl. rewrite retries_app. lia.
    + intros H. apply IH in H as [Hatt Hret].
      rewrite !retries_app, Hlines in Hret.
      change (retries [NotReadyRetrying]) with 1%nat in Hret.
      split; lia.
Qed.

(** X13. When the function returns, it has made at least one attempt and no
    more than the fuel allows; it has logged "not ready, retrying" once for
    every attempt but the last, each time for a tester that had not found
    the debug server, before the deadline; and the channel warning is there
    exactly when no tester found the debug server, and absent exactly when
    the last one did. *)
Theorem waitForPythonDebugAdapter_retry_log
    (fuel : nat) (debugPort timeoutDurationMillis : Z) (out : Outcome) :
  waitForPythonDebugAdapter fuel w debugPort timeoutDurationMillis = Some (Ok out) ->
  let stopMillis := dateNow w 0 + timeoutDurationMillis in
  let n := attempts (loopExit out) in
  (1 <= n <= fuel)%nat /\
  retries (verbose (loopExit out)) = (n - 1)%nat /\
  (forall k, (k < n - 1)%nat -> retried w stopMillis k) /\
  (channelWarnings out = [notAvailableWarning] <->
     forall k, (k < n)%nat -> ~ foundUp (heartbeat w k)) /\
  (channelWarnings out = [] <-> foundUp (heartbeat w (n - 1))) /\
  (channelWarnings out = [] \/ channelWarnings out = [notAvailableWarning]).
Proof.
  intros Hran stopMillis n. unfold waitForPythonDebugAdapter in Hran.
  fold stopMillis in Hran.
  pose proof (retryLoop_run w stopMillis fuel 0 [TestingConnection debugPort]) as Hrun.
  destruct (retryLoop fuel w stopMillis 0 _) as [|x|err] eqn:Hl; try discriminate.
  injection Hran as <-. subst n. simpl.
  apply retryLoop_retries in Hl as [Hatt Hret].
  unfold retries at 2 in Hret. simpl in Hret.
  destruct Hrun as (_ & Hretried & _ & Hwhy).
  replace (pred (attempts x)) with (attempts x - 1)%nat in * by lia.
  split; [lia|]. split; [lia|]. split; [intros k Hk; apply Hretried; lia|].
  destruct Hwhy as [[Ha Hup] | (Ha & Hdown & Hnow)]; rewrite Ha; simpl.
  - split; [|split; [|now left]].
    + split; [discriminate|]. intros Hall. exfalso.
      apply (Hall (attempts x - 1)%nat); [lia | exact Hup].
    + split; auto.
  - split; [|split; [|now right]].
    + split; [|reflexivity]. intros _ k Hk.
      destruct (Nat.eq_dec k (attempts x - 1)) as [->|Hne]; [exact Hdown|].
      apply Hretried. lia.
    + split; [discriminate | intros Hup; contradiction].
Qed.

End DebugAdapterWait.

Section DebugAdapterWaitRuns.
Import Js PythonDebug PythonDebugLog Scenario.

Lemma waitForPythonDebugAdapter_rejections_witness :
  exists out,
    waitForPythonDebugAdapter 10 flakyWorld 5678 30000 = Some (Ok out) /\
    attempts (loopExit out) = 3%nat /\
    In (ErrorWhileTesting (PlainError "ECONNREFUSED")) (verbose (loopExit out)) /\
    In (ErrorWhileTesting (PlainError "ECONNRESET")) (verbose (loopExit out)).
Proof.
  destruct (waitForPythonDebugAdapter_rejections flakyWorld 10 5678 30000)
    as (_ & _ & _ & Hcaught).
  eexists. split; [reflexivity|]. split; [reflexivity|].
  destruct (Hcaught _ eq_refl) as [Hlog _].
  split; apply Hlog.
  - exists 0%nat. split; [simpl; lia | now left].
  - exists 1%nat. split; [simpl; lia | right; split; reflexivity].
Defined.

Lemma waitForPythonDebugAdapter_negative_timeout_witness :
  (-1 < 0)%Z /\
  (exists out,
     waitForPythonDebugAdapter 1 silentWorld 5678 (-1) = Some (Ok out) /\
     attempts (loopExit out) = 1%nat /\
     channelWarnings out = [notAvailableWarning]) /\
  waitForPythonDebugAdapter 1 leakyWorld 5678 (-1)
    = Some (Throw (PlainError "socket is closed")).
Proof.
  split; [lia|]. split.
  - destruct (waitForPythonDebugAdapter_negative_timeout silentWorld 0 5678 (-1))
      as (out & Hrun & Hatt & _ & _ & _ & Hwarn); [lia | simpl; lia |].
    exists out. split; [exact Hrun|]. split; [exact Hatt|].
    apply Hwarn. intros [Hc _]. discriminate.
  - apply (waitForPythonDebugAdapter_negative_timeout leakyWorld 0 5678 (-1));
      [lia | simpl; lia].
Defined.

Lemma waitForPythonDebugAdapter_retry_log_witness :
  exists out,
    waitForPythonDebugAdapter 10 lateWorld 5678 30000 = Some (Ok out) /\
    attempts (loopExit out) = 3%nat /\
    retries (verbose (loopExit out)) = 2%nat /\
    channelWarnings out = [].
Proof.
  eexists. split; [reflexivity|]. split; [reflexivity|].
  destruct (waitForPythonDebugAdapter_retry_log lateWorld 10 5678 30000 _ eq_refl)
    as (_ & Hret & _ & _ & Hquiet & _).
  split; [exact Hret|]. apply Hquiet. split; reflexivity.
Defined.

End DebugAdapterWaitRuns.

(** ** Listing log groups *)
Section LogGroupListing.
Import JsString Js LiveTail.

Variable describeLogGroups : string -> AsyncIter LogGroup.

Lemma fold_pushName (groups : list LogGroup) (acc : list string) :
  fold_left pushName groups acc
  = (acc ++ filter truthy
              (flat_map (fun g => match logGroupName g with
                                  | Some name => [name]
                                  | None => []
                                  end) groups))%list.
Proof.
  revert acc; induction groups as [|g groups IH]; intros acc; simpl.
  - now rewrite app_nil_r.
  - rewrite IH. unfold pushName. destruct (logGroupName g) as [name|]; simpl.
    + destruct (truthy name); simpl; [now rewrite <- app_assoc | reflexivity].
    + reflexivity.
Qed.

(** X14. The items offered for a region are the log groups that have a
    non-empty name, in the order of the listing: each item is labelled with
    the name it carries, a group without a name (or with an empty one) is
    left out, and there is never more than one item per group. When the
    listing fails, so does the lookup, with the same error and no items. *)
Theorem getLogGroupsFromRegion_items (regionCode : string) :
  let listing := describeLogGroups regionCode in
  (forall err, failure listing = Some err ->
     getLogGroupsFromRegion describeLogGroups regionCode = Throw err) /\
  (failure listing = None ->
     exists items,
       getLogGroupsFromRegion describeLogGroups regionCode = Ok items /\
       map data items
         = filter truthy
             (flat_map (fun g => match logGroupName g with
                                 | Some name => [name]
                                 | None => []
                                 end) (yielded listing)) /\
       Forall (fun item => label item = data item /\ truthy (data item) = true) items /\
       (forall name, In name (map data items) <->
          name <> "" /\ exists g, In g (yielded listing) /\ logGroupName g = Some name) /\
       List.length items <= List.length (yielded listing)).
Proof.
  cbv zeta. unfold getLogGroupsFromRegion, logGroupsToArray. split.
  - intros err ->. reflexivity.
  - intros ->. rewrite fold_pushName. simpl.
    set (names := filter truthy _).
    exists (map (fun n => {| label := n; data := n |}) names).
    assert (Hdata : map data (map (fun n => {| label := n; data := n |}) names) = names).
    { rewrite map_map. simpl. apply map_id. }
    split; [reflexivity|]. split; [exact Hdata|]. split; [|split].
    + apply Forall_forall. intros item Hin. apply in_map_iff in Hin as (n & <- & Hn).
      simpl. split; [reflexivity|]. unfold names in Hn.
      now apply filter_In in Hn.
    + intros name. rewrite Hdata. unfold names. rewrite filter_In, in_flat_map.
      split.
      * intros [(g & Hg & Hname) Ht]. split.
        -- intros ->. discriminate.
        -- exists g. split; [exact Hg|].
           destruct (logGroupName g) as [n|]; [|contradiction].
           destruct Hname as [->|[]]. reflexivity.
      * intros [Hne (g & Hg & Hname)]. split.
        -- exists g. split; [exact Hg|]. rewrite Hname. now left.
        -- destruct name; [congruence | reflexivity].
    + rewrite length_map. unfold names.
      eapply Nat.le_trans; [apply filter_length_le|].
      clear. induction (yielded (describeLogGroups regionCode)) as [|g l IH]; simpl;
        [lia|].
      rewrite length_app. destruct (logGroupName g); simpl; lia.
Qed.

End LogGroupListing.

(** ** Scrolling to the end of the tail *)
Section Scrolling.
Import LiveTail.
Local Open Scope Z_scope.

(** X15. [scrollTextDocument] reveals one position in every visible editor that
    shows the document and in no other, in the order of the editors: the
    start of the last line but one, or of the first line for a shorter
    document; the line is never negative and is a line of the document as
    soon as the document has one. *)
Theorem scrollTextDocument_reveals (visibleTextEditors : list TextEditor)
    (textDocument : string) :
  map fst (scrollTextDocument visibleTextEditors textDocument)
    = map editorId
        (filter (fun e => String.eqb (documentUri e) textDocument) visibleTextEditors) /\
  (forall id range, In (id, range) (scrollTextDocument visibleTextEditors textDocument) ->
     exists editor,
       In editor visibleTextEditors /\ editorId editor = id /\
       documentUri editor = textDocument /\
       startLine range = endLine range /\
       startCharacter range = 0 /\ endCharacter range = 0 /\
       0 <= startLine range /\
       (2 <= documentLineCount editor -> startLine range = documentLineCount editor - 2) /\
       (documentLineCount editor <= 2 -> startLine range = 0) /\
       (1 <= documentLineCount editor -> startLine range < documentLineCount editor)).
Proof.
  unfold scrollTextDocument. split.
  - now rewrite map_map.
  - intros id range Hin. apply in_map_iff in Hin as (editor & [= <- <-] & Hf).
    apply filter_In in Hf as [Hin Huri]. apply String.eqb_eq in Huri.
    exists editor. simpl. repeat split; auto; lia.
Qed.

End Scrolling.

Section ScrollingRuns.
Import LiveTail.

Lemma scrollTextDocument_reveals_witness :
  let editors :=
    [ {| editorId := 1; documentUri := "aws-cwl:a"; documentLineCount := 40 |};
      {| editorId := 2; documentUri := "file:b"; documentLineCount := 7 |};
      {| editorId := 3; documentUri := "aws-cwl:a"; documentLineCount := 1 |} ] in
  scrollTextDocument editors "aws-cwl:a"
    = [ (1%nat, scroll 40); (3%nat, scroll 1) ] /\
  exists editor,
    In editor editors /\ editorId editor = 3%nat /\
    startLine (scroll 1) = 0%Z.
Proof.
  cbv zeta. split; [reflexivity|].
  destruct (proj2 (scrollTextDocument_reveals
              [ {| editorId := 1; documentUri := "aws-cwl:a"; documentLineCount := 40 |};
                {| editorId := 2; documentUri := "file:b"; documentLineCount := 7 |};
                {| editorId := 3; documentUri := "aws-cwl:a"; documentLineCount := 1 |} ]
              "aws-cwl:a") 3%nat (scroll 1))
    as (editor & Hin & Hid & _ & _ & _ & _ & _ & _ & Hshort & _).
  - right; left; reflexivity.
  - exists editor. split; [exact Hin|]. split; [exact Hid | reflexivity].
Defined.

End ScrollingRuns.

(** ** Writing the live tail *)
Section LiveTailWriting.
Import JsString Js LiveTail.

Variable Json : Type.
Variable JSON_parse : string -> Result Json.
Variable jsonTruthy : Json -> bool.
Variable JSON_stringify : Json -> string.
Variable lineCountAt : nat -> Z.
Variable highlightTextDocument : nat -> string -> Result unit.

Local Abbreviation isJsonMessage := (isMessageJson Json JSON_parse jsonTruthy).
Local Abbreviation formatted := (formatMessage Json JSON_parse jsonTruthy JSON_stringify).
Local Abbreviation written := (writtenLine Json JSON_parse jsonTruthy JSON_stringify).
Local Abbreviation branchOf :=
  (eventBranch Json JSON_parse jsonTruthy JSON_stringify lineCountAt).
Local Abbreviation handle1 :=
  (handleEvent Json JSON_parse jsonTruthy JSON_stringify lineCountAt highlightTextDocument).
Local Abbreviation handled :=
  (handleResponseAsync Json JSON_parse jsonTruthy JSON_stringify
     lineCountAt highlightTextDocument).

(** X16. A message is rewritten exactly when it is recognised as JSON: then it
    becomes the indented rendering of the parsed value followed by a comma;
    text that does not parse, and JSON that parses to a falsy value, is
    written as it came. *)
Theorem formatMessage_follows_isMessageJson (message : option string) :
  (isJsonMessage message = false -> formatted message = message) /\
  (isJsonMessage message = true ->
     exists json,
       JSON_parse (render message) = Ok json /\ jsonTruthy json = true /\
       formatted message = Some (JSON_stringify json ++ ",")) /\
  (forall err, JSON_parse (render message) = Throw err ->
     isJsonMessage message = false /\ formatted message = message).
Proof.
  unfold isMessageJson, formatMessage.
  destruct (JSON_parse (render message)) as [json|err].
  - destruct (jsonTruthy json) eqn:Ht; repeat split; try discriminate; eauto.
  - repeat split; try discriminate; eauto.
Qed.

Lemma fold_insertLogEvent (i : nat) (results : list LiveTailSessionLogEvent) :
  forall (isJson isFirst : bool) (inserts : list Insert),
    snd (fold_left (insertLogEvent Json JSON_parse jsonTruthy JSON_stringify lineCountAt i)
                   results (isJson, isFirst, inserts))
    = (inserts ++ map (fun le => {| atLine := lineCountAt i; atCharacter := 0;
                                    text := written le |}) results)%list.
Proof.
  induction results as [|le results IH]; intros isJson isFirst inserts; simpl.
  - now rewrite app_nil_r.
  - rewrite IH. now rewrite <- app_assoc.
Qed.

Lemma insertedTexts_app (a b : list Effect) :
  insertedTexts (a ++ b) = (insertedTexts a ++ insertedTexts b)%list.
Proof. unfold insertedTexts. apply flat_map_app. Qed.

Lemma appliedEdits_app (a b : list Effect) :
  appliedEdits (a ++ b) = appliedEdits a + appliedEdits b.
Proof. unfold appliedEdits. now rewrite filter_app, length_app. Qed.

(** What the branch on the kind of an iterable event yields: console output
    only, and the lines of the event's log entries as inserts, all at the
    line count of the moment. *)
Lemma eventBranch_iterable (i : nat) (isJson : bool) (event : StreamEvent) :
  iterable event = true ->
  exists logged isJson' inserts,
    branchOf i isJson event = (logged, Ok (isJson', inserts)) /\
    insertedTexts logged = [] /\ appliedEdits logged = 0 /\
    ~ In ScrollTextDocument logged /\
    (forall p, ~ In (Highlight p) logged) /\
    map text inserts = map written (logEventsOf event) /\
    Forall (fun ins => atLine ins = lineCountAt i /\ atCharacter ins = 0%Z) inserts.
Proof.
  intros Hit. unfold eventBranch, iterable, logEventsOf in *.
  destruct (sessionStart event) as [started|].
  - do 3 eexists. split; [reflexivity|]. simpl. repeat split; auto.
    + intros [H|[]]; discriminate.
    + intros p [H|[]]; discriminate.
  - destruct (sessionUpdate event) as [update|].
    + destruct (sessionResults update) as [results|]; [|discriminate].
      pose proof (fold_insertLogEvent i results isJson true []) as Hfold.
      destruct (fold_left _ results (isJson, true, [])) as [[isJson' first'] inserts].
      simpl in Hfold. subst inserts.
      do 3 eexists. split; [reflexivity|]. simpl. repeat split; auto.
      * now rewrite map_map.
      * apply Forall_forall. intros ins Hin.
        apply in_map_iff in Hin as (le & <- & _). split; reflexivity.
    + do 3 eexists. split; [reflexivity|]. simpl. repeat split; auto.
      * intros [H|[]]; discriminate.
      * intros p [H|[]]; discriminate.
Qed.

(** An event that can be iterated, with no pattern to highlight or a
    highlighting that succeeds, hands exactly one edit to the editor. *)
Lemma handleEvent_written (pattern : string) (i : nat) (isJson : bool)
    (event : StreamEvent) :
  iterable event = true ->
  truthy pattern = false \/ highlightTextDocument i pattern = Ok tt ->
  exists effects isJson',
    handle1 pattern i isJson event = (effects, Ok isJson') /\
    insertedTexts effects = map written (logEventsOf event) /\
    appliedEdits effects = 1.
Proof.
  intros Hit Hhl.
  destruct (eventBranch_iterable i isJson event Hit)
    as (logged & isJson' & inserts & Hb & Ht & He & _ & _ & Hins & _).
  unfold handleEvent. rewrite Hb.
  destruct (truthy pattern) eqn:Hp.
  - destruct Hhl as [Hf|Hh]; [discriminate|]. rewrite Hh.
    do 2 eexists. split; [reflexivity|].
    rewrite !insertedTexts_app, !appliedEdits_app, Ht, He. simpl.
    rewrite ?app_nil_r. split; [exact Hins | reflexivity].
  - do 2 eexists. split; [reflexivity|].
    rewrite !insertedTexts_app, !appliedEdits_app, Ht, He. simpl.
    rewrite ?app_nil_r. split; [exact Hins | reflexivity].
Qed.

Lemma consume_written (pattern : string) (events : list StreamEvent)
    (streamFailure : option JsError) :
  forall (i : nat) (isJson : bool),
    Forall (fun e => iterable e = true) events ->
    truthy pattern = false \/ (forall k, highlightTextDocument k pattern = Ok tt) ->
    let effects :=
      consume Json JSON_parse jsonTruthy JSON_stringify lineCountAt
        highlightTextDocument pattern events streamFailure i isJson in
    insertedTexts effects
      = flat_map (fun e => map written (logEventsOf e)) events /\
    appliedEdits effects = List.length events.
Proof.
  induction events as [|event rest IH]; intros i isJson Hit Hhl; cbv zeta; simpl.
  - destruct streamFailure; split; reflexivity.
  - inversion Hit as [|? ? Hev Hrest]; subst.
    destruct (handleEvent_written pattern i isJson event Hev) as
      (effects & isJson' & Hrun & Htexts & Hedits).
    { destruct Hhl as [Hp|Hh]; [now left | right; apply Hh]. }
    rewrite Hrun. rewrite insertedTexts_app, appliedEdits_app, Htexts, Hedits.
    destruct (IH (S i) isJson' Hrest Hhl) as [IHt IHe]. cbv zeta in IHt, IHe.
    rewrite IHt, IHe. split; reflexivity.
Qed.

(** X17. Every log event of the stream is written once, in stream order, as its
    formatted message and a line break, one edit per stream event, as long
    as every session update has its results and highlighting (if a pattern
    was given) does not fail; a failure of the stream itself after its last
    event loses nothing. *)
Theorem handleResponseAsync_writes_every_event
    (stream : AsyncIter StreamEvent) (pattern : string) :
  Forall (fun e => iterable e = true) (yielded stream) ->
  truthy pattern = false \/ (forall k, highlightTextDocument k pattern = Ok tt) ->
  insertedTexts (handled (Some stream) pattern)
    = flat_map (fun e => map written (logEventsOf e)) (yielded stream) /\
  appliedEdits (handled (Some stream) pattern) = List.length (yielded stream).
Proof.
  intros Hit Hhl. unfold handleResponseAsync.
  apply (consume_written pattern (yielded stream) (failure stream) 0 true Hit Hhl).
Qed.

(** X18. When highlighting the pattern fails on the first event (the pattern is
    not a valid regular expression, say), the tail stops there: the first
    event is written, the error is logged, the document is not scrolled, and
    nothing of the rest of the stream reaches the document. *)
Theorem handleResponseAsync_stops_when_highlight_fails
    (first : StreamEvent) (rest : list StreamEvent)
    (streamFailure : option JsError) (pattern : string) (err : JsError) :
  iterable first = true ->
  truthy pattern = true ->
  highlightTextDocument 0 pattern = Throw err ->
  let effects :=
    handled (Some {| yielded := first :: rest; failure := streamFailure |}) pattern in
  insertedTexts effects = map written (logEventsOf first) /\
  appliedEdits effects = 1 /\
  last effects ScrollTextDocument = ConsoleErrorCaught err /\
  ~ In ScrollTextDocument effects.
Proof.
  intros Hit Hp Hh. cbv zeta. unfold handleResponseAsync. simpl.
  destruct (eventBranch_iterable 0 true first Hit)
    as (logged & isJson' & inserts & Hb & Ht & He & Hns & _ & Hins & _).
  unfold handleEvent. rewrite Hb, Hp, Hh.
  rewrite !insertedTexts_app, !appliedEdits_app, Ht, He. simpl.
  rewrite ?app_nil_r. split; [exact Hins|]. split; [reflexivity|]. split.
  - apply last_last.
  - intros Hin. apply in_app_or in Hin as [Hin|[Hin|[]]]; [|discriminate].
    apply in_app_or in Hin as [Hin|[Hin|[Hin|[]]]]; try discriminate.
    now apply Hns.
Qed.

End LiveTailWriting.

(** ** The Python CodeLens helpers *)
Section SplittingHandlerNames.
Import JsString Js PythonCodeLens.

Lemma splitOn_not_nil (sep : ascii) (s : string) : splitOn sep s <> [].
Proof.
  induction s as [|c s IH]; simpl; [discriminate|].
  destruct (Ascii.eqb c sep); [discriminate|].
  destruct (splitOn sep s); [contradiction | discriminate].
Qed.

Lemma hasChar_app (c : ascii) (a b : string) :
  hasChar c (a ++ b) = hasChar c a || hasChar c b.
Proof.
  induction a as [|d a IH]; simpl; [reflexivity|].
  rewrite IH. now rewrite orb_assoc.
Qed.

(** The first piece of a split holds no separator and is a prefix of the
    string; what follows it is nothing or starts with the separator. *)
Lemma splitOn_head (sep : ascii) (s : string) :
  hasChar sep (hd "" (splitOn sep s)) = false /\
  exists rest,
    s = hd "" (splitOn sep s) ++ rest /\
    (rest = "" \/ exists r, rest = String sep r).
Proof.
  induction s as [|c s [IHn (rest & IHs & IHr)]]; simpl.
  - split; [reflexivity|]. exists "". split; [reflexivity | now left].
  - destruct (Ascii.eqb c sep) eqn:Hc; simpl.
    + apply Ascii.eqb_eq in Hc; subst c. split; [reflexivity|].
      exists (String sep s). split; [reflexivity | right; now exists s].
    + pose proof (splitOn_not_nil sep s) as Hne.
      destruct (splitOn sep s) as [|piece pieces]; [contradiction|]. simpl in *.
      rewrite Hc, IHn. split; [reflexivity|].
      exists rest. split; [now rewrite <- IHs | exact IHr].
Qed.

Lemma splitOn_app (sep : ascii) (a b : string) :
  hasChar sep a = false ->
  splitOn sep (a ++ String sep b) = a :: splitOn sep b.
Proof.
  induction a as [|c a IH]; simpl; intros Ha.
  - now rewrite Ascii.eqb_refl.
  - apply orb_false_iff in Ha as [Hc Ha]. rewrite Hc, (IH Ha). reflexivity.
Qed.

Lemma splitOn_whole (sep : ascii) (a : string) :
  hasChar sep a = false -> splitOn sep a = [a].
Proof.
  induction a as [|c a IH]; simpl; intros Ha; [reflexivity|].
  apply orb_false_iff in Ha as [Hc Ha]. rewrite Hc, (IH Ha). reflexivity.
Qed.

(** Appending a separator and more text does not change the first piece. *)
Lemma splitOn_head_app (sep : ascii) (a b : string) :
  hd "" (splitOn sep (a ++ String sep b)) = hd "" (splitOn sep a).
Proof.
  induction a as [|c a IH]; simpl.
  - now rewrite Ascii.eqb_refl.
  - destruct (Ascii.eqb c sep); [reflexivity|].
    pose proof (splitOn_not_nil sep (a ++ String sep b)) as H1.
    pose proof (splitOn_not_nil sep a) as H2.
    destruct (splitOn sep (a ++ String sep b)); [contradiction|].
    destruct (splitOn sep a); [contradiction|]. simpl in *. now rewrite IH.
Qed.

End SplittingHandlerNames.

Section PythonDebugFiles.
Import JsString Js PythonCodeLens.

Variable path_join : string -> string -> string.
Variable EOL : string.
Variable WAIT_FOR_DEBUGGER_MESSAGE_PYTHON : string.
Variable fileExists : string -> bool.
Variable readFileAsString : string -> Result string.
Variable writeFile : string -> string -> Result unit.

Local Abbreviation makeDebugFile :=
  (makeLambdaDebugFile path_join WAIT_FOR_DEBUGGER_MESSAGE_PYTHON writeFile).
Local Abbreviation makeManifest :=
  (makePythonDebugManifest path_join EOL fileExists readFileAsString writeFile).

(** X19. Without an output directory nothing is written and the one error is
    thrown unlogged.  Otherwise exactly one file is written: it is named
    after the part of the handler name before its first dot, which is also
    the module the generated code imports from; a failed write is logged and
    rethrown; and on success the debug handler name is again of the form
    [file.function], its file part being the name of the written file. *)
Theorem makeLambdaDebugFile_outcome (params : LambdaDebugFileParams) :
  let done := makeDebugFile params in
  let pieces := splitOn "."%char (handlerName params) in
  let prefix := hd "" pieces in
  let path := path_join (outputDir params) (prefix ++ "___vsctk___debug.py") in
  let template :=
    debugFileTemplate WAIT_FOR_DEBUGGER_MESSAGE_PYTHON prefix (nth_error pieces 1)
      "lambda_handler" (debugPort params) in
  (outputDir params = "" ->
     returned done = Throw (PlainError "Must specify outputDir") /\
     writes done = [] /\ loggedErrors done = []) /\
  (outputDir params <> "" ->
     hasChar "."%char prefix = false /\
     (exists rest, handlerName params = prefix ++ rest /\
                   (rest = "" \/ exists r, rest = String "."%char r)) /\
     writes done = [(path, template)] /\
     (forall err, writeFile path template = Throw err ->
        returned done = Throw err /\ loggedErrors done = [err]) /\
     (writeFile path template = Ok tt ->
        exists file,
          returned done = Ok file /\ loggedErrors done = [] /\
          outFilePath file = path /\
          debugHandlerName file = prefix ++ "___vsctk___debug.lambda_handler" /\
          splitOn "."%char (debugHandlerName file)
            = [prefix ++ "___vsctk___debug"; "lambda_handler"] /\
          outFilePath file
            = path_join (outputDir params)
                (hd "" (splitOn "."%char (debugHandlerName file)) ++ ".py"))).
Proof.
  cbv zeta. unfold makeLambdaDebugFile. split.
  - intros ->. simpl. repeat split.
  - intros Hdir.
    assert (Ht : truthy (outputDir params) = true)
      by (destruct (outputDir params); [congruence | reflexivity]).
    rewrite Ht. simpl negb. cbv iota.
    destruct (splitOn_head "."%char (handlerName params)) as [Hno Hrest].
    set (prefix := hd "" (splitOn "."%char (handlerName params))) in *.
    assert (Hpath : (prefix ++ "___vsctk___debug") ++ ".py"
                    = prefix ++ "___vsctk___debug.py")
      by (rewrite append_assoc; reflexivity).
    rewrite Hpath.
    split; [exact Hno|]. split; [exact Hrest|].
    destruct (writeFile _ _) as [[]|err] eqn:Hw; simpl.
    + split; [reflexivity|]. split; [intros e He; discriminate|].
      intros _. eexists. split; [reflexivity|]. simpl.
      assert (Hname : (prefix ++ "___vsctk___debug") ++ "." ++ "lambda_handler"
                      = prefix ++ "___vsctk___debug.lambda_handler")
        by (rewrite append_assoc; reflexivity).
      assert (Hsplit : splitOn "."%char ((prefix ++ "___vsctk___debug") ++ "." ++ "lambda_handler")
                       = [prefix ++ "___vsctk___debug"; "lambda_handler"]).
      { change ("." ++ "lambda_handler") with (String "."%char "lambda_handler").
        rewrite splitOn_app; [reflexivity|].
        rewrite hasChar_app, Hno. reflexivity. }
      repeat split; try exact Hname; try exact Hsplit.
      change (path_join (outputDir params) (prefix ++ "___vsctk___debug.py")
              = path_join (outputDir params)
                  (hd "" (splitOn "."%char
                            ((prefix ++ "___vsctk___debug") ++ "." ++ "lambda_handler"))
                   ++ ".py")).
      rewrite Hsplit. simpl. now rewrite Hpath.
    + split; [reflexivity|]. split.
      * intros e [= <-]. split; reflexivity.
      * discriminate.
Qed.

Lemma substring_middle (a n b : string) :
  substring (String.length a) (String.length n) (a ++ n ++ b) = n.
Proof.
  induction a as [|c a IH]; simpl; [apply substring_prefix | exact IH].
Qed.

Lemma indexOf_found (needle a b : string) :
  needle <> "" -> (0 <= indexOf needle (a ++ needle ++ b))%Z.
Proof.
  intros Hne. unfold indexOf.
  destruct (String.index 0 needle (a ++ needle ++ b)) as [n|] eqn:Hi; [lia|].
  exfalso.
  apply (index_correct3 0 (String.length a) needle _ Hi Hne); [lia|].
  apply substring_middle.
Qed.

(** X20. The debug manifest: when the project's requirements (none, if the file
    does not exist) do not mention [ptvsd], exactly one file is written,
    holding the original text unchanged followed by a line that requires
    [ptvsd], and its path is returned; when they already mention it, nothing
    is written and there is no path; a failed read writes nothing. *)
Theorem makePythonDebugManifest_outcome (samProjectCodeRoot outputDir_ : string) :
  let done := makeManifest samProjectCodeRoot outputDir_ in
  let manifest := path_join samProjectCodeRoot "requirements.txt" in
  let target := path_join outputDir_ "debug-requirements.txt" in
  (forall err, fileExists manifest = true -> readFileAsString manifest = Throw err ->
     returned done = Throw err /\ writes done = []) /\
  (forall original,
     (fileExists manifest = true /\ readFileAsString manifest = Ok original) \/
     (fileExists manifest = false /\ original = "") ->
     ((0 <= indexOf "ptvsd" original)%Z ->
        returned done = Ok None /\ writes done = []) /\
     ((indexOf "ptvsd" original < 0)%Z ->
        writes done = [(target, original ++ EOL ++ "ptvsd>4.2,<5")] /\
        (0 <= indexOf "ptvsd" (original ++ EOL ++ "ptvsd>4.2,<5"))%Z /\
        (writeFile target (original ++ EOL ++ "ptvsd>4.2,<5") = Ok tt ->
           returned done = Ok (Some target)) /\
        (forall err, writeFile target (original ++ EOL ++ "ptvsd>4.2,<5") = Throw err ->
           returned done = Throw err))).
Proof.
  cbv zeta. unfold makePythonDebugManifest. split.
  - intros err -> ->. split; reflexivity.
  - intros original Hread.
    assert (Hr : (if fileExists (path_join samProjectCodeRoot "requirements.txt")
                  then readFileAsString (path_join samProjectCodeRoot "requirements.txt")
                  else Ok "") = Ok original).
    { destruct Hread as [[-> ->]|[-> ->]]; reflexivity. }
    rewrite Hr. split.
    + intros Hhas. apply Z.ltb_ge in Hhas. rewrite Hhas. split; reflexivity.
    + intros Hnot. pose proof Hnot as Hlt. apply Z.ltb_lt in Hlt. rewrite Hlt.
      assert (Hfound : (0 <= indexOf "ptvsd" (original ++ EOL ++ "ptvsd>4.2,<5"))%Z).
      { replace (original ++ EOL ++ "ptvsd>4.2,<5")
          with ((original ++ EOL) ++ "ptvsd" ++ ">4.2,<5")
          by (rewrite append_assoc; reflexivity).
        apply indexOf_found. discriminate. }
      destruct (writeFile _ _) as [[]|err] eqn:Hw; simpl;
        repeat split; try exact Hfound; try discriminate; try reflexivity.
      intros e [= <-]. reflexivity.
Qed.

End PythonDebugFiles.

Section PythonDebugManifestTwice.
Import JsString Js PythonCodeLens.

(** X21. The manifest that was written needs no override: run on a project whose
    requirements are the text of a debug manifest, the function writes
    nothing and returns no path, whatever the file system does. *)
Theorem makePythonDebugManifest_written_once
    (path_join : string -> string -> string) (EOL : string)
    (fileExists : string -> bool) (readFileAsString : string -> Result string)
    (writeFile : string -> string -> Result unit)
    (samProjectCodeRoot outputDir_ original : string) :
  let manifest := path_join samProjectCodeRoot "requirements.txt" in
  fileExists manifest = true ->
  readFileAsString manifest = Ok (original ++ EOL ++ "ptvsd>4.2,<5") ->
  let again :=
    makePythonDebugManifest path_join EOL fileExists readFileAsString writeFile
      samProjectCodeRoot outputDir_ in
  returned again = Ok None /\ writes again = [].
Proof.
  cbv zeta. intros He Hr. unfold makePythonDebugManifest. rewrite He, Hr.
  assert (Hfound : (0 <= indexOf "ptvsd" (original ++ EOL ++ "ptvsd>4.2,<5"))%Z).
  { replace (original ++ EOL ++ "ptvsd>4.2,<5")
      with ((original ++ EOL) ++ "ptvsd" ++ ">4.2,<5")
      by (rewrite append_assoc; reflexivity).
    apply indexOf_found. discriminate. }
  apply Z.ltb_ge in Hfound. rewrite Hfound. split; reflexivity.
Qed.

End PythonDebugManifestTwice.

Section HandlerCandidates.
Import JsString Js PythonCodeLens.

Variable path_parse_name : string -> string.
Variable executeDocumentSymbolProvider : string -> Result (option (list DocumentSymbol)).

Local Abbreviation candidatesOf :=
  (getLambdaHandlerCandidates path_parse_name executeDocumentSymbolProvider).

(** X22. The handler candidates of a file are its top-level symbols of kind
    Function, in document order, each named [module.function] after the
    file; symbols of other kinds contribute nothing, whatever they contain;
    no symbols at all (or none provided) gives no candidates.  The part of a
    candidate's handler name before its first dot, which is what the debug
    file is named after, is that of the module name. *)
Theorem getLambdaHandlerCandidates_top_level_functions
    (fsPath : string) (provided : option (list DocumentSymbol)) :
  executeDocumentSymbolProvider fsPath = Ok provided ->
  let symbols := match provided with Some l => l | None => [] end in
  exists candidates,
    candidatesOf fsPath = Ok candidates /\
    map candidateHandlerName candidates
      = map (fun s => path_parse_name fsPath ++ "." ++ symbolName s)
            (filter (fun s => (symbolKind s =? SymbolKind_Function)%Z) symbols) /\
    map candidateRange candidates
      = map symbolRange
            (filter (fun s => (symbolKind s =? SymbolKind_Function)%Z) symbols) /\
    Forall (fun c => filename c = fsPath) candidates /\
    List.length candidates <= List.length symbols /\
    (provided = None -> candidates = []) /\
    Forall (fun c =>
              hd "" (splitOn "."%char (candidateHandlerName c))
              = hd "" (splitOn "."%char (path_parse_name fsPath))) candidates.
Proof.
  intros Hp. cbv zeta. unfold getLambdaHandlerCandidates. rewrite Hp.
  eexists. split; [reflexivity|].
  set (symbols := match provided with Some l => l | None => [] end).
  set (functions := filter _ symbols).
  repeat split.
  - now rewrite map_map.
  - now rewrite map_map.
  - apply Forall_forall. intros c Hc. apply in_map_iff in Hc as (s & <- & _).
    reflexivity.
  - rewrite length_map. apply filter_length_le.
  - intros ->. reflexivity.
  - apply Forall_forall. intros c Hc. apply in_map_iff in Hc as (s & <- & _).
    simpl. change ("." ++ symbolName s) with (String "."%char (symbolName s)).
    apply splitOn_head_app.
Qed.

End HandlerCandidates.

(** ** More scenarios, run *)
Section MoreScenarioRuns.
Import JsString Js LiveTail PythonCodeLens MoreScenarios.

Lemma getLogGroupsFromRegion_items_witness :
  failure sampleListing = None /\
  exists items,
    getLogGroupsFromRegion (fun _ => sampleListing) "us-east-1" = Ok items /\
    map data items = ["/aws/lambda/a"; "/aws/lambda/b"].
Proof.
  split; [reflexivity|].
  destruct (proj2 (getLogGroupsFromRegion_items (fun _ => sampleListing) "us-east-1")
              eq_refl) as (items & Hrun & Hdata & _).
  exists items. split; [exact Hrun | exact Hdata].
Defined.

Lemma formatMessage_follows_isMessageJson_witness :
  isMessageJson string sampleParse (fun _ => true) (Some "plain") = false /\
  formatMessage string sampleParse (fun _ => true) (fun j => j) (Some "plain")
    = Some "plain" /\
  formatMessage string sampleParse (fun _ => true) (fun j => j) None = None.
Proof.
  split; [reflexivity|]. split.
  - apply (proj1 (formatMessage_follows_isMessageJson string sampleParse
                    (fun _ => true) (fun j => j) (Some "plain"))).
    reflexivity.
  - apply (proj2 (proj2 (formatMessage_follows_isMessageJson string sampleParse
                           (fun _ => true) (fun j => j) None))
             (PlainError "SyntaxError")).
    reflexivity.
Defined.

Lemma handleResponseAsync_writes_every_event_witness :
  let effects :=
    handleResponseAsync string sampleParse (fun _ => true) (fun j => j)
      (fun _ => 1%Z) workingHighlight (Some sampleStream) "ERROR" in
  insertedTexts effects = ["{}," ++ newline; "plain" ++ newline] /\
  appliedEdits effects = 2.
Proof.
  cbv zeta.
  apply (handleResponseAsync_writes_every_event string sampleParse (fun _ => true)
           (fun j => j) (fun _ => 1%Z) workingHighlight sampleStream "ERROR").
  - repeat constructor.
  - right. intros k. reflexivity.
Defined.

Lemma handleResponseAsync_stops_when_highlight_fails_witness :
  let effects :=
    handleResponseAsync string sampleParse (fun _ => true) (fun j => j)
      (fun _ => 1%Z) failingHighlight (Some sampleStream) "[ERROR" in
  insertedTexts effects = [] /\
  appliedEdits effects = 1 /\
  last effects ScrollTextDocument
    = ConsoleErrorCaught (PlainError "Invalid regular expression") /\
  ~ In ScrollTextDocument effects.
Proof.
  cbv zeta.
  apply (handleResponseAsync_stops_when_highlight_fails string sampleParse
           (fun _ => true) (fun j => j) (fun _ => 1%Z) failingHighlight
           {| sessionStart := Some "session"; sessionUpdate := None |}
           (tl (yielded sampleStream)) None "[ERROR"
           (PlainError "Invalid regular expression"));
    reflexivity.
Defined.

Lemma makeLambdaDebugFile_outcome_witness :
  outputDir sampleParams <> "" /\
  exists file,
    returned (makeLambdaDebugFile sampleJoin "Waiting for debugger" sampleWrite sampleParams)
      = Ok file /\
    outFilePath file = "/tmp/project/app___vsctk___debug.py" /\
    debugHandlerName file = "app___vsctk___debug.lambda_handler".
Proof.
  assert (Hdir : outputDir sampleParams <> "") by discriminate.
  split; [exact Hdir|].
  destruct (proj2 (proj2 (proj2 (proj2
              (proj2 (makeLambdaDebugFile_outcome sampleJoin "Waiting for debugger"
                        sampleWrite sampleParams) Hdir)))) eq_refl)
    as (file & Hret & _ & Hpath & Hname & _).
  exists file. split; [exact Hret|]. split; [exact Hpath | exact Hname].
Defined.

Lemma makePythonDebugManifest_outcome_witness :
  let done :=
    makePythonDebugManifest sampleJoin nl (fun _ => true) sampleRead sampleWrite
      "/tmp/project" "/tmp/build" in
  (indexOf "ptvsd" "requests" < 0)%Z /\
  writes done = [("/tmp/build/debug-requirements.txt", "requests" ++ nl ++ "ptvsd>4.2,<5")] /\
  returned done = Ok (Some "/tmp/build/debug-requirements.txt").
Proof.
  cbv zeta.
  assert (Hnot : (indexOf "ptvsd" "requests" < 0)%Z) by (vm_compute; reflexivity).
  split; [exact Hnot|].
  destruct (proj2 (proj2 (makePythonDebugManifest_outcome sampleJoin nl (fun _ => true)
                            sampleRead sampleWrite "/tmp/project" "/tmp/build")
                     "requests" (or_introl (conj eq_refl eq_refl))) Hnot)
    as (Hw & _ & Hok & _).
  split; [exact Hw | exact (Hok eq_refl)].
Defined.

Lemma makePythonDebugManifest_written_once_witness :
  let again :=
    makePythonDebugManifest sampleJoin nl (fun _ => true)
      (fun _ => Ok ("requests" ++ nl ++ "ptvsd>4.2,<5")) sampleWrite
      "/tmp/project" "/tmp/build" in
  returned again = Ok None /\ writes again = [].
Proof.
  cbv zeta.
  apply (makePythonDebugManifest_written_once sampleJoin nl (fun _ => true)
           (fun _ => Ok ("requests" ++ nl ++ "ptvsd>4.2,<5")) sampleWrite
           "/tmp/project" "/tmp/build" "requests" eq_refl eq_refl).
Defined.

Lemma getLambdaHandlerCandidates_top_level_functions_witness :
  exists candidates,
    getLambdaHandlerCandidates (fun _ => "app") (fun _ => Ok (Some sampleSymbols))
      "/tmp/project/app.py" = Ok candidates /\
    map candidateHandlerName candidates = ["app.lambda_handler"].
Proof.
  destruct (getLambdaHandlerCandidates_top_level_functions (fun _ => "app")
              (fun _ => Ok (Some sampleSymbols)) "/tmp/project/app.py"
              (Some sampleSymbols) eq_refl)
    as (candidates & Hrun & Hnames & _).
  exists candidates. split; [exact Hrun | exact Hnames].
Defined.

End MoreScenarioRuns.

(** ** The Python debug configuration *)
Section PythonDebugConfigurations.
Import JsString Js PythonDebugConfig.

Variables WorkspaceFolder RuntimeFamily Globals Properties : Type.
Variable RuntimeFamily_Python : RuntimeFamily.
Variable isWin32 : bool.
Variable DRIVE_LETTER_REGEX_test : string -> bool.
Variable replaceDriveLetter : (string -> string) -> string -> string.
Variable toLowerCase toUpperCase : string -> string.
Variable makeBuildDir : Result string.
Variable getHandlerRelativePath : string -> string -> string.
Variable getRelativeFunctionHandler : string -> string -> string -> string.
Variable getLambdaInfoFromExistingTemplate :
  WorkspaceFolder -> string -> Result (option (LambdaInfo Globals Properties)).
Variable makeInputTemplate :
  string -> string -> string -> option Globals -> option Properties -> string ->
  Result string.
Variable getStartPort : Result Z.
Variable path_join : string -> string -> string.
Variable EOL : string.
Variable WAIT_FOR_DEBUGGER_MESSAGE_PYTHON : string.
Variable fileExists : string -> bool.
Variable readFileAsString : string -> Result string.
Variable writeFile : string -> string -> Result unit.

Local Abbreviation makeConfig :=
  (makePythonDebugConfig WorkspaceFolder RuntimeFamily Globals Properties
     RuntimeFamily_Python isWin32 DRIVE_LETTER_REGEX_test replaceDriveLetter
     toLowerCase toUpperCase makeBuildDir getHandlerRelativePath
     getRelativeFunctionHandler getLambdaInfoFromExistingTemplate makeInputTemplate
     getStartPort path_join EOL WAIT_FOR_DEBUGGER_MESSAGE_PYTHON fileExists
     readFileAsString writeFile).

(** X23. Whatever configuration is returned: the original handler name and the
    original template path are the same as the current ones, [noDebug] is
    false (also when not debugging), the request is an attach, every path
    mapping goes to [/var/task] and there are one or two of them, and a
    template path that was passed in is the one used.  Without debugging
    nothing is written, there is no debug port, the port is -1, the
    manifest path is ['unknown'] and the handler name is the one given. *)
Theorem makePythonDebugConfig_shape
    (isDebug : bool) (folder : WorkspaceFolder)
    (samProjectCodeRoot_ runtime_ handlerName_ fsPath : string)
    (samTemplatePath_ : option string)
    (config : PythonDebugConfiguration WorkspaceFolder RuntimeFamily) :
  let done :=
    makeConfig isDebug folder samProjectCodeRoot_ runtime_ handlerName_ fsPath
      samTemplatePath_ in
  PythonCodeLens.returned done = Ok config ->
  handlerName _ _ config = originalHandlerName _ _ config /\
  samTemplatePath _ _ config = originalSamTemplatePath _ _ config /\
  noDebug _ _ config = false /\
  request _ _ config = "attach" /\
  port _ _ config = match debugPort _ _ config with Some p => p | None => (-1)%Z end /\
  Forall (fun m => remoteRoot m = "/var/task") (pathMappings _ _ config) /\
  1 <= List.length (pathMappings _ _ config) <= 2 /\
  (forall given, samTemplatePath_ = Some given -> samTemplatePath _ _ config = given) /\
  (isDebug = false ->
     PythonCodeLens.writes done = [] /\
     debugPort _ _ config = None /\ port _ _ config = (-1)%Z /\
     outFilePath _ _ config = None /\
     manifestPath _ _ config = "unknown" /\
     handlerName _ _ config = handlerName_).
Proof.
  cbv zeta. unfold makePythonDebugConfig.
  destruct (prepareTemplate _ _ _ _ _ _ _ _ _ _ _ _ _ _) as [[build template]|err] eqn:Hprep;
    simpl; [|discriminate].
  destruct (PythonCodeLens.returned (debugBlock _ _ _ _ _ _ _ _ _ _ _)) as [parts|err]
    eqn:Hblock; [|discriminate].
  intros [= <-]. simpl.
  split; [reflexivity|]. split; [reflexivity|]. split; [reflexivity|].
  split; [reflexivity|]. split; [reflexivity|]. split; [|split; [|split]].
  - apply Forall_forall. intros m Hm. apply in_map_iff in Hm as (v & <- & _).
    reflexivity.
  - rewrite length_map. unfold getLocalRootVariants.
    destruct (isWin32 && DRIVE_LETTER_REGEX_test samProjectCodeRoot_); simpl; lia.
  - intros given ->. unfold prepareTemplate in Hprep.
    destruct makeBuildDir; [|discriminate].
    destruct (getLambdaInfoFromExistingTemplate _ _); [|discriminate].
    now injection Hprep as _ <-.
  - intros ->. unfold debugBlock in *. simpl in *.
    injection Hblock as <-. simpl. repeat split.
Qed.

(** X24. Debugging: the configuration carries the start port twice, names the
    generated debug handler as its handler (and as its "original" handler
    too), points at the debug file written into the code root, which cannot
    be empty; one or two files were written, the debug file first, and the
    manifest path is ['unknown'] when the manifest needed no override. *)
Theorem makePythonDebugConfig_debugging
    (folder : WorkspaceFolder)
    (samProjectCodeRoot_ runtime_ handlerName_ fsPath : string)
    (samTemplatePath_ : option string)
    (config : PythonDebugConfiguration WorkspaceFolder RuntimeFamily) :
  let done :=
    makeConfig true folder samProjectCodeRoot_ runtime_ handlerName_ fsPath
      samTemplatePath_ in
  let prefix := hd "" (PythonCodeLens.splitOn "."%char handlerName_) in
  let debugFile := path_join samProjectCodeRoot_ (prefix ++ "___vsctk___debug.py") in
  PythonCodeLens.returned done = Ok config ->
  samProjectCodeRoot_ <> "" /\
  (exists startPort,
     getStartPort = Ok startPort /\
     debugPort _ _ config = Some startPort /\ port _ _ config = startPort) /\
  handlerName _ _ config = prefix ++ "___vsctk___debug.lambda_handler" /\
  originalHandlerName _ _ config = prefix ++ "___vsctk___debug.lambda_handler" /\
  outFilePath _ _ config = Some debugFile /\
  (exists template more,
     PythonCodeLens.writes done = (debugFile, template) :: more /\
     (more = [] -> manifestPath _ _ config = "unknown") /\
     (forall w, more = [w] ->
        fst w = path_join (baseBuildDir _ _ config) "debug-requirements.txt" /\
        manifestPath _ _ config = fst w /\
        (0 <= PythonCodeLens.indexOf "ptvsd" (snd w))%Z) /\
     List.length more <= 1).
Proof.
  cbv zeta. unfold makePythonDebugConfig.
  destruct (prepareTemplate _ _ _ _ _ _ _ _ _ _ _ _ _ _) as [[build template]|err] eqn:Hprep;
    simpl; [|discriminate].
  unfold debugBlock.
  destruct getStartPort as [startPort|err]; simpl; [|discriminate].
  unfold PythonCodeLens.makeLambdaDebugFile. simpl.
  destruct (truthy samProjectCodeRoot_) eqn:Hroot; simpl; [|discriminate].
  assert (Hpath : (hd "" (PythonCodeLens.splitOn "."%char handlerName_)
                   ++ "___vsctk___debug") ++ ".py"
                  = hd "" (PythonCodeLens.splitOn "."%char handlerName_)
                    ++ "___vsctk___debug.py")
    by (rewrite append_assoc; reflexivity).
  assert (Hname : (hd "" (PythonCodeLens.splitOn "."%char handlerName_)
                   ++ "___vsctk___debug") ++ "." ++ "lambda_handler"
                  = hd "" (PythonCodeLens.splitOn "."%char handlerName_)
                    ++ "___vsctk___debug.lambda_handler")
    by (rewrite append_assoc; reflexivity).
  rewrite Hpath.
  destruct (writeFile (path_join samProjectCodeRoot_ _) _) as [[]|err] eqn:Hw; simpl;
    [|discriminate].
  unfold PythonCodeLens.makePythonDebugManifest.
  destruct (if fileExists _ then readFileAsString _ else Ok "") as [original|err];
    simpl; [|discriminate].
  destruct (PythonCodeLens.indexOf "ptvsd" original <? 0)%Z eqn:Hidx; simpl.
  - destruct (writeFile (path_join build _) _) as [[]|err] eqn:Hw2; simpl;
      [|discriminate].
    intros [= <-]. simpl.
    split; [intros ->; discriminate|]. split; [eauto|].
    split; [exact Hname|]. split; [exact Hname|]. split; [reflexivity|].
    do 2 eexists. split; [reflexivity|]. split; [discriminate|]. split; [|simpl; lia].
    intros w [= <-]. simpl. split; [reflexivity|]. split; [reflexivity|].
    replace (original ++ EOL ++ "ptvsd>4.2,<5")
      with ((original ++ EOL) ++ "ptvsd" ++ ">4.2,<5")
      by (rewrite append_assoc; reflexivity).
    apply indexOf_found. discriminate.
  - intros [= <-]. simpl.
    split; [intros ->; discriminate|]. split; [eauto|].
    split; [exact Hname|]. split; [exact Hname|]. split; [reflexivity|].
    do 2 eexists. split; [reflexivity|]. split; [reflexivity|]. split; [|simpl; lia].
    intros w H. discriminate H.
Qed.

End PythonDebugConfigurations.

Section PythonDebugConfigurationRuns.
Import JsString Js PythonCodeLens PythonDebugConfig MoreScenarios.

Lemma makePythonDebugConfig_shape_witness :
  exists config,
    returned (sampleConfig false) = Ok config /\
    writes (sampleConfig false) = [] /\
    port unit unit config = (-1)%Z /\
    manifestPath unit unit config = "unknown" /\
    PythonDebugConfig.handlerName unit unit config = "app.lambda_handler" /\
    originalHandlerName unit unit config = "app.lambda_handler".
Proof.
  eexists. split; [reflexivity|].
  pose proof (makePythonDebugConfig_shape unit unit unit unit tt
                false (fun _ => false) (fun _ path => path) (fun s => s) (fun s => s)
                (Ok "/tmp/build") (fun _ path => path) (fun handler _ _ => handler)
                (fun _ _ => Ok None) (fun _ _ _ _ _ _ => Ok "/tmp/build/template.yaml")
                (Ok 5678%Z) sampleJoin nl "Waiting for debugger" (fun _ => true)
                sampleRead sampleWrite
                false tt "/tmp/project" "python3.8" "app.lambda_handler"
                "/tmp/project/app.py" None _ eq_refl) as H.
  destruct H as (Horig & _ & _ & _ & _ & _ & _ & _ & Hplain).
  destruct (Hplain eq_refl) as (Hw & _ & Hport & _ & Hm & Hh).
  split; [exact Hw|]. split; [exact Hport|]. split; [exact Hm|].
  split; [exact Hh|]. rewrite <- Horig. exact Hh.
Defined.

Lemma makePythonDebugConfig_debugging_witness :
  exists config,
    returned (sampleConfig true) = Ok config /\
    PythonDebugConfig.handlerName unit unit config = "app___vsctk___debug.lambda_handler" /\
    originalHandlerName unit unit config = "app___vsctk___debug.lambda_handler" /\
    PythonDebugConfig.outFilePath unit unit config
      = Some "/tmp/project/app___vsctk___debug.py".
Proof.
  eexists. split; [reflexivity|].
  pose proof (makePythonDebugConfig_debugging unit unit unit unit tt
                false (fun _ => false) (fun _ path => path) (fun s => s) (fun s => s)
                (Ok "/tmp/build") (fun _ path => path) (fun handler _ _ => handler)
                (fun _ _ => Ok None) (fun _ _ _ _ _ _ => Ok "/tmp/build/template.yaml")
                (Ok 5678%Z) sampleJoin nl "Waiting for debugger" (fun _ => true)
                sampleRead sampleWrite
                tt "/tmp/project" "python3.8" "app.lambda_handler"
                "/tmp/project/app.py" None _ eq_refl) as H.
  destruct H as (_ & _ & Hh & Ho & Hf & _).
  split; [exact Hh|]. split; [exact Ho | exact Hf].
Defined.

End PythonDebugConfigurationRuns.
